(** * Plutus: conversation orchestration and agent routing

    A shallow embedding of the orchestration core of Plutus
    ([src/plutus/agents/advanced_orchestrator.py], [base_agent.py],
    [orchestrator.py]), of the context service
    ([src/plutus/services/context_service.py]) and of the completeness
    score and the net worth of [src/plutus/services/data_service.py].

    Conventions of the embedding.
    - Python [str] is [string]; messages are ASCII, [str.lower] maps
      [A-Z] to [a-z] and the operator [in] on strings is substring search.
    - Python numbers that the code compares or multiplies ([score *= 1.5],
      [risk_score > 40], clock differences) are exact rationals [Q]. The
      classifier computes its scores in binary64; [float_scores_agree]
      shows that its comparisons come out the same on every score that
      can occur.
    - A raised [Exception] is its message [str(e)]; code that may raise
      returns an [outcome]. What [except Exception] does not catch
      (cancellation, interrupts) is outside the model.
    - Dictionaries used as structs (agent results, routing analysis, the
      response of a turn) are records; open dictionaries (metadata,
      [financial_personality], the context cache) are [gmap string _];
      a dictionary whose iteration order matters ([routing_patterns],
      [routing_scores]) is an association list in insertion order.
    - Agent results are typed as the agents of the repository produce
      them: [response] is a string, [analysis] a mapping, its
      [overall_risk_score] a number.
    - Effects are threaded through a world [W] by a state and exception
      monad; the collaborators outside the core (clock, core logic of the
      agents, event loop, context service, LangGraph) are the fields of
      [Env]. Logging is not modelled; the performance counters of an
      agent, which are written and never read on these paths, are
      modelled apart, in [Monitor]. *)

From Stdlib Require Import QArith Qabs Qminmax Ascii Floats Sorted Lqa.
From stdpp Require Import gmap strings list.

(** ** Python primitives *)

(** Outcome of a call that may raise. *)
Inductive outcome (A : Type) : Type :=
  | Ok (a : A)
  | Raise (e : string).
Arguments Ok {A} a.
Arguments Raise {A} e.

Module Py.

(** [c.lower()] for one ASCII character. *)
Definition lower_ascii (c : ascii) : ascii :=
  let n := nat_of_ascii c in
  if (65 <=? n)%nat && (n <=? 90)%nat then ascii_of_nat (n + 32) else c.

(** [s.lower()] *)
Fixpoint lower (s : string) : string :=
  match s with
  | EmptyString => EmptyString
  | String c s' => String (lower_ascii c) (lower s')
  end.

(** [kw in s] for two strings. *)
Fixpoint str_in (kw s : string) : bool :=
  String.prefix kw s ||
  match s with
  | EmptyString => false
  | String _ s' => str_in kw s'
  end.

(** [x < y] on numbers. *)
Definition Qltb (x y : Q) : bool := negb (Qle_bool y x).

(** [max(l, key=key)] keeps the first of the maximal elements: the
    running maximum is replaced only by a strictly greater item. *)
Fixpoint max_go {A : Type} (key : A -> Q) (best : A) (l : list A) : A :=
  match l with
  | [] => best
  | x :: l' => max_go key (if Qltb (key best) (key x) then x else best) l'
  end.

Definition max {A : Type} (key : A -> Q) (l : list A) : outcome A :=
  match l with
  | [] => Raise "max() arg is an empty sequence"
  | x :: l' => Ok (max_go key x l')
  end.

(** [d[k]] on a dictionary kept in insertion order. *)
Fixpoint getitem {A : Type} (d : list (string * A)) (k : string) : outcome A :=
  match d with
  | [] => Raise k
  | (k', v) :: d' => if String.eqb k' k then Ok v else getitem d' k
  end.

End Py.

(** ** IntentClassifier: [AdvancedOrchestrator._analyze_conversation_routing] *)

Record Pattern : Type := mkPattern {
  keywords : list string;
  agents : list string;
  priority : string
}.

Record RoutingScore : Type := mkRoutingScore {
  score : Q;
  matched_keywords : list string;
  score_agents : list string;
  score_priority : string
}.

Record RoutingAnalysis : Type := mkRoutingAnalysis {
  selected_routing : string;
  routing_confidence : Q;
  routing_matched_keywords : list string;
  agents_to_run : list string;
  execution_strategy : string;
  all_scores : list (string * RoutingScore)
}.

(** [self.routing_patterns], in declaration order. *)
Definition routing_patterns : list (string * Pattern) :=
  [ ("financial_analysis",
     mkPattern ["financial health"; "net worth"; "portfolio"; "balance"; "wealth score"]
               ["financial_analysis"] "high");
    ("goal_planning",
     mkPattern ["goal"; "save for"; "planning"; "target"; "want to"]
               ["goal_extraction"; "recommendation"] "high");
    ("risk_assessment",
     mkPattern ["risk"; "safe"; "volatile"; "protection"; "conservative"; "aggressive"]
               ["risk_assessment"; "recommendation"] "medium");
    ("investment_advice",
     mkPattern ["invest"; "stocks"; "bonds"; "portfolio"; "allocation"]
               ["financial_analysis"; "risk_assessment"; "recommendation"] "high");
    ("debt_management",
     mkPattern ["debt"; "loan"; "pay off"; "credit card"]
               ["financial_analysis"; "risk_assessment"; "recommendation"] "high");
    ("comprehensive_analysis",
     mkPattern ["advice"; "recommendation"; "what should"; "help me"]
               ["financial_analysis"; "goal_extraction"; "risk_assessment"; "recommendation"]
               "medium") ].

(** The keyword loop: [(score, matched_keywords)] after the given keywords. *)
Fixpoint match_keywords (kws : list string) (message_lower : string)
    (acc : Z * list string) : Z * list string :=
  match kws with
  | [] => acc
  | keyword :: kws' =>
      match_keywords kws' message_lower
        (if Py.str_in keyword message_lower
         then ((fst acc + 1)%Z, snd acc ++ [keyword])
         else acc)
  end.

(** Priority weighting of the raw count. *)
Definition weight_score (priority : string) (count : Z) : Q :=
  if String.eqb priority "high" then inject_Z count * (3 # 2)
  else if String.eqb priority "medium" then inject_Z count * (6 # 5)
  else inject_Z count.

(** The same weighting in binary64, as Python computes it: the count is
    an [int], the multipliers are the floats nearest to 1.5 and 1.2. *)
Definition float_weight_score (priority : string) (count : Z) : float :=
  let score := PrimFloat.of_uint63 (Uint63.of_Z count) in
  if String.eqb priority "high" then PrimFloat.mul score 1.5%float
  else if String.eqb priority "medium"
       then PrimFloat.mul score 0x1.3333333333333p+0%float
       else score.

(** One iteration of the loop over [routing_patterns.items()]. *)
Definition score_pattern (message_lower : string) (pattern_data : Pattern)
    : RoutingScore :=
  let '(count, matched) := match_keywords (keywords pattern_data) message_lower (0%Z, []) in
  {| score := weight_score (priority pattern_data) count;
     matched_keywords := matched;
     score_agents := agents pattern_data;
     score_priority := priority pattern_data |}.

Definition routing_scores_of (patterns : list (string * Pattern))
    (message_lower : string) : list (string * RoutingScore) :=
  map (fun p => (fst p, score_pattern message_lower (snd p))) patterns.

(** [best_routing = max(routing_scores.items(), key=lambda x: x[1]["score"])] *)
Definition best_routing_of (routing_scores : list (string * RoutingScore))
    : outcome (string * RoutingScore) :=
  Py.max (fun x => score (snd x)) routing_scores.

Definition analyze_with (patterns : list (string * Pattern)) (user_message : string)
    : outcome RoutingAnalysis :=
  let message_lower := Py.lower user_message in
  let routing_scores := routing_scores_of patterns message_lower in
  match best_routing_of routing_scores with
  | Raise e => Raise e
  | Ok (routing_name, routing_data) =>
      let fallback :=
        if Py.Qltb (score routing_data) 1
        then match Py.getitem routing_scores "comprehensive_analysis" with
             | Ok d => Ok ("comprehensive_analysis", d)
             | Raise e => Raise e
             end
        else Ok (routing_name, routing_data) in
      match fallback with
      | Raise e => Raise e
      | Ok (routing_name, routing_data) =>
          let agents_to_run := score_agents routing_data in
          let execution_strategy :=
            if (1 <? length agents_to_run)%nat then "parallel" else "single" in
          Ok {| selected_routing := routing_name;
                routing_confidence := Qmin (score routing_data / 3) 1;
                routing_matched_keywords := matched_keywords routing_data;
                agents_to_run := agents_to_run;
                execution_strategy := execution_strategy;
                all_scores := routing_scores |}
      end
  end.

(** The classifier of the orchestrator; the conversation state is not read. *)
Definition _analyze_conversation_routing (user_message : string)
    : outcome RoutingAnalysis :=
  analyze_with routing_patterns user_message.

(** ** Effects: a state and exception monad over the outside world

    [W] is the world outside the orchestration core: the wall clock, the
    completion service behind the agents, the files of the data service.
    A computation takes a world and returns normally or raises. *)

Definition M (W A : Type) : Type := W -> outcome A * W.

Definition ret {W A : Type} (a : A) : M W A := fun w => (Ok a, w).

Definition raise {W A : Type} (e : string) : M W A := fun w => (Raise e, w).

Definition bind {W A B : Type} (m : M W A) (k : A -> M W B) : M W B :=
  fun w => match m w with
           | (Ok a, w') => k a w'
           | (Raise e, w') => (Raise e, w')
           end.

(** [try: m  except Exception as e: h(str(e))] *)
Definition try_except {W A : Type} (m : M W A) (h : string -> M W A) : M W A :=
  fun w => match m w with
           | (Ok a, w') => (Ok a, w')
           | (Raise e, w') => h e w'
           end.

(** A pure step that may raise. *)
Definition lift {W A : Type} (o : outcome A) : M W A := fun w => (o, w).

Notation "x <- m ;; k" := (bind m (fun x => k))
  (at level 100, m at next level, right associativity).

(** ** Data model *)

(** Values of the open dictionaries ([metadata], [financial_personality]).
    An ISO timestamp string is kept as the instant it renders. *)
Inductive Value : Type :=
  | VNone
  | VStr (s : string)
  | VNum (q : Q)
  | VTime (t : Q)
  | VList (l : list string)
  | VRouting (r : RoutingAnalysis).

(** Values of the open dictionaries of a user context. *)
Inductive Trait : Type :=
  | TStr (s : string)
  | TNum (q : Q)
  | TList (l : list string).

(** The [analysis] mapping of an agent result: the entry read by the
    synthesizer and the remaining entries. *)
Record Analysis : Type := mkAnalysis {
  overall_risk_score : option Q;
  other_entries : gmap string Value
}.

(** The result mapping of one agent invocation, as [BaseAgent.process]
    returns it. [response], [analysis] and [error] may be absent. *)
Record AgentResult : Type := mkAgentResult {
  agent_name : string;
  agent_type : string;
  success : bool;
  execution_time : Q;
  error : option string;
  response : option string;
  analysis : option Analysis
}.

(** What [_process_core_logic] returns, as far as the keys that
    [process] does not overwrite are read later. *)
Record CoreResult : Type := mkCoreResult {
  core_response : option string;
  core_analysis : option Analysis;
  core_error : option string
}.

(** [UserContext] of [models/state.py]. *)
Record UserContext : Type := mkUserContext {
  user_id : string;
  name : option string;
  age : option Z;
  location : option string;
  accounts : list (gmap string Trait);
  net_worth : Q;
  monthly_income : Q;
  monthly_expenses : Q;
  goals : list (gmap string Trait);
  goal_progress : gmap string Q;
  wealth_health_score : Q;
  component_scores : gmap string Q;
  risk_tolerance : option string;
  investment_experience : option string;
  financial_personality : gmap string Trait;
  recent_topics : list string;
  common_questions : list string;
  preferences : gmap string Trait;
  last_updated : Q;
  context_version : Z;
  completeness_score : Q
}.

(** The conversation state built by the advanced orchestrator. *)
Record ConversationState : Type := mkConversationState {
  user_message : string;
  state_user_id : string;
  session_id : string;
  user_context : UserContext;
  state_agent_results : list AgentResult;
  conversation_history : list string;
  state_metadata : gmap string Value
}.

(** The response mapping of a turn. *)
Record TurnResult : Type := mkTurnResult {
  turn_success : bool;
  turn_error : option string;
  turn_response : string;
  metadata : gmap string Value;
  agent_results : list AgentResult;
  routing_decisions : list string
}.

(** An agent object: the attributes [process] reads from [self]. *)
Record Agent : Type := mkAgent {
  self_agent_name : string;
  self_agent_type : option string
}.

(** What [workflow.ainvoke] returns, as far as it is read. *)
Record GraphResult : Type := mkGraphResult {
  final_response : option string;
  graph_agent_results : option (list AgentResult);
  graph_routing_decisions : option (list string)
}.

(** The collaborators outside the core. *)
Record Env (W : Type) : Type := mkEnv {
  (** [time.time()], [datetime.utcnow()] *)
  clock : W -> Q;
  (** [str] of a float inside an f-string *)
  repr_float : Q -> string;
  (** [_process_core_logic] of the agent subclasses *)
  core_logic : Agent -> ConversationState -> M W CoreResult;
  (** the completion order chosen by the event loop: which of the still
      pending tasks of [asyncio.gather] finishes at each step *)
  schedule : nat -> nat;
  (** [context_service.get_user_context] *)
  service_get_user_context : string -> M W UserContext;
  LANGGRAPH_AVAILABLE : bool;
  (** [self.workflow] and its [ainvoke] *)
  workflow : option (ConversationState -> RoutingAnalysis -> M W GraphResult)
}.
Arguments clock {W}.
Arguments repr_float {W}.
Arguments core_logic {W}.
Arguments schedule {W}.
Arguments service_get_user_context {W}.
Arguments LANGGRAPH_AVAILABLE {W}.
Arguments workflow {W}.

(** The same collaborators under another completion order. *)
Definition with_schedule {W : Type} (env : Env W) (sched : nat -> nat) : Env W :=
  {| clock := clock env;
     repr_float := repr_float env;
     core_logic := core_logic env;
     schedule := sched;
     service_get_user_context := service_get_user_context env;
     LANGGRAPH_AVAILABLE := LANGGRAPH_AVAILABLE env;
     workflow := workflow env |}.

(** ** AgentUnit: [BaseAgent.process] *)

Definition time_time {W : Type} (env : Env W) : M W Q :=
  fun w => (Ok (clock env w), w).

(** [getattr(self, 'agent_type', 'unknown')] *)
Definition getattr_agent_type (self : Agent) : string :=
  match self_agent_type self with
  | Some t => t
  | None => "unknown"
  end.

Definition process {W : Type} (env : Env W) (self : Agent)
    (state : ConversationState) : M W AgentResult :=
  start_time <- time_time env ;;
  try_except
    (result <- core_logic env self state ;;
     now <- time_time env ;;
     let execution_time := (now - start_time)%Q in
     ret {| agent_name := self_agent_name self;
            agent_type := getattr_agent_type self;
            success := true;
            execution_time := execution_time;
            error := core_error result;
            response := core_response result;
            analysis := core_analysis result |})
    (fun e =>
     now <- time_time env ;;
     let execution_time := (now - start_time)%Q in
     ret {| agent_name := self_agent_name self;
            agent_type := getattr_agent_type self;
            success := false;
            execution_time := execution_time;
            error := Some e;
            response :=
              Some ("I encountered an error while processing your request: " +:+ e);
            analysis := None |}).

(** ** ResultSynthesizer: [_synthesize_agent_results] *)

Module Synth.

Definition newline : string := String "010"%char EmptyString.

Definition apology : string :=
  "I apologize, but I encountered issues analyzing your request. Please try again.".

Definition generic_summary : string :=
  "I've analyzed your financial situation across multiple dimensions. While I don't have specific recommendations at this moment, your overall financial health appears to be on track.".

Definition closing : string :=
  newline +:+ "This analysis considered your complete financial picture including goals, risk factors, and opportunities for optimization.".

(** Truth value of [result.get("response")]. *)
Definition has_response (result : AgentResult) : bool :=
  match response result with
  | Some s => negb (String.eqb s "")
  | None => false
  end.

(** Truth value of the mapping [result.get("analysis", {})]. *)
Definition has_analysis (result : AgentResult) : bool :=
  match analysis result with
  | Some a =>
      match overall_risk_score a with
      | Some _ => true
      | None => (0 <? size (other_entries a))%nat
      end
  | None => false
  end.

(** [type_scores.get(agent_type, 0.5)] *)
Definition type_scores (agent_type : string) : Q :=
  if String.eqb agent_type "financial_analysis" then 1
  else if String.eqb agent_type "recommendation" then 9 # 10
  else if String.eqb agent_type "goal_extraction" then 8 # 10
  else if String.eqb agent_type "risk_assessment" then 7 # 10
  else 5 # 10.

Definition calculate_priority_score (result : AgentResult) : Q :=
  let score := (0 + type_scores (agent_type result))%Q in
  let response := default "" (response result) in
  let score :=
    if (100 <? String.length response)%nat then (score + (3 # 10))%Q
    else if (50 <? String.length response)%nat then (score + (1 # 10))%Q
    else score in
  let score := if has_analysis result then (score + (2 # 10))%Q else score in
  if success result then (score + (1 # 10))%Q else score.

(** [sorted(l, key=key, reverse=True)]: descending and stable. *)
Fixpoint insert_desc {A : Type} (key : A -> Q) (x : A) (l : list A) : list A :=
  match l with
  | [] => [x]
  | y :: l' => if Py.Qltb (key x) (key y) then y :: insert_desc key x l' else x :: l
  end.

Definition sorted_reverse {A : Type} (key : A -> Q) (l : list A) : list A :=
  foldr (insert_desc key) [] l.

Definition _prioritize_agent_results (agent_results : list AgentResult)
    : list AgentResult :=
  sorted_reverse calculate_priority_score agent_results.

(** [next((r for r in results if r.get("agent_type") == t), None)] *)
Definition next_of_type (t : string) (results : list AgentResult)
    : option AgentResult :=
  List.find (fun r => String.eqb (agent_type r) t) results.

(** [result.get("analysis", {}).get("overall_risk_score", 0)] *)
Definition risk_score_of (result : AgentResult) : Q :=
  match analysis result with
  | Some a => default 0%Q (overall_risk_score a)
  | None => 0%Q
  end.

(** The part a result of the given type adds to [response_parts]. *)
Definition plain_part (o : option AgentResult) : list string :=
  match o with
  | Some r => if has_response r then [default "" (response r)] else []
  | None => []
  end.

Definition risk_part (o : option AgentResult) : list string :=
  match o with
  | Some r =>
      if has_response r
      then if Py.Qltb 40 (risk_score_of r) then [default "" (response r)] else []
      else []
  | None => []
  end.

Definition _synthesize_agent_results (agent_results : list AgentResult) : string :=
  let successful_results := List.filter success agent_results in
  match successful_results with
  | [] => apology
  | _ =>
      let prioritized_results := _prioritize_agent_results successful_results in
      let response_parts :=
        plain_part (next_of_type "financial_analysis" prioritized_results)
        ++ plain_part (next_of_type "goal_extraction" prioritized_results)
        ++ risk_part (next_of_type "risk_assessment" prioritized_results)
        ++ plain_part (next_of_type "recommendation" prioritized_results) in
      let response_parts :=
        match response_parts with
        | [] => [generic_summary]
        | _ => response_parts
        end in
      let response_parts :=
        if (1 <? length successful_results)%nat
        then response_parts ++ [closing]
        else response_parts in
      String.concat (newline +:+ newline) response_parts
  end.

End Synth.

(** ** ExecutionCoordinator: [_execute_fallback_workflow] *)

Definition financial_agent : Agent :=
  mkAgent "Financial Analysis Agent" (Some "financial_analysis").
Definition goal_agent : Agent :=
  mkAgent "Goal Extraction Agent" (Some "goal_extraction").
Definition recommendation_agent : Agent :=
  mkAgent "Recommendation Agent" (Some "recommendation").
Definition risk_agent : Agent :=
  mkAgent "Risk Assessment Agent" (Some "risk_assessment").

Definition agent_map : list (string * Agent) :=
  [ ("financial_analysis", financial_agent);
    ("goal_extraction", goal_agent);
    ("recommendation", recommendation_agent);
    ("risk_assessment", risk_agent) ].

(** [agent_map.get(agent_name)] *)
Definition _get_agent_by_name (agent_name : string) : option Agent :=
  match Py.getitem agent_map agent_name with
  | Ok a => Some a
  | Raise _ => None
  end.

(** [asyncio.gather] over [tasks] with [return_exceptions=True]. The pending tasks
    finish one at a time, in the order the schedule picks; a task that
    finishes has run against the world left by those before it, and its
    outcome goes to the slot of its position in [tasks]. *)
Fixpoint gather_go {W A : Type} (sched : nat -> nat) (tasks : list (M W A))
    (fuel step : nat) (pending : list nat) (slots : list (option (outcome A)))
    (w : W) : list (option (outcome A)) * W :=
  match fuel with
  | O => (slots, w)
  | S fuel' =>
      let k := (sched step mod length pending)%nat in
      match pending !! k with
      | None => (slots, w)
      | Some i =>
          match (tasks !! i : option (M W A)) with
          | None => (slots, w)
          | Some t =>
              let '(r, w') := t w in
              gather_go sched tasks fuel' (S step) (delete k pending)
                        (<[i := Some r]> slots) w'
          end
      end
  end.

Definition gather {W A : Type} (sched : nat -> nat) (tasks : list (M W A))
    : M W (list (outcome A)) :=
  fun w =>
    let n := length tasks in
    let '(slots, w') := gather_go sched tasks n 0 (seq 0 n) (replicate n None) w in
    (Ok (omap id slots), w').

(** The sequential loop: each unit sees the results of the earlier ones. *)
Fixpoint run_sequential {W : Type} (env : Env W) (names : list string)
    (state : ConversationState) (agent_results : list AgentResult)
    : M W (list AgentResult) :=
  match names with
  | [] => ret agent_results
  | agent_name :: names' =>
      match _get_agent_by_name agent_name with
      | Some agent =>
          result <- process env agent state ;;
          let agent_results := agent_results ++ [result] in
          let state :=
            {| user_message := user_message state;
               state_user_id := state_user_id state;
               session_id := session_id state;
               user_context := user_context state;
               state_agent_results := agent_results;
               conversation_history := conversation_history state;
               state_metadata := state_metadata state |} in
          run_sequential env names' state agent_results
      | None => run_sequential env names' state agent_results
      end
  end.

(** The parallel branch. *)
Definition run_parallel {W : Type} (env : Env W) (names : list string)
    (state : ConversationState) : M W (list AgentResult) :=
  let tasks :=
    omap (fun agent_name =>
            match _get_agent_by_name agent_name with
            | Some agent => Some (process env agent state)
            | None => None
            end) names in
  match tasks with
  | [] => ret []
  | _ =>
      results <- gather (schedule env) tasks ;;
      ret (omap (fun result => match result with
                               | Ok r => Some r
                               | Raise _ => None
                               end) results)
  end.

Definition _create_error_response {W : Type} (env : Env W) (error_message : string)
    : M W TurnResult :=
  now <- time_time env ;;
  ret {| turn_success := false;
         turn_error := Some error_message;
         turn_response :=
           "I encountered an issue processing your request. Please try rephrasing your question.";
         metadata :=
           <["timestamp" := VTime now]>
           (<["processing_time" := VNum 0]>
           (<["workflow_type" := VStr "error"]>
           (<["orchestrator_type" := VStr "advanced"]> ∅)));
         agent_results := [];
         routing_decisions := [] |}.

Definition fallback_metadata (state : ConversationState)
    (routing_analysis : RoutingAnalysis) (agent_results : list AgentResult)
    : gmap string Value :=
  <["successful_agents" :=
      VNum (inject_Z (Z.of_nat (length (List.filter success agent_results))))]>
  (<["agents_run" := VNum (inject_Z (Z.of_nat (length agent_results)))]>
  (<["routing_analysis" := VRouting routing_analysis]>
  (<["agents_used" := VList (map agent_name (List.filter success agent_results))]>
  (<["execution_strategy" := VStr (execution_strategy routing_analysis)]>
  (<["workflow_type" := VStr "fallback"]> (state_metadata state)))))).

Definition _execute_fallback_workflow {W : Type} (env : Env W)
    (state : ConversationState) (routing_analysis : RoutingAnalysis)
    : M W TurnResult :=
  let agents_to_run := agents_to_run routing_analysis in
  let execution_strategy := execution_strategy routing_analysis in
  try_except
    (agent_results <-
       (if String.eqb execution_strategy "parallel"
        then run_parallel env agents_to_run state
        else run_sequential env agents_to_run state []) ;;
     let final_response := Synth._synthesize_agent_results agent_results in
     ret {| turn_success := true;
            turn_error := None;
            turn_response := final_response;
            metadata := fallback_metadata state routing_analysis agent_results;
            agent_results := agent_results;
            routing_decisions := [] |})
    (fun e => _create_error_response env ("Workflow execution failed: " +:+ e)).

(** ** The turn: [AdvancedOrchestrator.process_message] *)

Definition _execute_langgraph_workflow {W : Type} (env : Env W)
    (state : ConversationState) (routing_analysis : RoutingAnalysis)
    : M W TurnResult :=
  try_except
    (match workflow env with
     | None => raise "'NoneType' object has no attribute 'ainvoke'"
     | Some ainvoke =>
         result <- ainvoke state routing_analysis ;;
         let graph_results := default [] (graph_agent_results result) in
         ret {| turn_success := true;
                turn_error := None;
                turn_response := default "" (final_response result);
                metadata :=
                  <["routing_analysis" := VRouting routing_analysis]>
                  (<["agents_used" := VList (map agent_name graph_results)]>
                  (<["workflow_type" := VStr "langgraph"]> (state_metadata state)));
                agent_results := graph_results;
                routing_decisions := default [] (graph_routing_decisions result) |}
     end)
    (fun e => _execute_fallback_workflow env state routing_analysis).

Definition _build_conversation_state {W : Type} (env : Env W)
    (user_message user_id : string) (session_id : option string)
    : M W ConversationState :=
  user_context <- service_get_user_context env user_id ;;
  now <- time_time env ;;
  let session_id :=
    match session_id with
    | Some s => if String.eqb s "" then None else Some s
    | None => None
    end in
  let generated := "session_" +:+ user_id +:+ "_" +:+ repr_float env now in
  start <- time_time env ;;
  ret {| user_message := user_message;
         state_user_id := user_id;
         session_id := default generated session_id;
         user_context := user_context;
         state_agent_results := [];
         conversation_history := [];
         state_metadata :=
           <["routing_decisions" := VList []]>
           (<["agents_used" := VList []]>
           (<["orchestrator_type" := VStr "advanced"]>
           (<["start_time" := VTime start]> ∅))) |}.

(** The methods [process_message] reaches through [self]; a subclass may
    override any of them. *)
Record Orchestrator (W : Type) : Type := mkOrchestrator {
  build_conversation_state : string -> string -> option string -> M W ConversationState;
  analyze_conversation_routing : string -> ConversationState -> M W RoutingAnalysis;
  execute_langgraph_workflow : ConversationState -> RoutingAnalysis -> M W TurnResult;
  execute_fallback_workflow : ConversationState -> RoutingAnalysis -> M W TurnResult;
  (** [self.workflow and LANGGRAPH_AVAILABLE] *)
  workflow_available : bool
}.
Arguments build_conversation_state {W}.
Arguments analyze_conversation_routing {W}.
Arguments execute_langgraph_workflow {W}.
Arguments execute_fallback_workflow {W}.
Arguments workflow_available {W}.

Definition set_processing_time (result : TurnResult) (processing_time : Q)
    : TurnResult :=
  {| turn_success := turn_success result;
     turn_error := turn_error result;
     turn_response := turn_response result;
     metadata := <["processing_time" := VNum processing_time]> (metadata result);
     agent_results := agent_results result;
     routing_decisions := routing_decisions result |}.

(** The body of the [try] of [process_message]. *)
Definition process_message_body {W : Type} (env : Env W) (self : Orchestrator W)
    (user_message user_id : string) (session_id : option string)
    : M W TurnResult :=
  start_time <- time_time env ;;
  state <- build_conversation_state self user_message user_id session_id ;;
  routing_analysis <- analyze_conversation_routing self user_message state ;;
  result <-
    (if workflow_available self
     then execute_langgraph_workflow self state routing_analysis
     else execute_fallback_workflow self state routing_analysis) ;;
  now <- time_time env ;;
  let processing_time := (now - start_time)%Q in
  ret (set_processing_time result processing_time).

Definition process_message {W : Type} (env : Env W) (self : Orchestrator W)
    (user_message user_id : string) (session_id : option string)
    : M W TurnResult :=
  try_except
    (process_message_body env self user_message user_id session_id)
    (fun e =>
     _create_error_response env ("Advanced orchestration failed: " +:+ e)).

(** A fault in one of the steps of the turn: building the state,
    classification, or execution with synthesis. *)
Inductive step_fault {W : Type} (self : Orchestrator W)
    (user_message user_id : string) (session_id : option string) (w : W)
    (e : string) (w1 : W) : Prop :=
  | fault_in_state :
      build_conversation_state self user_message user_id session_id w = (Raise e, w1) ->
      step_fault self user_message user_id session_id w e w1
  | fault_in_classification (state : ConversationState) (w0 : W) :
      build_conversation_state self user_message user_id session_id w = (Ok state, w0) ->
      analyze_conversation_routing self user_message state w0 = (Raise e, w1) ->
      step_fault self user_message user_id session_id w e w1
  | fault_in_execution (state : ConversationState) (ra : RoutingAnalysis) (w0 w0' : W) :
      build_conversation_state self user_message user_id session_id w = (Ok state, w0) ->
      analyze_conversation_routing self user_message state w0 = (Ok ra, w0') ->
      (if workflow_available self
       then execute_langgraph_workflow self state ra
       else execute_fallback_workflow self state ra) w0' = (Raise e, w1) ->
      step_fault self user_message user_id session_id w e w1.

(** The class as the repository defines it. *)
Definition AdvancedOrchestrator {W : Type} (env : Env W) : Orchestrator W :=
  {| build_conversation_state := _build_conversation_state env;
     analyze_conversation_routing :=
       fun user_message state => lift (_analyze_conversation_routing user_message);
     execute_langgraph_workflow := _execute_langgraph_workflow env;
     execute_fallback_workflow := _execute_fallback_workflow env;
     workflow_available :=
       match workflow env with
       | Some _ => LANGGRAPH_AVAILABLE env
       | None => false
       end |}.

(** ** The turn: [PlutusOrchestrator.process_message] *)

Module Plutus.

(** The keys of the conversation state that the turn reads back. *)
Record State : Type := mkState {
  p_user_message : string;
  intent_classification : option string;
  complexity_level : option string;
  confidence_score : option Q;
  agents_to_invoke : option (list string)
}.

(** The steps [process_message] calls; [R] is the mapping of agent
    results handed from [_execute_agents] to [_synthesize_response]. *)
Record Methods (W R : Type) : Type := mkMethods {
  create_conversation_state : string -> string -> option string -> M W State;
  (** [orchestrator_agent.execute]: the [success] attribute of its
      result and the state it has updated *)
  orchestrator_agent_execute : State -> M W (bool * State);
  _execute_agents : State -> list string -> M W R;
  _synthesize_response : State -> R -> M W string;
  update_context_from_conversation : string -> State -> M W unit
}.
Arguments create_conversation_state {W R}.
Arguments orchestrator_agent_execute {W R}.
Arguments _execute_agents {W R}.
Arguments _synthesize_response {W R}.
Arguments update_context_from_conversation {W R}.

Definition option_value {A : Type} (f : A -> Value) (o : option A) : Value :=
  match o with
  | Some a => f a
  | None => VNone
  end.

Definition _create_error_response (error_message : string) (processing_time : Q)
    : TurnResult :=
  {| turn_success := false;
     turn_error := Some error_message;
     turn_response :=
       "I'm sorry, I encountered an issue processing your request. Please try again or rephrase your question.";
     metadata :=
       <["error_details" := VStr error_message]>
       (<["processing_time" := VNum processing_time]> ∅);
     agent_results := [];
     routing_decisions := [] |}.

(** The body of the [try] of [process_message]. *)
Definition process_message_body {W R : Type} (env : Env W) (self : Methods W R)
    (user_message user_id : string) (session_id : option string) (start_time : Q)
    : M W TurnResult :=
  state <- create_conversation_state self user_message user_id session_id ;;
  orchestrator_result <- orchestrator_agent_execute self state ;;
  let state := snd orchestrator_result in
  if negb (fst orchestrator_result)
  then
    now <- time_time env ;;
    ret (_create_error_response "Failed to analyze request" (now - start_time)%Q)
  else
    let agents := default [] (agents_to_invoke state) in
    agent_results <- _execute_agents self state agents ;;
    final_response <- _synthesize_response self state agent_results ;;
    _ <- update_context_from_conversation self user_id state ;;
    now <- time_time env ;;
    let total_time := (now - start_time)%Q in
    ret {| turn_success := true;
           turn_error := None;
           turn_response := final_response;
           metadata :=
             <["confidence" := VNum (default 0%Q (confidence_score state))]>
             (<["processing_time" := VNum total_time]>
             (<["agents_used" := VList agents]>
             (<["complexity" := option_value VStr (complexity_level state)]>
             (<["intent" := option_value VStr (intent_classification state)]> ∅))));
           agent_results := [];
           routing_decisions := [] |}.

Definition process_message {W R : Type} (env : Env W) (self : Methods W R)
    (user_message user_id : string) (session_id : option string)
    : M W TurnResult :=
  start_time <- time_time env ;;
  try_except
    (process_message_body env self user_message user_id session_id start_time)
    (fun e =>
     now <- time_time env ;;
     ret (_create_error_response e (now - start_time)%Q)).

(** A fault in one of the steps of the turn. *)
Inductive step_fault {W R : Type} (self : Methods W R)
    (user_message user_id : string) (session_id : option string) (w : W)
    (e : string) (w1 : W) : Prop :=
  | fault_in_state :
      create_conversation_state self user_message user_id session_id w
      = (Raise e, w1) ->
      step_fault self user_message user_id session_id w e w1
  | fault_in_classification (state : State) (w2 : W) :
      create_conversation_state self user_message user_id session_id w
      = (Ok state, w2) ->
      orchestrator_agent_execute self state w2 = (Raise e, w1) ->
      step_fault self user_message user_id session_id w e w1
  | fault_in_execution (state state' : State) (w2 w3 : W) :
      create_conversation_state self user_message user_id session_id w
      = (Ok state, w2) ->
      orchestrator_agent_execute self state w2 = (Ok (true, state'), w3) ->
      _execute_agents self state' (default [] (agents_to_invoke state')) w3
      = (Raise e, w1) ->
      step_fault self user_message user_id session_id w e w1
  | fault_in_synthesis (state state' : State) (rs : R) (w2 w3 w4 : W) :
      create_conversation_state self user_message user_id session_id w
      = (Ok state, w2) ->
      orchestrator_agent_execute self state w2 = (Ok (true, state'), w3) ->
      _execute_agents self state' (default [] (agents_to_invoke state')) w3
      = (Ok rs, w4) ->
      _synthesize_response self state' rs w4 = (Raise e, w1) ->
      step_fault self user_message user_id session_id w e w1
  | fault_in_context_update (state state' : State) (rs : R) (text : string)
      (w2 w3 w4 w5 : W) :
      create_conversation_state self user_message user_id session_id w
      = (Ok state, w2) ->
      orchestrator_agent_execute self state w2 = (Ok (true, state'), w3) ->
      _execute_agents self state' (default [] (agents_to_invoke state')) w3
      = (Ok rs, w4) ->
      _synthesize_response self state' rs w4 = (Ok text, w5) ->
      update_context_from_conversation self user_id state' w5 = (Raise e, w1) ->
      step_fault self user_message user_id session_id w e w1.

End Plutus.

(** ** The completion call: [BaseAgent.call_claude] *)

Module Claude.

(** Modelled from the spec: the kinds of failure of the completion
    service (sections 6 and 7). The code catches every [Exception] and
    does not tell the kinds apart. *)
Inductive ErrorKind : Type :=
  | Timeout
  | RateLimited
  | QuotaExceeded
  | NetworkError
  | InvalidOutput
  | UnitCrash.

(** Modelled from the spec: the kinds section 7 calls recoverable. *)
Definition recoverable (k : ErrorKind) : bool :=
  match k with
  | Timeout | RateLimited | NetworkError => true
  | _ => false
  end.

(** The message object [messages.create] returns. *)
Record Message : Type := mkMessage {
  content : list string;
  usage_input_tokens : Z;
  usage_output_tokens : Z
}.

(** [self.claude_client]: the reply to a prompt, given how many requests
    the client has served before. *)
Definition Client : Type := string -> nat -> ErrorKind + Message.

(** The fields of [PlutusConfig] that the call reads, and [max_retries]. *)
Record Config : Type := mkConfig {
  cost_per_input_token : Q;
  cost_per_output_token : Q;
  max_retries : Z
}.

(** The mutable state the call touches: the requests sent, the pauses
    taken with [asyncio.sleep], the cost counter of the agent. *)
Record Runtime : Type := mkRuntime {
  requests : nat;
  sleeps : list Q;
  total_api_cost : Q
}.

(** The mapping [call_claude] returns. *)
Record Reply : Type := mkReply {
  reply_success : bool;
  reply_content : string;
  input_tokens : Q;
  output_tokens : Q;
  cost : Q;
  simulated : bool
}.

(** ASCII characters [str.split()] separates on. *)
Definition is_space (c : ascii) : bool :=
  let n := nat_of_ascii c in
  ((9 <=? n) && (n <=? 13) || (28 <=? n) && (n <=? 32))%nat.

(** [len(s.split())] *)
Fixpoint count_words (in_word : bool) (s : string) : nat :=
  match s with
  | EmptyString => 0
  | String c s' =>
      if is_space c then count_words false s'
      else ((if in_word then 0 else 1) + count_words true s')%nat
  end.

Definition _generate_simulated_response (agent_name prompt : string) : string :=
  "Simulated response from " +:+ agent_name +:+ " for prompt analysis.".

Definition _simulate_claude_response (agent_name prompt : string) (rt : Runtime)
    : Reply * Runtime :=
  let rt := {| requests := requests rt;
               sleeps := sleeps rt ++ [1 # 2];
               total_api_cost := total_api_cost rt |} in
  ({| reply_success := true;
      reply_content := _generate_simulated_response agent_name prompt;
      input_tokens := inject_Z (Z.of_nat (count_words false prompt)) * (13 # 10);
      output_tokens := 200;
      cost := 0;
      simulated := true |}, rt).

Definition call_claude (agent_name : string) (config : Config)
    (claude_client : option Client) (prompt : string) (rt : Runtime)
    : Reply * Runtime :=
  match claude_client with
  | None => _simulate_claude_response agent_name prompt rt
  | Some create =>
      let reply := create prompt (requests rt) in
      let rt := {| requests := S (requests rt);
                   sleeps := sleeps rt;
                   total_api_cost := total_api_cost rt |} in
      match reply with
      | inl _ => _simulate_claude_response agent_name prompt rt
      | inr message =>
          let input_tokens := inject_Z (usage_input_tokens message) in
          let output_tokens := inject_Z (usage_output_tokens message) in
          let cost := (input_tokens * cost_per_input_token config
                       + output_tokens * cost_per_output_token config)%Q in
          let rt := {| requests := requests rt;
                       sleeps := sleeps rt;
                       total_api_cost := (total_api_cost rt + cost)%Q |} in
          match content message with
          | text :: _ =>
              ({| reply_success := true;
                  reply_content := text;
                  input_tokens := input_tokens;
                  output_tokens := output_tokens;
                  cost := cost;
                  simulated := false |}, rt)
          | [] => _simulate_claude_response agent_name prompt rt
          end
      end
  end.

End Claude.

(** ** The post-turn context update: [ContextService] *)

Module Context.

Record Insights : Type := mkInsights {
  topics_discussed : list string;
  goals_mentioned : list string;
  concerns_expressed : list string;
  preferences_indicated : list string;
  financial_details_shared : gmap string Trait
}.

(** [x in l] for a list of strings. *)
Definition str_elem (x : string) (l : list string) : bool :=
  existsb (String.eqb x) l.

(** [any(word in message for word in words)] *)
Definition any_in (words : list string) (message : string) : bool :=
  existsb (fun word => Py.str_in word message) words.

Definition financial_keywords : list (string * string) :=
  [ ("retirement", "retirement planning");
    ("invest", "investment strategy");
    ("house", "home purchase");
    ("debt", "debt management");
    ("emergency", "emergency planning");
    ("college", "education planning") ].

Definition _extract_conversation_insights (message : string) : Insights :=
  let user_message := Py.lower message in
  {| topics_discussed :=
       omap (fun kt => if Py.str_in (fst kt) user_message then Some (snd kt) else None)
            financial_keywords;
     goals_mentioned := [];
     concerns_expressed :=
       if any_in ["worried"; "concerned"; "afraid"; "nervous"; "risk"] user_message
       then ["expressed financial anxiety"] else [];
     preferences_indicated :=
       if any_in ["conservative"; "safe"; "careful"] user_message
       then ["conservative_approach"]
       else if any_in ["aggressive"; "growth"; "risky"] user_message
       then ["aggressive_approach"] else [];
     financial_details_shared := ∅ |}.

(** Field updates of the context object. *)
Definition set_recent_topics (c : UserContext) (topics : list string) : UserContext :=
  {| user_id := user_id c; name := name c; age := age c; location := location c;
     accounts := accounts c; net_worth := net_worth c;
     monthly_income := monthly_income c; monthly_expenses := monthly_expenses c;
     goals := goals c; goal_progress := goal_progress c;
     wealth_health_score := wealth_health_score c;
     component_scores := component_scores c;
     risk_tolerance := risk_tolerance c;
     investment_experience := investment_experience c;
     financial_personality := financial_personality c;
     recent_topics := topics;
     common_questions := common_questions c; preferences := preferences c;
     last_updated := last_updated c; context_version := context_version c;
     completeness_score := completeness_score c |}.

Definition set_financial_personality (c : UserContext) (fp : gmap string Trait)
    : UserContext :=
  {| user_id := user_id c; name := name c; age := age c; location := location c;
     accounts := accounts c; net_worth := net_worth c;
     monthly_income := monthly_income c; monthly_expenses := monthly_expenses c;
     goals := goals c; goal_progress := goal_progress c;
     wealth_health_score := wealth_health_score c;
     component_scores := component_scores c;
     risk_tolerance := risk_tolerance c;
     investment_experience := investment_experience c;
     financial_personality := fp;
     recent_topics := recent_topics c;
     common_questions := common_questions c; preferences := preferences c;
     last_updated := last_updated c; context_version := context_version c;
     completeness_score := completeness_score c |}.

Definition touch (c : UserContext) (now : Q) : UserContext :=
  {| user_id := user_id c; name := name c; age := age c; location := location c;
     accounts := accounts c; net_worth := net_worth c;
     monthly_income := monthly_income c; monthly_expenses := monthly_expenses c;
     goals := goals c; goal_progress := goal_progress c;
     wealth_health_score := wealth_health_score c;
     component_scores := component_scores c;
     risk_tolerance := risk_tolerance c;
     investment_experience := investment_experience c;
     financial_personality := financial_personality c;
     recent_topics := recent_topics c;
     common_questions := common_questions c; preferences := preferences c;
     last_updated := now; context_version := (context_version c + 1)%Z;
     completeness_score := completeness_score c |}.

(** The loop over [new_topics]. *)
Fixpoint add_topics (new_topics recent : list string) : list string :=
  match new_topics with
  | [] => recent
  | topic :: rest =>
      add_topics rest (if str_elem topic recent then recent else recent ++ [topic])
  end.

(** [l[-10:]] *)
Definition last_ten (l : list string) : list string :=
  drop (length l - 10) l.

(** The loop over [preferences]. *)
Fixpoint apply_preferences (prefs : list string) (fp : gmap string Trait)
    : gmap string Trait :=
  match prefs with
  | [] => fp
  | preference :: rest =>
      apply_preferences rest
        (if String.eqb preference "conservative_approach"
         then <["observed_risk_tolerance" := TStr "conservative"]> fp
         else if String.eqb preference "aggressive_approach"
         then <["observed_risk_tolerance" := TStr "aggressive"]> fp
         else fp)
  end.

(** The loop over [concerns], on the context object it mutates. The
    entry under ["financial_anxiety"] takes [append] only when it is a
    list; [in] fails on a number. *)
Fixpoint apply_concerns (concerns : list string) : M UserContext unit :=
  match concerns with
  | [] => ret tt
  | concern :: rest =>
      fun c =>
        match financial_personality c !! "financial_anxiety" with
        | Some (TList l) =>
            apply_concerns rest
              (if str_elem concern l then c
               else set_financial_personality c
                      (<["financial_anxiety" := TList (l ++ [concern])]>
                         (financial_personality c)))
        | Some (TStr s) =>
            if Py.str_in concern s then apply_concerns rest c
            else (Raise "'str' object has no attribute 'append'", c)
        | Some (TNum _) => (Raise "argument of type 'float' is not iterable", c)
        | None => (Raise "'financial_anxiety'", c)
        end
  end.

(** [_apply_insights_to_context], on the context object it mutates. *)
Definition _apply_insights_to_context (insights : Insights) (now : Q)
    : M UserContext unit :=
  fun context =>
    let context :=
      set_recent_topics context
        (add_topics (topics_discussed insights) (recent_topics context)) in
    let context := set_recent_topics context (last_ten (recent_topics context)) in
    let context :=
      set_financial_personality context
        (apply_preferences (preferences_indicated insights)
                           (financial_personality context)) in
    let context :=
      match financial_personality context !! "financial_anxiety" with
      | None =>
          set_financial_personality context
            (<["financial_anxiety" := TList []]> (financial_personality context))
      | Some _ => context
      end in
    match apply_concerns (concerns_expressed insights) context with
    | (Ok _, context) => (Ok tt, touch context now)
    | (Raise e, context) => (Raise e, context)
    end.

(** The state of the service and the world around it. *)
Record Service (X : Type) : Type := mkService {
  _context_cache : gmap string UserContext;
  _cache_timestamps : gmap string Q;
  outside : X
}.
Arguments mkService {X}.
Arguments _context_cache {X}.
Arguments _cache_timestamps {X}.
Arguments outside {X}.

Record ServiceEnv (X : Type) : Type := mkServiceEnv {
  (** [datetime.now()] *)
  now : X -> Q;
  context_ttl_seconds : Q;
  (** [_build_fresh_context]: data service and enrichment *)
  _build_fresh_context : string -> M X UserContext
}.
Arguments now {X}.
Arguments context_ttl_seconds {X}.
Arguments _build_fresh_context {X}.

Definition _is_context_cached_and_fresh {X : Type} (senv : ServiceEnv X)
    (user_id : string) (s : Service X) : bool :=
  match _context_cache s !! user_id, _cache_timestamps s !! user_id with
  | Some _, Some stamp =>
      Py.Qltb (now senv (outside s) - stamp) (context_ttl_seconds senv)
  | _, _ => false
  end.

Definition get_user_context {X : Type} (senv : ServiceEnv X) (user_id : string)
    (force_refresh : bool) : M (Service X) UserContext :=
  fun s =>
    match (if negb force_refresh && _is_context_cached_and_fresh senv user_id s
           then _context_cache s !! user_id else None) with
    | Some context => (Ok context, s)
    | None =>
        match _build_fresh_context senv user_id (outside s) with
        | (Raise e, x) =>
            (Raise e, mkService (_context_cache s) (_cache_timestamps s) x)
        | (Ok context, x) =>
            (Ok context,
             mkService (<[user_id := context]> (_context_cache s))
                       (<[user_id := now senv x]> (_cache_timestamps s)) x)
        end
    end.

(** [update_context_from_conversation]. The context returned by
    [get_user_context] is the cached object itself, so what
    [_apply_insights_to_context] has changed before raising is in the
    cache as well. *)
Definition update_context_from_conversation {X : Type} (senv : ServiceEnv X)
    (user_id : string) (message : string) (s : Service X) : Service X :=
  match get_user_context senv user_id false s with
  | (Raise _, s) => s
  | (Ok context, s) =>
      let insights := _extract_conversation_insights message in
      match _apply_insights_to_context insights (now senv (outside s)) context with
      | (Ok _, context) =>
          mkService (<[user_id := context]> (_context_cache s))
                    (<[user_id := now senv (outside s)]> (_cache_timestamps s))
                    (outside s)
      | (Raise _, context) =>
          mkService (<[user_id := context]> (_context_cache s))
                    (_cache_timestamps s) (outside s)
      end
  end.

End Context.

(** ** A test double of the collaborators

    The world is the reading of the clock. Every call of a core logic
    takes one second; the agents whose type is listed in [failing] raise,
    the others return a one-line summary. Of the tasks still pending in a
    parallel run, the second one finishes first. *)

Module Demo.

Definition context (uid : string) : UserContext :=
  {| user_id := uid; name := Some "Ada"; age := Some 36%Z; location := None;
     accounts := []; net_worth := 45000; monthly_income := 6000;
     monthly_expenses := 4500; goals := []; goal_progress := ∅;
     wealth_health_score := 70; component_scores := ∅;
     risk_tolerance := Some "moderate"; investment_experience := None;
     financial_personality := ∅;
     recent_topics := ["retirement planning"];
     common_questions := []; preferences := ∅;
     last_updated := 0; context_version := 1%Z; completeness_score := 1 # 2 |}.

Definition core (failing : list string) (self : Agent) (state : ConversationState)
    : M Q CoreResult :=
  fun w =>
    if Context.str_elem (getattr_agent_type self) failing
    then (Raise "completion service unavailable", (w + 1)%Q)
    else (Ok {| core_response := Some ("Summary from " +:+ self_agent_name self);
                core_analysis := None;
                core_error := None |}, (w + 1)%Q).

Definition env (failing : list string) : Env Q :=
  {| clock := fun w => w;
     repr_float := fun _ => "0.0";
     core_logic := core failing;
     schedule := fun _ => 1%nat;
     service_get_user_context := fun uid => ret (context uid);
     LANGGRAPH_AVAILABLE := false;
     workflow := None |}.

Definition state (message : string) : ConversationState :=
  {| user_message := message;
     state_user_id := "u1";
     session_id := "s1";
     user_context := context "u1";
     state_agent_results := [];
     conversation_history := [];
     state_metadata := ∅ |}.

Definition routing (names : list string) (strategy : string) : RoutingAnalysis :=
  {| selected_routing := "comprehensive_analysis";
     routing_confidence := 0;
     routing_matched_keywords := [];
     agents_to_run := names;
     execution_strategy := strategy;
     all_scores := [] |}.

(** A successful risk assessment below the materiality threshold. *)
Definition low_risk_result : AgentResult :=
  {| agent_name := "Risk Assessment Agent";
     agent_type := "risk_assessment";
     success := true;
     execution_time := 1;
     error := None;
     response := Some "Your overall financial risk score is 20/100.";
     analysis := Some {| overall_risk_score := Some 20%Q; other_entries := ∅ |} |}.

(** Collaborators whose user store is down. *)
Definition broken_env : Env Q :=
  {| clock := fun w => w;
     repr_float := fun _ => "0.0";
     core_logic := core [];
     schedule := fun _ => 0%nat;
     service_get_user_context := fun uid => raise "user store unavailable";
     LANGGRAPH_AVAILABLE := false;
     workflow := None |}.

(** The steps of [PlutusOrchestrator] as the repository has them:
    [BaseAgent] defines no [execute], so the second step raises. *)
Definition plutus : Plutus.Methods Q unit :=
  {| Plutus.create_conversation_state := fun message uid sid =>
       ret {| Plutus.p_user_message := message;
              Plutus.intent_classification := None;
              Plutus.complexity_level := Some "unknown";
              Plutus.confidence_score := Some 0%Q;
              Plutus.agents_to_invoke := Some [] |};
     Plutus.orchestrator_agent_execute := fun state =>
       raise "'OrchestratorAgent' object has no attribute 'execute'";
     Plutus._execute_agents := fun state agents => ret tt;
     Plutus._synthesize_response := fun state rs => ret "";
     Plutus.update_context_from_conversation := fun uid state => ret tt |}.

(** A completion service that fails every request in the same way. *)
Definition failing_client (k : Claude.ErrorKind) : Claude.Client :=
  fun prompt served => inl k.

Definition config : Claude.Config :=
  {| Claude.cost_per_input_token := 3 # 1000000;
     Claude.cost_per_output_token := 15 # 1000000;
     Claude.max_retries := 3 |}.

Definition fresh_runtime : Claude.Runtime :=
  {| Claude.requests := 0; Claude.sleeps := []; Claude.total_api_cost := 0 |}.

(** A context service whose cache holds [context "u1"], read at time 10. *)
Definition service_env : Context.ServiceEnv Q :=
  {| Context.now := fun x => x;
     Context.context_ttl_seconds := 3600;
     Context._build_fresh_context := fun uid => ret (context uid) |}.

Definition service : Context.Service Q :=
  Context.mkService {["u1" := context "u1"]} {["u1" := 0%Q]} 10%Q.

(** Collaborators whose completion service serves only the first unit to
    run and refuses the later ones. *)
Definition first_come_env : Env Q :=
  {| clock := fun w => w;
     repr_float := fun _ => "0.0";
     core_logic := fun self state w =>
       if Py.Qltb w 1
       then (Ok {| core_response := Some ("Summary from " +:+ self_agent_name self);
                   core_analysis := None;
                   core_error := None |}, (w + 1)%Q)
       else (Raise "rate limit exceeded", (w + 1)%Q);
     schedule := fun _ => 0%nat;
     service_get_user_context := fun uid => ret (context uid);
     LANGGRAPH_AVAILABLE := false;
     workflow := None |}.

End Demo.

(** ** Further code of the cited files *)

(** [AdvancedOrchestrator._langgraph_route_conversation]; [None] is a
    state without ["routing_analysis"]. *)
Definition _langgraph_route_conversation (routing_analysis : option RoutingAnalysis)
    : string :=
  let selected_routing :=
    match routing_analysis with
    | Some r => selected_routing r
    | None => "comprehensive"
    end in
  let agents_to_run :=
    match routing_analysis with
    | Some r => agents_to_run r
    | None => []
    end in
  if String.eqb selected_routing "financial_analysis"
     && (length agents_to_run =? 1)%nat
  then "financial_only"
  else if String.eqb selected_routing "goal_planning"
          && Context.str_elem "goal_extraction" agents_to_run
  then "goal_only"
  else if String.eqb selected_routing "risk_assessment"
          && (length agents_to_run <=? 2)%nat
  then "risk_only"
  else if Context.str_elem "financial_analysis" agents_to_run
          && Context.str_elem "risk_assessment" agents_to_run
  then "financial_and_risk"
  else "comprehensive".


(** The graph that [_build_langgraph_workflow] declares: the entry
    point, the targets of the conditional edge out of it, and the plain
    edges. [None] is [END]. *)
Module Graph.

Definition entry_point : string := "analyze_routing".

Definition conditional_edges : list (string * option string) :=
  [ ("financial_only", Some "financial_analysis");
    ("goal_only", Some "goal_extraction");
    ("risk_only", Some "risk_assessment");
    ("financial_and_risk", Some "financial_analysis");
    ("comprehensive", Some "financial_analysis");
    ("end", None) ].

Definition edges : list (string * option string) :=
  [ ("financial_analysis", Some "synthesize_results");
    ("goal_extraction", Some "generate_recommendations");
    ("risk_assessment", Some "generate_recommendations");
    ("generate_recommendations", Some "synthesize_results");
    ("synthesize_results", None) ].

(** The agent whose [process] the node function of a node awaits. *)
Definition node_agent (node : string) : option Agent :=
  if String.eqb node "financial_analysis" then Some financial_agent
  else if String.eqb node "goal_extraction" then Some goal_agent
  else if String.eqb node "risk_assessment" then Some risk_agent
  else if String.eqb node "generate_recommendations" then Some recommendation_agent
  else None.

(** The nodes from a node to [END] along the plain edges. *)
Fixpoint path (fuel : nat) (node : option string) : list string :=
  match fuel, node with
  | S fuel', Some n =>
      n :: match Py.getitem edges n with
           | Ok next => path fuel' next
           | Raise _ => []
           end
  | _, _ => []
  end.

(** The nodes after the entry point for a label of the router. *)
Definition nodes_after_routing (label : string) : outcome (list string) :=
  match Py.getitem conditional_edges label with
  | Ok target => Ok (path (length edges) target)
  | Raise e => Raise e
  end.

End Graph.


(** Sample results of two agents. *)
Module Sample.

Definition financial_result : AgentResult :=
  {| agent_name := "Financial Analysis Agent";
     agent_type := "financial_analysis";
     success := true;
     execution_time := 1;
     error := None;
     response := Some "Your net worth is growing.";
     analysis := None |}.

Definition recommendation_result : AgentResult :=
  {| agent_name := "Recommendation Agent";
     agent_type := "recommendation";
     success := true;
     execution_time := 1;
     error := None;
     response := Some "Raise your monthly savings.";
     analysis := None |}.

End Sample.


(** ** [BaseAgent]: the performance counters *)

Module Monitor.

(** [total_calls], [total_errors] and [total_execution_time] of an agent. *)
Record Counters : Type := mkCounters {
  total_calls : Z;
  total_errors : Z;
  total_execution_time : Q
}.

(** The counters [__init__] sets. *)
Definition fresh : Counters := mkCounters 0 0 0.

(** [BaseAgent.process] together with the counters of [self]. *)
Definition process {W : Type} (env : Env W) (self : Agent)
    (state : ConversationState) (c : Counters) : M W (AgentResult * Counters) :=
  start_time <- time_time env ;;
  let c := {| total_calls := total_calls c + 1;
              total_errors := total_errors c;
              total_execution_time := total_execution_time c |} in
  try_except
    (result <- core_logic env self state ;;
     now <- time_time env ;;
     let execution_time := (now - start_time)%Q in
     let c := {| total_calls := total_calls c;
                 total_errors := total_errors c;
                 total_execution_time :=
                   (total_execution_time c + execution_time)%Q |} in
     ret ({| agent_name := self_agent_name self;
             agent_type := getattr_agent_type self;
             success := true;
             execution_time := execution_time;
             error := core_error result;
             response := core_response result;
             analysis := core_analysis result |}, c))
    (fun e =>
     let c := {| total_calls := total_calls c;
                 total_errors := total_errors c + 1;
                 total_execution_time := total_execution_time c |} in
     now <- time_time env ;;
     let execution_time := (now - start_time)%Q in
     ret ({| agent_name := self_agent_name self;
             agent_type := getattr_agent_type self;
             success := false;
             execution_time := execution_time;
             error := Some e;
             response :=
               Some ("I encountered an error while processing your request: " +:+ e);
             analysis := None |}, c)).

(** The mapping [get_performance_metrics] returns. *)
Record Metrics : Type := mkMetrics {
  metrics_agent_name : string;
  metrics_total_calls : Z;
  metrics_total_errors : Z;
  error_rate : Q;
  avg_execution_time : Q;
  metrics_total_api_cost : Q;
  status : string
}.

Definition get_performance_metrics (self : Agent) (c : Counters)
    (total_api_cost : Q) : Metrics :=
  let avg_execution_time :=
    (total_execution_time c / inject_Z (Z.max (total_calls c) 1))%Q in
  let error_rate :=
    (inject_Z (total_errors c) / inject_Z (Z.max (total_calls c) 1))%Q in
  {| metrics_agent_name := self_agent_name self;
     metrics_total_calls := total_calls c;
     metrics_total_errors := total_errors c;
     error_rate := error_rate;
     avg_execution_time := avg_execution_time;
     metrics_total_api_cost := total_api_cost;
     status :=
       if Py.Qltb error_rate (1 # 10) then "healthy"
       else if Py.Qltb error_rate (1 # 2) then "degraded"
       else "unhealthy" |}.

End Monitor.

(** ** [BaseAgent.parse_json_response] *)

Module Json.

(** [s.find(c)] for a single character, counted from [i]. *)
Fixpoint find_from (c : ascii) (s : string) (i : Z) : Z :=
  match s with
  | EmptyString => (-1)%Z
  | String a s' => if Ascii.eqb a c then i else find_from c s' (i + 1)%Z
  end.

Definition find (c : ascii) (s : string) : Z := find_from c s 0.

(** [s.rfind(c)]: the last position seen so far is [last]. *)
Fixpoint rfind_from (c : ascii) (s : string) (i last : Z) : Z :=
  match s with
  | EmptyString => last
  | String a s' => rfind_from c s' (i + 1)%Z (if Ascii.eqb a c then i else last)
  end.

Definition rfind (c : ascii) (s : string) : Z := rfind_from c s 0 (-1)%Z.

(** [s[a:b]] for indices that are not negative. *)
Definition slice (s : string) (a b : Z) : string :=
  String.substring (Z.to_nat a) (Z.to_nat (b - a)) s.

(** What [json.loads] does with a text: a value, a [JSONDecodeError], or
    another exception. *)
Inductive Loaded (J : Type) : Type :=
  | Parsed (j : J)
  | JSONDecodeError
  | OtherError (e : string).
Arguments Parsed {J}.
Arguments JSONDecodeError {J}.
Arguments OtherError {J}.

Definition parse_json_response {J : Type} (loads : string -> Loaded J)
    (content : string) : outcome (option J) :=
  let start_idx := find "{" content in
  let end_idx := (rfind "}" content + 1)%Z in
  if (start_idx =? -1)%Z || (end_idx =? 0)%Z then Ok None
  else
    let json_content := slice content start_idx end_idx in
    match loads json_content with
    | Parsed j => Ok (Some j)
    | JSONDecodeError => Ok None
    | OtherError e => Raise e
    end.

(** The character occurs in the string. *)
Fixpoint char_in (c : ascii) (s : string) : bool :=
  match s with
  | EmptyString => false
  | String a s' => Ascii.eqb a c || char_in c s'
  end.

End Json.


(** ** [OrchestratorAgent]: intent classification and agent routing *)

Module Intent.

(** The mapping [_classify_user_intent] returns. *)
Record Classification : Type := mkClassification {
  intent : string;
  complexity : string;
  confidence : Q;
  all_intents : list (string * Z)
}.

(** [intent_keywords], in declaration order. *)
Definition intent_keywords : list (string * list string) :=
  [ ("financial_analysis",
     ["balance"; "worth"; "assets"; "financial health"; "overview"]);
    ("goal_planning", ["goal"; "save for"; "plan"; "target"; "achieve"; "retire"]);
    ("investment_advice", ["invest"; "portfolio"; "stocks"; "bonds"; "allocation"]);
    ("debt_management", ["debt"; "loan"; "pay off"; "credit card"; "mortgage"]);
    ("risk_assessment", ["risk"; "safe"; "conservative"; "aggressive"; "volatile"]);
    ("quick_question", ["what is"; "how much"; "when should"; "simple question"]);
    ("general_advice", ["should I"; "what do you think"; "advice"; "recommend"]) ].

Definition simple_indicators : list string :=
  ["what is"; "how much"; "when"; "simple"].

Definition complex_indicators : list string :=
  ["multiple"; "both"; "optimize"; "strategy"; "comprehensive"; "analysis"].

(** [sum(1 for keyword in keywords if keyword in user_message)] *)
Fixpoint count_keywords (keywords : list string) (user_message : string) : Z :=
  match keywords with
  | [] => 0%Z
  | keyword :: keywords' =>
      ((if Py.str_in keyword user_message then 1 else 0)
       + count_keywords keywords' user_message)%Z
  end.

(** The loop that fills [intent_scores], a dictionary in insertion order. *)
Fixpoint score_intents (table : list (string * list string)) (user_message : string)
    : list (string * Z) :=
  match table with
  | [] => []
  | (intent, keywords) :: table' =>
      let score := count_keywords keywords user_message in
      if (0 <? score)%Z
      then (intent, score) :: score_intents table' user_message
      else score_intents table' user_message
  end.

Definition _classify_user_intent (message : string) : outcome Classification :=
  let user_message := Py.lower message in
  let intent_scores := score_intents intent_keywords user_message in
  let primary : outcome (string * Q) :=
    match intent_scores with
    | [] => Ok ("general_advice", (1 # 2)%Q)
    | _ =>
        match Py.max (fun x => inject_Z (snd x)) intent_scores with
        | Ok (primary_intent, score) =>
            match Py.getitem intent_keywords primary_intent with
            | Ok keywords =>
                Ok (primary_intent,
                    (inject_Z score / inject_Z (Z.of_nat (length keywords)))%Q)
            | Raise e => Raise e
            end
        | Raise e => Raise e
        end
    end in
  match primary with
  | Raise e => Raise e
  | Ok (primary_intent, confidence) =>
      let complexity :=
        if Context.any_in simple_indicators user_message then "simple"
        else if Context.any_in complex_indicators user_message then "complex"
        else "intermediate" in
      let complexity :=
        if (30 <? Claude.count_words false user_message)%nat
        then if String.eqb complexity "simple" then "intermediate"
             else if String.eqb complexity "intermediate" then "complex"
             else complexity
        else complexity in
      Ok {| intent := primary_intent;
            complexity := complexity;
            confidence := Qmin confidence 1;
            all_intents := intent_scores |}
  end.

(** [_determine_agent_routing]; [message] is [state["user_message"]]. *)
Definition _determine_agent_routing (message : string)
    (classification : Classification) : list string :=
  let intent := intent classification in
  let complexity := complexity classification in
  let agents : list string := [] in
  if String.eqb complexity "simple" then agents ++ ["quick_response_agent"]
  else
    let agents :=
      if Context.str_elem intent ["financial_analysis"; "general_advice"]
      then agents ++ ["financial_analysis_agent"] else agents in
    let agents :=
      if Context.str_elem intent ["risk_assessment"; "investment_advice"]
         || Py.str_in "risk" (Py.lower message)
      then agents ++ ["risk_assessment_agent"] else agents in
    let agents :=
      if Context.str_elem intent ["goal_planning"]
         || Context.any_in ["goal"; "save for"; "plan to"] (Py.lower message)
      then agents ++ ["goal_planning_agent"] else agents in
    let agents :=
      if Context.str_elem intent ["investment_advice"]
         || Py.str_in "invest" (Py.lower message)
      then agents ++ ["portfolio_analysis_agent"] else agents in
    let agents :=
      if String.eqb complexity "complex" || (1 <? length agents)%nat
      then agents ++ ["recommendation_engine"] else agents in
    let agents := agents ++ ["context_memory_agent"] in
    if negb (existsb (fun agent => Context.str_elem agent agents)
                     ["financial_analysis_agent"; "quick_response_agent"])
    then "financial_analysis_agent" :: agents
    else agents.

End Intent.


(** ** [ContextService]: clearing the cache and building a fresh context *)

Module Cache.

(** [clear_cache]; [None] is the default argument. *)
Definition clear_cache {X : Type} (user_id : option string)
    (s : Context.Service X) : Context.Service X :=
  match user_id with
  | Some uid =>
      if negb (String.eqb uid "")
      then Context.mkService (delete uid (Context._context_cache s))
                             (delete uid (Context._cache_timestamps s))
                             (Context.outside s)
      else Context.mkService ∅ ∅ (Context.outside s)
  | None => Context.mkService ∅ ∅ (Context.outside s)
  end.

End Cache.

Module Fresh.

Definition sample_topics : list string :=
  ["retirement planning"; "emergency fund"; "investment allocation"].

Definition sample_questions : list string :=
  ["How much should I save for retirement?";
   "What's my investment risk level?";
   "Should I pay off debt or invest?"].

Definition set_common_questions (c : UserContext) (questions : list string)
    : UserContext :=
  {| user_id := user_id c; name := name c; age := age c; location := location c;
     accounts := accounts c; net_worth := net_worth c;
     monthly_income := monthly_income c; monthly_expenses := monthly_expenses c;
     goals := goals c; goal_progress := goal_progress c;
     wealth_health_score := wealth_health_score c;
     component_scores := component_scores c;
     risk_tolerance := risk_tolerance c;
     investment_experience := investment_experience c;
     financial_personality := financial_personality c;
     recent_topics := recent_topics c;
     common_questions := questions; preferences := preferences c;
     last_updated := last_updated c; context_version := context_version c;
     completeness_score := completeness_score c |}.

Definition _enhance_with_conversation_insights (context : UserContext)
    : UserContext :=
  let context := Context.set_recent_topics context sample_topics in
  set_common_questions context sample_questions.

(** The loop over [context.goals]: the number of goals on track. A goal
    identifier that is a list cannot be looked up in a dictionary. *)
Fixpoint count_on_track (goals : list (gmap string Trait))
    (goal_progress : gmap string Q) (on_track_goals : Z) : outcome Z :=
  match goals with
  | [] => Ok on_track_goals
  | goal :: goals' =>
      match default (TStr "") (goal !! "goal_id") with
      | TStr goal_id =>
          match goal_progress !! goal_id with
          | Some progress =>
              count_on_track goals' goal_progress
                (if Py.Qltb (1 # 10) progress
                 then (on_track_goals + 1)%Z else on_track_goals)
          | None => count_on_track goals' goal_progress on_track_goals
          end
      | TNum _ => count_on_track goals' goal_progress on_track_goals
      | TList _ => Raise "unhashable type: 'list'"
      end
  end.

(** [_add_realtime_analysis]: what the context object holds when the
    method returns; the [except] clause only logs. *)
Definition _add_realtime_analysis (now : Q) (context : UserContext) : UserContext :=
  let context :=
    if Py.Qltb 0 (monthly_income context) && Py.Qltb 0 (monthly_expenses context)
    then
      let savings_rate :=
        ((monthly_income context - monthly_expenses context)
         / monthly_income context)%Q in
      let behavior :=
        if Py.Qltb (2 # 10) savings_rate then "high_saver"
        else if Py.Qltb (1 # 10) savings_rate then "moderate_saver"
        else "low_saver" in
      Context.set_financial_personality context
        (<["savings_rate" := TNum savings_rate]>
           (<["savings_behavior" := TStr behavior]> (financial_personality context)))
    else context in
  match goals context with
  | [] => Context.touch context now
  | _ =>
      match count_on_track (goals context) (goal_progress context) 0 with
      | Ok on_track_goals =>
          let context :=
            Context.set_financial_personality context
              (<["goal_achievement" :=
                   TNum (inject_Z on_track_goals
                         / inject_Z (Z.of_nat (length (goals context))))]>
                 (financial_personality context)) in
          Context.touch context now
      | Raise _ => context
      end
  end.

(** [_build_fresh_context] over [data_service.build_user_context]. *)
Definition _build_fresh_context {X : Type}
    (build_user_context : string -> M X UserContext) (now : X -> Q)
    (user_id : string) : M X UserContext :=
  context <- build_user_context user_id ;;
  let context := _enhance_with_conversation_insights context in
  fun x => (Ok (_add_realtime_analysis (now x) context), x).

(** The service built on a data service. *)
Definition service_env {X : Type} (build_user_context : string -> M X UserContext)
    (now : X -> Q) (context_ttl_seconds : Q) : Context.ServiceEnv X :=
  {| Context.now := now;
     Context.context_ttl_seconds := context_ttl_seconds;
     Context._build_fresh_context := _build_fresh_context build_user_context now |}.

End Fresh.


(** ** [PlutusDataService._calculate_context_completeness] *)

Module Data.

(** A value of the user record read from the JSON file, as far as its
    truth value and its length matter: [FItems n] is a list or a
    dictionary of [n] items. *)
Inductive Field : Type :=
  | FNull
  | FBool (b : bool)
  | FNum (q : Q)
  | FStr (s : string)
  | FItems (n : nat).

(** The truth value of a field. *)
Definition truthy (v : Field) : bool :=
  match v with
  | FNull => false
  | FBool b => b
  | FNum q => negb (Qeq_bool q 0)
  | FStr s => negb (String.eqb s "")
  | FItems n => (0 <? n)%nat
  end.

(** [len(v)] *)
Definition len (v : Field) : outcome Z :=
  match v with
  | FStr s => Ok (Z.of_nat (String.length s))
  | FItems n => Ok (Z.of_nat n)
  | FNull => Raise "object of type 'NoneType' has no len()"
  | FBool _ => Raise "object of type 'bool' has no len()"
  | FNum _ => Raise "object of type 'float' has no len()"
  end.

(** [required_fields], in declaration order. *)
Definition required_fields : list (string * Q) :=
  [ ("name", 1 # 10); ("age", 1 # 10); ("monthly_income", 2 # 10);
    ("monthly_expenses", 1 # 10); ("risk_tolerance", 1 # 10);
    ("accounts", 2 # 10); ("goals", 15 # 100); ("wealth_health", 5 # 100) ]%Q.

(** The loop over [required_fields.items()]. *)
Fixpoint completeness_loop (fields : list (string * Q))
    (user_data : gmap string Field) (total_score : Q) : outcome Q :=
  match fields with
  | [] => Ok total_score
  | (field, weight) :: fields' =>
      match user_data !! field with
      | Some v =>
          if truthy v
          then
            if String.eqb field "accounts"
            then match len v with
                 | Ok account_count =>
                     completeness_loop fields' user_data
                       (total_score + weight * Qmin 1 (inject_Z account_count / 3))%Q
                 | Raise e => Raise e
                 end
            else if String.eqb field "goals"
            then match len v with
                 | Ok goal_count =>
                     completeness_loop fields' user_data
                       (total_score + weight * Qmin 1 (inject_Z goal_count / 2))%Q
                 | Raise e => Raise e
                 end
            else completeness_loop fields' user_data (total_score + weight)%Q
          else completeness_loop fields' user_data total_score
      | None => completeness_loop fields' user_data total_score
      end
  end.

Definition _calculate_context_completeness (user_data : gmap string Field)
    : outcome Q :=
  completeness_loop required_fields user_data 0.

End Data.


(** ** [PlutusDataService.calculate_user_net_worth] *)

Module Worth.

Definition liability_types : list string :=
  ["mortgage"; "student_loan"; "credit_card"].

(** [account_type in ["mortgage", "student_loan", "credit_card"]] *)
Definition is_liability (account : gmap string Trait) : bool :=
  match default (TStr "") (account !! "type") with
  | TStr account_type => Context.str_elem account_type liability_types
  | _ => false
  end.

(** The loop over the accounts; a balance that is not a number can be
    neither added nor given to [abs]. *)
Fixpoint net_worth_loop (accounts : list (gmap string Trait))
    (assets liabilities : Q) : outcome Q :=
  match accounts with
  | [] => Ok (assets - liabilities)%Q
  | account :: accounts' =>
      match default (TNum 0) (account !! "balance") with
      | TNum balance =>
          if is_liability account
          then net_worth_loop accounts' assets (liabilities + Qabs balance)%Q
          else net_worth_loop accounts' (assets + balance)%Q liabilities
      | TStr _ =>
          if is_liability account
          then Raise "bad operand type for abs(): 'str'"
          else Raise "unsupported operand type(s) for +=: 'float' and 'str'"
      | TList _ =>
          if is_liability account
          then Raise "bad operand type for abs(): 'list'"
          else Raise "unsupported operand type(s) for +=: 'float' and 'list'"
      end
  end.

(** [calculate_user_net_worth] on the accounts [get_user_accounts] returns. *)
Definition calculate_user_net_worth (accounts : list (gmap string Trait))
    : outcome Q :=
  net_worth_loop accounts 0 0.

End Worth.

(** ** Predicates of the statements *)

(** A keyword occurs in a message up to the case of the letters. *)
Definition occurs_ignoring_case (kw message : string) : Prop :=
  exists pre s post,
    message = pre +:+ s +:+ post /\ Py.lower s = Py.lower kw.

(** [name] has the highest score, [top], and is declared before every
    other intent that reaches it. *)
Definition first_highest (scores : list (string * RoutingScore)) (name : string)
    (top : Q) : Prop :=
  exists before d after,
    scores = before ++ (name, d) :: after /\ (score d == top)%Q /\
    Forall (fun x => (score (snd x) < top)%Q) before /\
    Forall (fun x => (score (snd x) <= top)%Q) after.

(** The scores of a message, in declaration order. *)
Definition scores_of_message (message : string) : list (string * RoutingScore) :=
  routing_scores_of routing_patterns (Py.lower message).

(** The agent list of the default intent. *)
Definition comprehensive_agents : list string :=
  ["financial_analysis"; "goal_extraction"; "risk_assessment"; "recommendation"].

(** No keyword of any intent occurs in the message. *)
Definition no_keyword_occurs (message : string) : Prop :=
  forall n p kw,
    (n, p) ∈ routing_patterns -> kw ∈ keywords p ->
    ~ occurs_ignoring_case kw message.

(** The highest weighted score of the message is below 1. *)
Definition highest_score_below_one (message : string) : Prop :=
  Forall (fun x => (score (snd x) < 1)%Q) (scores_of_message message).

(** The multiplier of a priority. *)
Definition multiplier (priority : string) : Q :=
  if String.eqb priority "high" then 3 # 2
  else if String.eqb priority "medium" then 6 # 5
  else 1.

(** The score of an intent as the claim words it: the number of its
    trigger keywords that occur in the message ignoring case, times the
    multiplier of its priority. [matched] lists those keywords. *)
Definition weighted_keyword_count (message : string) (p : Pattern) (s : Q) : Prop :=
  exists matched : list string,
    NoDup matched /\
    (forall kw, kw ∈ matched <-> kw ∈ keywords p /\ occurs_ignoring_case kw message) /\
    (s == inject_Z (Z.of_nat (length matched)) * multiplier (priority p))%Q.

(** A slot is filled with an outcome of the task at its position. *)
Definition filled {W A : Type} (tasks : list (M W A))
    (slots : list (option (outcome A))) (i : nat) : Prop :=
  exists t r w0, tasks !! i = Some t /\ slots !! i = Some (Some r) /\ r = fst (t w0).

(** The agents a list of names resolves to. *)
Definition resolved (names : list string) : list Agent :=
  omap _get_agent_by_name names.

(** A result that comes from the given agent. *)
Definition result_of (a : Agent) (r : AgentResult) : Prop :=
  agent_name r = self_agent_name a /\ agent_type r = getattr_agent_type a.

(** Exactly one of the results is successful, and it is [r]. *)
Definition only_success (rs : list AgentResult) (r : AgentResult) : Prop :=
  exists before after,
    rs = before ++ r :: after /\ success r = true /\
    Forall (fun x => success x = false) before /\
    Forall (fun x => success x = false) after.

(** The response of a successful unit reaches the synthesized text: it is
    not empty, the agent type is one of the four the synthesizer looks
    for, and a risk assessment scores above 40. *)
Definition contributes (r : AgentResult) : bool :=
  Synth.has_response r &&
  (String.eqb (agent_type r) "financial_analysis"
   || String.eqb (agent_type r) "goal_extraction"
   || String.eqb (agent_type r) "risk_assessment" && Py.Qltb 40 (Synth.risk_score_of r)
   || String.eqb (agent_type r) "recommendation").

(** What the update keeps of a context: the numeric financial fields, the
    risk tolerance, the goals, every entry of the financial personality,
    and some topic tag if there was one. *)
Definition kept (c c' : UserContext) : Prop :=
  net_worth c' = net_worth c /\
  monthly_income c' = monthly_income c /\
  monthly_expenses c' = monthly_expenses c /\
  risk_tolerance c' = risk_tolerance c /\
  investment_experience c' = investment_experience c /\
  goals c' = goals c /\
  (forall k, is_Some (financial_personality c !! k) ->
             is_Some (financial_personality c' !! k)) /\
  (recent_topics c <> [] -> recent_topics c' <> []).




(** The counters of an agent count no more errors than calls. *)
Definition consistent (c : Monitor.Counters) : Prop :=
  (0 <= Monitor.total_errors c <= Monitor.total_calls c)%Z.


(** The field of the user record is present and true and, for the
    accounts and the goals, holds at least three and two items. *)
Definition complete_field (user_data : gmap string Data.Field) (field : string)
    : Prop :=
  exists v k,
    user_data !! field = Some v /\ Data.truthy v = true /\
    (field = "accounts" -> Data.len v = Ok k /\ (3 <= k)%Z) /\
    (field = "goals" -> Data.len v = Ok k /\ (2 <= k)%Z).

(** The sum of the weights of a list of fields. *)
Definition sum_weights (fields : list (string * Q)) : Q :=
  foldr (fun fw acc => (snd fw + acc)%Q) 0%Q fields.

(** * Properties *)

(** ** The embedding on concrete inputs *)

Example lower_mixed_case : Py.lower "Net Worth?" = "net worth?".
Proof. reflexivity. Qed.

Example str_in_inside : Py.str_in "save for" "i want to save for a house" = true.
Proof. reflexivity. Qed.

Example str_in_absent : Py.str_in "loan" "i want to save for a house" = false.
Proof. reflexivity. Qed.

Example route_goal_planning :
  exists r,
    _analyze_conversation_routing "I want to SAVE FOR a house" = Ok r /\
    selected_routing r = "goal_planning" /\
    routing_matched_keywords r = ["save for"; "want to"] /\
    agents_to_run r = ["goal_extraction"; "recommendation"] /\
    execution_strategy r = "parallel".
Proof. eexists. split; [reflexivity|]. repeat split. Qed.

(** ["portfolio"] triggers two intents of priority high: the one declared
    first wins. *)
Example route_tie_first_declared :
  exists r,
    _analyze_conversation_routing "portfolio" = Ok r /\
    selected_routing r = "financial_analysis" /\
    map (fun ns => Qred (score (snd ns))) (all_scores r)
    = [3 # 2; 0%Q; 0%Q; 3 # 2; 0%Q; 0%Q].
Proof. eexists. split; [reflexivity|]. split; reflexivity. Qed.

(** Five keywords of a medium intent tie with four of a high one at 6. *)
Example route_tie_across_priorities :
  exists r,
    _analyze_conversation_routing
      "risk safe volatile protection conservative invest stocks bonds allocation"
    = Ok r /\
    selected_routing r = "risk_assessment" /\
    map (fun ns => Qred (score (snd ns))) (all_scores r)
    = [0%Q; 0%Q; 6%Q; 6%Q; 0%Q; 0%Q].
Proof. eexists. split; [reflexivity|]. split; reflexivity. Qed.

(** The first unit to finish is served, the other is refused: which
    result is a success follows the completion order, the order of the
    results does not. *)
Example completion_order_changes_contents_only :
  exists r1 r2 w1 w2,
    _execute_fallback_workflow (with_schedule Demo.first_come_env (fun _ => 0%nat))
      (Demo.state "Is my portfolio safe?")
      (Demo.routing ["financial_analysis"; "risk_assessment"] "parallel") 0%Q
    = (Ok r1, w1) /\
    _execute_fallback_workflow (with_schedule Demo.first_come_env (fun _ => 1%nat))
      (Demo.state "Is my portfolio safe?")
      (Demo.routing ["financial_analysis"; "risk_assessment"] "parallel") 0%Q
    = (Ok r2, w2) /\
    map success (agent_results r1) = [true; false] /\
    map success (agent_results r2) = [false; true] /\
    map agent_type (agent_results r1) = ["financial_analysis"; "risk_assessment"] /\
    map agent_type (agent_results r2) = ["financial_analysis"; "risk_assessment"].
Proof.
  eexists _, _, _, _. split; [reflexivity|]. split; [reflexivity|]. repeat split.
Qed.

(** In sequential mode the second unit is handed the result of the
    first. *)
Example sequential_passes_results :
  fst (run_sequential (Demo.env []) ["financial_analysis"; "unknown"; "recommendation"]
         (Demo.state "advice") [] 0%Q)
  = Ok [ {| agent_name := "Financial Analysis Agent";
            agent_type := "financial_analysis";
            success := true;
            execution_time := 0 + 1 - 0;
            error := None;
            response := Some "Summary from Financial Analysis Agent";
            analysis := None |};
         {| agent_name := "Recommendation Agent";
            agent_type := "recommendation";
            success := true;
            execution_time := 0 + 1 + 1 - (0 + 1);
            error := None;
            response := Some "Summary from Recommendation Agent";
            analysis := None |} ].
Proof. reflexivity. Qed.

(** Two successes: both summaries, in the order of the synthesizer, and
    the closing sentence. *)
Example synthesize_two :
  Synth._synthesize_agent_results
    [ {| agent_name := "Recommendation Agent"; agent_type := "recommendation";
         success := true; execution_time := 1; error := None;
         response := Some "Build an emergency fund."; analysis := None |};
      {| agent_name := "Financial Analysis Agent"; agent_type := "financial_analysis";
         success := true; execution_time := 1; error := None;
         response := Some "Net worth: $45,000."; analysis := None |} ]
  = String.concat (Synth.newline +:+ Synth.newline)
      ["Net worth: $45,000."; "Build an emergency fund."; Synth.closing].
Proof. reflexivity. Qed.

(** ** Strings and numbers *)

Lemma Qltb_lt (x y : Q) : Py.Qltb x y = true <-> (x < y)%Q.
Proof.
  unfold Py.Qltb. rewrite negb_true_iff. split.
  - intros H. apply Qnot_le_lt. intros Hle.
    apply Qle_bool_iff in Hle. congruence.
  - intros H. destruct (Qle_bool y x) eqn:E; [|reflexivity].
    apply Qle_bool_iff in E. exfalso. exact (Qlt_not_le _ _ H E).
Qed.

Lemma Qltb_ge (x y : Q) : Py.Qltb x y = false <-> (y <= x)%Q.
Proof.
  unfold Py.Qltb. rewrite negb_false_iff. apply Qle_bool_iff.
Qed.

Lemma prefix_iff (p s : string) :
  String.prefix p s = true <-> exists post, s = p +:+ post.
Proof.
  revert s. induction p as [|a p IH]; intros s.
  - destruct s; simpl; split; eauto.
  - destruct s as [|b s]; simpl.
    + split; [discriminate | intros [post H]; discriminate].
    + destruct (ascii_dec a b) as [->|Hne].
      * rewrite IH. split; intros [post H]; exists post.
        -- by rewrite H.
        -- by injection H.
      * split; [discriminate | intros [post H]; injection H; congruence].
Qed.

Lemma str_in_iff (kw s : string) :
  Py.str_in kw s = true <-> exists pre post, s = pre +:+ kw +:+ post.
Proof.
  induction s as [|c s IH]; cbn [Py.str_in].
  - rewrite orb_false_r, prefix_iff. split.
    + intros [post H]. by exists "", post.
    + intros [pre [post H]]. destruct pre; [by exists post | discriminate].
  - rewrite orb_true_iff, prefix_iff, IH. split.
    + intros [[post H]|[pre [post H]]].
      * by exists "", post.
      * exists (String c pre), post. simpl. by rewrite H.
    + intros [pre [post H]]. destruct pre as [|c' pre]; simpl in H.
      * left. by exists post.
      * right. exists pre, post. by injection H.
Qed.

Lemma lower_app (a b : string) : Py.lower (a +:+ b) = Py.lower a +:+ Py.lower b.
Proof. induction a as [|c a IH]; simpl; [done | by rewrite IH]. Qed.

Lemma lower_split (s a b : string) :
  Py.lower s = a +:+ b ->
  exists a' b', s = a' +:+ b' /\ Py.lower a' = a /\ Py.lower b' = b.
Proof.
  revert s. induction a as [|c a IH]; intros s H; simpl in H.
  - by exists "", s.
  - destruct s as [|d s]; simpl in H; [discriminate|].
    injection H as Hc Hs. destruct (IH _ Hs) as (a' & b' & -> & Ha & Hb).
    exists (String d a'), b'. simpl. by rewrite Hc, Ha.
Qed.

(** The test of the code, [kw in message.lower()], is the
    case-insensitive occurrence of a lower-case keyword. *)
Lemma str_in_lower_iff (kw message : string) :
  Py.lower kw = kw ->
  Py.str_in kw (Py.lower message) = true <-> occurs_ignoring_case kw message.
Proof.
  intros Hkw. rewrite str_in_iff. unfold occurs_ignoring_case. split.
  - intros (pre & post & H).
    apply lower_split in H as (pre' & rest & -> & _ & Hrest).
    apply lower_split in Hrest as (s & post' & -> & Hs & _).
    exists pre', s, post'. by rewrite Hkw.
  - intros (pre & s & post & -> & Hs).
    exists (Py.lower pre), (Py.lower post).
    by rewrite !lower_app, Hs, Hkw.
Qed.

(** Every trigger keyword of the routing table is lower case. *)
Lemma routing_keywords_lower :
  Forall (fun np => Forall (fun kw => Py.lower kw = kw) (keywords (snd np)))
         routing_patterns.
Proof. repeat constructor. Qed.

(** ** Scores as floats and as rationals

    An intent has at most six keywords. On the scores that can occur, the
    comparisons the classifier makes on floats, between two scores and
    of a score with the threshold 1, come out as on the exact values. *)

Lemma float_scores_agree (p1 p2 : string) (n1 n2 : nat) :
  p1 ∈ ["high"; "medium"] -> p2 ∈ ["high"; "medium"] ->
  (n1 <= 6)%nat -> (n2 <= 6)%nat ->
  PrimFloat.ltb (float_weight_score p1 (Z.of_nat n1))
                (float_weight_score p2 (Z.of_nat n2))
  = Py.Qltb (weight_score p1 (Z.of_nat n1)) (weight_score p2 (Z.of_nat n2)) /\
  PrimFloat.ltb (float_weight_score p1 (Z.of_nat n1)) 1%float
  = Py.Qltb (weight_score p1 (Z.of_nat n1)) 1.
Proof.
  rewrite !elem_of_cons, !elem_of_nil. intros H1 H2 Hn1 Hn2.
  assert (n1 ∈ seq 0 7) as Hs1 by (apply elem_of_seq; lia).
  assert (n2 ∈ seq 0 7) as Hs2 by (apply elem_of_seq; lia).
  cbn [seq] in Hs1, Hs2. rewrite !elem_of_cons, !elem_of_nil in Hs1, Hs2.
  destruct H1 as [->|[->|[]]]; destruct H2 as [->|[->|[]]];
    destruct Hs1 as [->|[->|[->|[->|[->|[->|[->|[]]]]]]]];
    destruct Hs2 as [->|[->|[->|[->|[->|[->|[->|[]]]]]]]];
    by vm_compute.
Qed.

Lemma routing_keywords_at_most_six :
  Forall (fun np => (length (keywords (snd np)) <= 6)%nat
                    /\ priority (snd np) ∈ ["high"; "medium"]) routing_patterns.
Proof.
  repeat constructor; simpl; try lia; rewrite !elem_of_cons; tauto.
Qed.

(** ** The keyword loop *)

Lemma match_keywords_filter (kws : list string) (ml : string) (n : Z)
    (acc : list string) :
  match_keywords kws ml (n, acc)
  = ((n + Z.of_nat (length (List.filter (fun kw => Py.str_in kw ml) kws)))%Z,
     acc ++ List.filter (fun kw => Py.str_in kw ml) kws).
Proof.
  revert n acc. induction kws as [|kw kws IH]; intros n acc; simpl.
  - by rewrite Z.add_0_r, app_nil_r.
  - destruct (Py.str_in kw ml); simpl; rewrite IH; f_equal.
    + rewrite Nat2Z.inj_succ. lia.
    + by rewrite <- app_assoc.
Qed.

Lemma score_pattern_matched (ml : string) (p : Pattern) :
  matched_keywords (score_pattern ml p)
  = List.filter (fun kw => Py.str_in kw ml) (keywords p).
Proof. unfold score_pattern. by rewrite match_keywords_filter. Qed.

Lemma score_pattern_score (ml : string) (p : Pattern) :
  score (score_pattern ml p)
  = weight_score (priority p)
      (Z.of_nat (length (matched_keywords (score_pattern ml p)))).
Proof. unfold score_pattern. by rewrite match_keywords_filter. Qed.

Lemma score_pattern_agents (ml : string) (p : Pattern) :
  score_agents (score_pattern ml p) = agents p.
Proof. unfold score_pattern. by rewrite match_keywords_filter. Qed.

Lemma weight_score_nonneg (pr : string) (n : Z) :
  (0 <= n)%Z -> (0 <= weight_score pr n)%Q.
Proof.
  intros Hn. unfold weight_score.
  assert (0 <= inject_Z n)%Q as Hq by (unfold Qle; simpl; lia).
  repeat case_match; try apply Qmult_le_0_compat; try done.
Qed.

(** A weighted score below 1 means that no keyword matched. *)
Lemma weight_score_below_one (pr : string) (n : nat) :
  (weight_score pr (Z.of_nat n) < 1)%Q <-> n = O.
Proof.
  unfold weight_score.
  repeat case_match; unfold Qlt, Qmult, inject_Z; simpl; lia.
Qed.

(** ** [max] with a key *)

Lemma max_go_first {A : Type} (key : A -> Q) (l : list A) (best : A)
    (before after : list A) :
  Forall (fun x => (key x < key best)%Q) before ->
  Forall (fun x => (key x <= key best)%Q) after ->
  exists l1 x l2,
    before ++ best :: after ++ l = l1 ++ x :: l2 /\ Py.max_go key best l = x /\
    Forall (fun y => (key y < key x)%Q) l1 /\
    Forall (fun y => (key y <= key x)%Q) l2.
Proof.
  revert best before after.
  induction l as [|y l IH]; intros best before after Hb Ha; simpl.
  - exists before, best, after. by rewrite app_nil_r.
  - destruct (Py.Qltb (key best) (key y)) eqn:E.
    + apply Qltb_lt in E.
      destruct (IH y (before ++ best :: after) []) as (l1 & x & l2 & Heq & Hx & H1 & H2).
      { apply Forall_app. split; [|constructor].
        - eapply Forall_impl; [exact Hb|]. intros z Hz. simpl in Hz.
          by apply Qlt_trans with (key best).
        - done.
        - eapply Forall_impl; [exact Ha|]. intros z Hz. simpl in Hz.
          by apply Qle_lt_trans with (key best). }
      { constructor. }
      exists l1, x, l2. split; [|done].
      rewrite <- Heq. simpl. by rewrite <- app_assoc.
    + apply Qltb_ge in E.
      destruct (IH best before (after ++ [y])) as (l1 & x & l2 & Heq & Hx & H1 & H2).
      { done. }
      { apply Forall_app. split; [done|]. by constructor. }
      exists l1, x, l2. split; [|done].
      rewrite <- Heq. by rewrite <- app_assoc.
Qed.

Lemma best_routing_first_highest (scores : list (string * RoutingScore))
    (name : string) (d : RoutingScore) :
  best_routing_of scores = Ok (name, d) ->
  first_highest scores name (score d).
Proof.
  unfold best_routing_of, Py.max. destruct scores as [|x l]; [discriminate|].
  intros [= H].
  destruct (max_go_first (fun x => score (snd x)) l x [] [])
    as (l1 & y & l2 & Heq & Hy & H1 & H2); [constructor..|].
  simpl in Heq. rewrite H in Hy. subst y. by exists l1, d, l2.
Qed.

(** ** The classifier *)

Lemma getitem_comprehensive (ml : string) :
  exists d, Py.getitem (routing_scores_of routing_patterns ml) "comprehensive_analysis" = Ok d
            /\ score_agents d = comprehensive_agents.
Proof.
  eexists. split; [reflexivity|]. by rewrite score_pattern_agents.
Qed.

(** The classifier returns for every message, and what it returns. *)
Lemma analyze_inv (message : string) :
  exists r name d,
    _analyze_conversation_routing message = Ok r /\
    best_routing_of (scores_of_message message) = Ok (name, d) /\
    all_scores r = scores_of_message message /\
    (if Py.Qltb (score d) 1
     then selected_routing r = "comprehensive_analysis" /\
          agents_to_run r = comprehensive_agents
     else selected_routing r = name /\ agents_to_run r = score_agents d) /\
    execution_strategy r
    = (if (1 <? length (agents_to_run r))%nat then "parallel" else "single").
Proof.
  unfold _analyze_conversation_routing, analyze_with.
  fold (scores_of_message message).
  destruct (best_routing_of (scores_of_message message)) as [[name d]|e] eqn:Hbest.
  2: { unfold best_routing_of, scores_of_message in Hbest. discriminate. }
  destruct (Py.Qltb (score d) 1) eqn:Hlt.
  - destruct (getitem_comprehensive (Py.lower message)) as (dc & Hget & Hag).
    unfold scores_of_message at 1. rewrite Hget.
    eexists _, name, d. split; [reflexivity|]. split; [reflexivity|].
    rewrite Hlt. simpl. by rewrite Hag.
  - eexists _, name, d. split; [reflexivity|]. split; [reflexivity|].
    rewrite Hlt. by simpl.
Qed.

(** The scores follow the declaration order of the routing table. *)
Lemma scores_of_message_names (message : string) :
  map fst (scores_of_message message) = map fst routing_patterns.
Proof. reflexivity. Qed.

Lemma scores_of_message_elem (message : string) (x : string * RoutingScore) :
  x ∈ scores_of_message message ->
  exists p, (fst x, p) ∈ routing_patterns /\
            snd x = score_pattern (Py.lower message) p.
Proof.
  unfold scores_of_message, routing_scores_of. rewrite list_elem_of_fmap.
  intros ([n p] & -> & Hin). by exists p.
Qed.

Lemma getitem_Ok_elem {A : Type} (d : list (string * A)) (k : string) (v : A) :
  Py.getitem d k = Ok v -> (k, v) ∈ d.
Proof.
  induction d as [|[k' v'] d IH]; simpl; [discriminate|].
  destruct (String.eqb_spec k' k) as [->|Hne].
  - intros [= ->]. left.
  - intros H. right. by apply IH.
Qed.

Lemma get_agent_by_name_Some (a : string) (x : Agent) :
  _get_agent_by_name a = Some x -> (a, x) ∈ agent_map.
Proof.
  unfold _get_agent_by_name.
  destruct (Py.getitem agent_map a) eqn:E; [|discriminate].
  intros [= ->]. by apply getitem_Ok_elem.
Qed.

(** The agent names of the default intent are the registered agents. *)
Lemma comprehensive_agents_registered (a : string) :
  a ∈ comprehensive_agents <-> is_Some (_get_agent_by_name a).
Proof.
  unfold comprehensive_agents, _get_agent_by_name, agent_map. split.
  - rewrite !elem_of_cons, elem_of_nil.
    intros [->|[->|[->|[->|[]]]]]; by eexists.
  - intros [x Hx]. apply get_agent_by_name_Some in Hx.
    unfold agent_map in Hx. rewrite !elem_of_cons, elem_of_nil in Hx.
    destruct Hx as [H|[H|[H|[H|[]]]]]; injection H as -> _; set_solver.
Qed.

(** They are also the union of the agent lists of all intents. *)
Lemma comprehensive_agents_union (a : string) :
  a ∈ comprehensive_agents <->
  exists n p, (n, p) ∈ routing_patterns /\ a ∈ agents p.
Proof.
  split.
  - intros Ha.
    exists "comprehensive_analysis",
      (mkPattern ["advice"; "recommendation"; "what should"; "help me"]
                 comprehensive_agents "medium").
    split; [|exact Ha].
    unfold routing_patterns, comprehensive_agents. do 5 right. left.
  - intros (n & p & Hin & Ha). unfold routing_patterns in Hin.
    rewrite !elem_of_cons, elem_of_nil in Hin.
    unfold comprehensive_agents.
    destruct Hin as [H|[H|[H|[H|[H|[H|[]]]]]]]; injection H as -> ->;
      simpl in Ha; revert Ha; rewrite !elem_of_cons, !elem_of_nil; tauto.
Qed.

Lemma no_keyword_scores (message : string) :
  no_keyword_occurs message -> highest_score_below_one message.
Proof.
  intros Hno. apply Forall_forall. intros x Hx.
  destruct (scores_of_message_elem _ _ Hx) as (p & Hp & ->).
  rewrite score_pattern_score, score_pattern_matched.
  apply weight_score_below_one.
  assert (List.filter (fun kw => Py.str_in kw (Py.lower message)) (keywords p) = [])
    as ->; [|done].
  assert (Forall (fun kw => Py.lower kw = kw) (keywords p)) as Hlow.
  { pose proof routing_keywords_lower as H.
    rewrite Forall_forall in H. exact (H _ Hp). }
  assert (forall kw, kw ∈ keywords p -> Py.str_in kw (Py.lower message) = false) as Hf.
  { intros kw Hkw. destruct (Py.str_in kw (Py.lower message)) eqn:E; [|done].
    exfalso. apply (Hno _ _ _ Hp Hkw). apply str_in_lower_iff; [|done].
    rewrite Forall_forall in Hlow. by apply Hlow. }
  clear -Hf. induction (keywords p) as [|kw l IH]; [done|]. simpl.
  rewrite Hf by set_solver. apply IH. intros k Hk. apply Hf. set_solver.
Qed.

(** C3. A message whose highest weighted keyword score is below 1, in
    particular one in which no keyword of any intent occurs, is classified
    as the default intent ["comprehensive_analysis"]; the agent list of
    that routing is non-empty, consists of the registered specialist
    agents and is the union of the agent lists of all intents. *)
Theorem default_intent_fallback (message : string) :
  highest_score_below_one message \/ no_keyword_occurs message ->
  exists r,
    _analyze_conversation_routing message = Ok r /\
    selected_routing r = "comprehensive_analysis" /\
    agents_to_run r
    = ["financial_analysis"; "goal_extraction"; "risk_assessment"; "recommendation"] /\
    agents_to_run r <> [] /\
    (forall a, a ∈ agents_to_run r <-> is_Some (_get_agent_by_name a)) /\
    (forall a, a ∈ agents_to_run r <->
               exists n p, (n, p) ∈ routing_patterns /\ a ∈ agents p).
Proof.
  intros H.
  assert (highest_score_below_one message) as Hlow.
  { destruct H as [H|H]; [done | by apply no_keyword_scores]. }
  destruct (analyze_inv message) as (r & name & d & Hr & Hbest & Hall & Hsel & _).
  exists r. split; [done|].
  apply best_routing_first_highest in Hbest as (before & d0 & after & Heq & Hd0 & _ & _).
  assert ((score d < 1)%Q) as Hd.
  { unfold highest_score_below_one in Hlow. rewrite Heq in Hlow.
    apply Forall_app in Hlow as [_ Hlow]. apply Forall_cons in Hlow as [Hlow _].
    simpl in Hlow. by rewrite Hd0 in Hlow. }
  apply Qltb_lt in Hd. rewrite Hd in Hsel. destruct Hsel as [Hs Ha].
  rewrite Ha. split; [done|]. split; [done|]. split; [done|].
  split; [apply comprehensive_agents_registered | apply comprehensive_agents_union].
Qed.

Lemma default_intent_fallback_witness :
  exists r,
    _analyze_conversation_routing "Hello there" = Ok r /\
    selected_routing r = "comprehensive_analysis" /\
    agents_to_run r
    = ["financial_analysis"; "goal_extraction"; "risk_assessment"; "recommendation"] /\
    agents_to_run r <> [] /\
    (forall a, a ∈ agents_to_run r <-> is_Some (_get_agent_by_name a)) /\
    (forall a, a ∈ agents_to_run r <->
               exists n p, (n, p) ∈ routing_patterns /\ a ∈ agents p).
Proof.
  apply (default_intent_fallback "Hello there").
  left. unfold highest_score_below_one.
  repeat constructor.
Defined.

Lemma weight_score_multiplier (pr : string) (n : Z) :
  (weight_score pr n == inject_Z n * multiplier pr)%Q.
Proof.
  unfold weight_score, multiplier. repeat case_match; try reflexivity.
  by rewrite Qmult_1_r.
Qed.

Lemma routing_keywords_NoDup :
  Forall (fun np => NoDup (keywords (snd np))) routing_patterns.
Proof.
  repeat constructor; rewrite ?elem_of_cons, ?elem_of_nil;
    intuition discriminate.
Qed.

Lemma NoDup_list_filter {A : Type} (f : A -> bool) (l : list A) :
  NoDup l -> NoDup (List.filter f l).
Proof.
  induction 1 as [|x l Hx Hl IH]; simpl; [constructor|].
  destruct (f x); [|done]. constructor; [|done].
  rewrite list_elem_of_In, filter_In, <- list_elem_of_In. tauto.
Qed.

Lemma score_pattern_weighted (message : string) (n : string) (p : Pattern) :
  (n, p) ∈ routing_patterns ->
  weighted_keyword_count message p (score (score_pattern (Py.lower message) p)).
Proof.
  intros Hp.
  pose proof routing_keywords_lower as Hlow.
  pose proof routing_keywords_NoDup as Hnd.
  rewrite Forall_forall in Hlow, Hnd.
  specialize (Hlow _ Hp). specialize (Hnd _ Hp). simpl in Hlow, Hnd.
  exists (matched_keywords (score_pattern (Py.lower message) p)).
  split; [|split].
  - rewrite score_pattern_matched. by apply NoDup_list_filter.
  - intros kw. rewrite score_pattern_matched.
    rewrite list_elem_of_In, filter_In, <- list_elem_of_In.
    split; intros [Hkw H]; (split; [done|]);
      rewrite Forall_forall in Hlow; by apply (str_in_lower_iff kw message (Hlow _ Hkw)).
  - rewrite score_pattern_score. apply weight_score_multiplier.
Qed.

(** The first of the highest-scoring intents is unique. *)
Lemma first_highest_unique (scores : list (string * RoutingScore))
    (name name' : string) (top top' : Q) :
  first_highest scores name top -> first_highest scores name' top' ->
  name = name' /\ (top == top')%Q.
Proof.
  intros (before & d & after & Heq & Hd & Hb & Ha)
         (before' & d' & after' & Heq' & Hd' & Hb' & Ha').
  assert (forall (b b' : list (string * RoutingScore)) n n' e e' a a' t t',
            b ++ (n, e) :: a = b' ++ (n', e') :: a' ->
            (score e == t)%Q -> (score e' == t')%Q ->
            Forall (fun x => (score (snd x) < t')%Q) b' ->
            Forall (fun x => (score (snd x) <= t)%Q) a ->
            ~ (length b < length b')%nat) as Hno.
  { intros b b' n n' e e' a a' t t' E He He' Hlt Hle Hlen.
    assert (b' !! length b = Some (n, e)) as Hin.
    { rewrite <- (lookup_app_l b' ((n', e') :: a')) by done.
      rewrite <- E. apply list_lookup_middle. done. }
    assert ((b ++ (n, e) :: a) !! length b' = Some (n', e')) as Hin'.
    { rewrite E. apply list_lookup_middle. done. }
    rewrite lookup_app_r in Hin' by lia.
    destruct (length b' - length b)%nat as [|k] eqn:Ek; [lia|].
    simpl in Hin'. apply list_elem_of_lookup_2 in Hin, Hin'.
    rewrite Forall_forall in Hlt, Hle.
    specialize (Hlt _ Hin). specialize (Hle _ Hin'). simpl in Hlt, Hle.
    rewrite He in Hlt. rewrite He' in Hle.
    exact (Qlt_not_le _ _ Hlt Hle). }
  assert (length before = length before') as Hlen.
  { destruct (Nat.lt_trichotomy (length before) (length before'))
      as [Hlt|[Hq|Hgt]]; [|done|]; exfalso.
    - eapply (Hno before before'); [by rewrite <- Heq, <- Heq'|..]; done.
    - eapply (Hno before' before); [by rewrite <- Heq, <- Heq'|..]; done. }
  assert ((name, d) = (name', d')) as [= -> ->].
  { assert (scores !! length before = Some (name, d)) as H1.
    { rewrite Heq. apply list_lookup_middle. done. }
    assert (scores !! length before = Some (name', d')) as H2.
    { rewrite Heq'. apply list_lookup_middle. done. }
    congruence. }
  split; [done | by rewrite <- Hd, <- Hd'].
Qed.

(** C6, as the code has it. For every message the classifier returns;
    the score it records for each intent, in declaration order, is the
    number of that intent's keywords occurring in the message ignoring
    case, times 1.5 for priority high and 1.2 for priority medium; among
    the intents with the highest score there is one declared first, and
    when that highest score is at least 1 it is the selected intent. *)
Theorem weighted_score_selection (message : string) :
  exists r,
    _analyze_conversation_routing message = Ok r /\
    Forall2 (fun np ns =>
               fst ns = fst np /\
               weighted_keyword_count message (snd np) (score (snd ns)))
            routing_patterns (all_scores r) /\
    multiplier "high" = 3 # 2 /\ multiplier "medium" = 6 # 5 /\
    (exists name top, first_highest (all_scores r) name top) /\
    (forall name top,
       first_highest (all_scores r) name top -> (1 <= top)%Q ->
       selected_routing r = name).
Proof.
  destruct (analyze_inv message) as (r & name & d & Hr & Hbest & Hall & Hsel & _).
  apply best_routing_first_highest in Hbest.
  exists r. split; [done|]. split; [|split; [done|split; [done|split]]].
  - rewrite Hall. unfold scores_of_message, routing_scores_of.
    apply Forall2_fmap_r, Forall_Forall2_diag, Forall_forall.
    intros [n p] Hp. simpl. split; [done|]. by eapply score_pattern_weighted.
  - exists name, (score d). by rewrite Hall.
  - intros name' top' Hfirst Hone. rewrite Hall in Hfirst.
    destruct (first_highest_unique _ _ _ _ _ Hbest Hfirst) as [-> Htop].
    rewrite <- Htop in Hone. apply Qltb_ge in Hone. rewrite Hone in Hsel. by destruct Hsel.
Qed.

(** The selection rule of C6 without the threshold fails on the empty
    message: all six intents share the highest score 0, the first
    declared is ["financial_analysis"], and the classifier selects
    ["comprehensive_analysis"]. *)
Lemma weighted_score_selection_counterexample :
  exists r,
    _analyze_conversation_routing "" = Ok r /\
    first_highest (all_scores r) "financial_analysis" 0 /\
    selected_routing r = "comprehensive_analysis" /\
    ~ (forall name top,
         first_highest (all_scores r) name top -> selected_routing r = name).
Proof.
  eexists. split; [reflexivity|].
  assert (first_highest
            (all_scores
               {| selected_routing := "comprehensive_analysis";
                  routing_confidence := Qmin (0 / 3) 1;
                  routing_matched_keywords := [];
                  agents_to_run := comprehensive_agents;
                  execution_strategy := "parallel";
                  all_scores := scores_of_message "" |})
            "financial_analysis" 0) as Hfirst.
  { eexists [], _, _. simpl. split; [reflexivity|]. split; [reflexivity|].
    split; [constructor|]. repeat (constructor; [by vm_compute|]). constructor. }
  split; [exact Hfirst|]. split; [reflexivity|].
  intros H. specialize (H _ _ Hfirst). discriminate.
Qed.

Lemma weighted_score_selection_witness :
  exists r,
    _analyze_conversation_routing "What is my net worth and portfolio balance?" = Ok r /\
    selected_routing r = "financial_analysis" /\
    agents_to_run r = ["financial_analysis"].
Proof.
  destruct (weighted_score_selection "What is my net worth and portfolio balance?")
    as (r & Hr & _ & _ & _ & _ & Hsel).
  exists r. split; [exact Hr|].
  assert (selected_routing r = "financial_analysis") as Hname.
  { apply (Hsel "financial_analysis" (9 # 2)); [|by vm_compute].
    vm_compute in Hr. injection Hr as <-.
    eexists [], _, _. split; [reflexivity|]. split; [by vm_compute|].
    split; [constructor|]. repeat (constructor; [by vm_compute|]). constructor. }
  split; [exact Hname|].
  vm_compute in Hr. by injection Hr as <-.
Defined.

(** ** The monad *)

Lemma time_time_run {W : Type} (env : Env W) (w : W) :
  time_time env w = (Ok (clock env w), w).
Proof. reflexivity. Qed.

Lemma bind_Ok {W A B : Type} (m : M W A) (k : A -> M W B) (w w' : W) (a : A) :
  m w = (Ok a, w') -> bind m k w = k a w'.
Proof. unfold bind. by intros ->. Qed.

Lemma bind_Raise {W A B : Type} (m : M W A) (k : A -> M W B) (w w' : W)
    (e : string) :
  m w = (Raise e, w') -> bind m k w = (Raise e, w').
Proof. unfold bind. by intros ->. Qed.

Lemma try_except_Ok {W A : Type} (m : M W A) (h : string -> M W A) (w w' : W)
    (a : A) :
  m w = (Ok a, w') -> try_except m h w = (Ok a, w').
Proof. unfold try_except. by intros ->. Qed.

Lemma try_except_Raise {W A : Type} (m : M W A) (h : string -> M W A) (w w' : W)
    (e : string) :
  m w = (Raise e, w') -> try_except m h w = h e w'.
Proof. unfold try_except. by intros ->. Qed.

(** A handler that returns makes the whole [try] return. *)
Lemma try_except_total {W A : Type} (m : M W A) (h : string -> M W A) (w : W) :
  (forall e w1, exists a w2, h e w1 = (Ok a, w2)) ->
  exists a w', try_except m h w = (Ok a, w').
Proof.
  intros Hh. unfold try_except.
  destruct (m w) as [[a|e] w1]; [by exists a, w1 | apply Hh].
Qed.

(** ** [BaseAgent.process] *)

(** What [process] returns when the core logic returns. *)
Lemma process_core_Ok {W : Type} (env : Env W) (self : Agent)
    (state : ConversationState) (w w1 : W) (c : CoreResult) :
  core_logic env self state w = (Ok c, w1) ->
  process env self state w
  = (Ok {| agent_name := self_agent_name self;
           agent_type := getattr_agent_type self;
           success := true;
           execution_time := clock env w1 - clock env w;
           error := core_error c;
           response := core_response c;
           analysis := core_analysis c |}, w1).
Proof.
  intros Hc. unfold process, bind at 1. rewrite time_time_run.
  unfold try_except, bind. by rewrite Hc, time_time_run.
Qed.

(** What [process] returns when the core logic raises. *)
Lemma process_core_Raise {W : Type} (env : Env W) (self : Agent)
    (state : ConversationState) (w w1 : W) (e : string) :
  core_logic env self state w = (Raise e, w1) ->
  process env self state w
  = (Ok {| agent_name := self_agent_name self;
           agent_type := getattr_agent_type self;
           success := false;
           execution_time := clock env w1 - clock env w;
           error := Some e;
           response :=
             Some ("I encountered an error while processing your request: " +:+ e);
           analysis := None |}, w1).
Proof.
  intros Hc. unfold process, bind at 1. rewrite time_time_run.
  unfold try_except, bind at 1. rewrite Hc.
  unfold bind. by rewrite time_time_run.
Qed.

(** [process] returns whatever the core logic does, and the result names
    the agent that ran. *)
Lemma process_Ok {W : Type} (env : Env W) (self : Agent)
    (state : ConversationState) (w : W) :
  exists r w',
    process env self state w = (Ok r, w') /\
    agent_name r = self_agent_name self /\
    agent_type r = getattr_agent_type self.
Proof.
  destruct (core_logic env self state w) as [[c|e] w1] eqn:Hc.
  - rewrite (process_core_Ok _ _ _ _ _ _ Hc). by eexists _, _.
  - rewrite (process_core_Raise _ _ _ _ _ _ Hc). by eexists _, _.
Qed.



(** ** [asyncio.gather] *)

Lemma lookup_delete_split {A : Type} (l : list A) (k : nat) (x : A) :
  l !! k = Some x ->
  exists l1 l2, l = l1 ++ x :: l2 /\ delete k l = l1 ++ l2.
Proof.
  intros H. exists (take k l), (drop (S k) l). split.
  - by rewrite take_drop_middle.
  - apply delete_take_drop.
Qed.

Lemma gather_go_filled {W A : Type} (sched : nat -> nat) (tasks : list (M W A))
    (fuel step : nat) (pending : list nat) (slots : list (option (outcome A)))
    (w : W) :
  fuel = length pending ->
  NoDup pending ->
  (forall i, i ∈ pending -> (i < length tasks)%nat) ->
  length slots = length tasks ->
  (forall i, (i < length tasks)%nat -> i ∉ pending -> filled tasks slots i) ->
  let out := gather_go sched tasks fuel step pending slots w in
  length (fst out) = length tasks /\
  forall i, (i < length tasks)%nat -> filled tasks (fst out) i.
Proof.
  revert step pending slots w.
  induction fuel as [|fuel IH]; intros step pending slots w Hf Hnd Hlt Hlen Hfill.
  - simpl. split; [done|]. intros i Hi. apply Hfill; [done|].
    destruct pending; [apply not_elem_of_nil | discriminate].
  - assert (sched step mod length pending < length pending)%nat as Hk
      by (apply Nat.mod_upper_bound; lia).
    destruct (lookup_lt_is_Some_2 pending _ Hk) as [i Hi].
    assert (i ∈ pending) as Hin by by eapply list_elem_of_lookup_2.
    destruct (lookup_lt_is_Some_2 tasks i (Hlt i Hin)) as [t Ht].
    assert (gather_go sched tasks (S fuel) step pending slots w
            = let '(r, w') := t w in
              gather_go sched tasks fuel (S step)
                (delete (sched step mod length pending)%nat pending)
                (<[i := Some r]> slots) w') as Hstep.
    { cbn [gather_go]. cbv zeta. by rewrite Hi, Ht. }
    cbv zeta. rewrite Hstep. clear Hstep.
    destruct (t w) as [r w'] eqn:Hrun.
    destruct (lookup_delete_split _ _ _ Hi) as (l1 & l2 & Hsplit & Hdel).
    rewrite Hdel.
    assert (NoDup (i :: l1 ++ l2)) as Hnd'.
    { rewrite Hsplit in Hnd. by rewrite <- Permutation_middle in Hnd. }
    apply NoDup_cons in Hnd' as [Hi' Hnd'].
    apply IH.
    + rewrite Hsplit in Hf. rewrite length_app in *. simpl in Hf. lia.
    + done.
    + intros j Hj. apply Hlt. rewrite Hsplit.
      rewrite elem_of_app in Hj. rewrite elem_of_app, elem_of_cons. tauto.
    + by rewrite length_insert.
    + intros j Hj Hnot. destruct (decide (j = i)) as [->|Hne].
      * exists t, r, w. split; [done|]. split; [|by rewrite Hrun].
        apply list_lookup_insert_eq. lia.
      * destruct (Hfill j Hj) as (t' & r' & w0 & Ht' & Hs' & Hr').
        { rewrite Hsplit. rewrite elem_of_app, elem_of_cons.
          rewrite elem_of_app in Hnot.
          intros [H|[H|H]]; [apply Hnot; by left | done | apply Hnot; by right]. }
        exists t', r', w0. split; [done|]. split; [|done].
        by rewrite list_lookup_insert_ne.
Qed.

(** [gather] returns one outcome per task, in the order of the tasks,
    whatever the schedule; each is an outcome of its own task. *)
Lemma gather_in_order {W A : Type} (sched : nat -> nat) (tasks : list (M W A))
    (w : W) :
  exists results w',
    gather sched tasks w = (Ok results, w') /\
    Forall2 (fun t r => exists w0, r = fst (t w0)) tasks results.
Proof.
  unfold gather.
  pose proof (gather_go_filled sched tasks (length tasks) 0
                (seq 0 (length tasks)) (replicate (length tasks) None) w) as H.
  destruct (gather_go sched tasks (length tasks) 0 (seq 0 (length tasks))
              (replicate (length tasks) None) w) as [slots w'].
  simpl in H. destruct H as [Hlen Hfill].
  - by rewrite length_seq.
  - apply NoDup_seq.
  - intros i Hi. apply elem_of_seq in Hi. lia.
  - apply length_replicate.
  - intros i Hi Hnot. exfalso. apply Hnot. apply elem_of_seq. lia.
  - eexists _, w'. split; [reflexivity|].
    assert (Forall2 (fun t s => exists r w0, s = Some r /\ r = fst (t w0)) tasks slots)
      as HF.
    { apply Forall2_same_length_lookup_2; [done|].
      intros i t s Ht Hs.
      destruct (Hfill i (lookup_lt_Some _ _ _ Ht)) as (t' & r & w0 & Ht' & Hs' & Hr).
      pose proof (eq_trans (eq_sym Ht) Ht') as [= <-].
      pose proof (eq_trans (eq_sym Hs) Hs') as [= ->].
      by exists r, w0. }
    clear -HF. induction HF as [|t s tasks slots (r & w0 & -> & Hr) HF IH]; simpl.
    + constructor.
    + constructor; [by exists w0 | done].
Qed.

(** ** The execution step *)

Lemma resolved_cons (n : string) (names : list string) :
  resolved (n :: names)
  = match _get_agent_by_name n with
    | Some a => a :: resolved names
    | None => resolved names
    end.
Proof. reflexivity. Qed.

Lemma resolved_all (names : list string) :
  Forall (fun n => is_Some (_get_agent_by_name n)) names ->
  length (resolved names) = length names /\
  map getattr_agent_type (resolved names) = names.
Proof.
  induction 1 as [|n names [a Ha] HF [IH1 IH2]]; [done|].
  rewrite resolved_cons, Ha. cbn [length map]. rewrite IH1, IH2.
  split; [done|]. f_equal.
  apply get_agent_by_name_Some in Ha. unfold agent_map in Ha.
  rewrite !elem_of_cons, elem_of_nil in Ha.
  destruct Ha as [H|[H|[H|[H|[]]]]]; by injection H as -> ->.
Qed.

Lemma run_sequential_spec {W : Type} (env : Env W) (names : list string)
    (state : ConversationState) (acc : list AgentResult) (w : W) :
  exists rs w',
    run_sequential env names state acc w = (Ok (acc ++ rs), w') /\
    Forall2 result_of (resolved names) rs.
Proof.
  revert state acc w. induction names as [|n names IH]; intros state acc w.
  - exists [], w. simpl. unfold ret. by rewrite app_nil_r.
  - cbn [run_sequential]. rewrite resolved_cons.
    destruct (_get_agent_by_name n) as [a|].
    + destruct (process_Ok env a state w) as (r & w1 & Hp & Hn & Ht).
      rewrite (bind_Ok _ _ _ _ _ Hp).
      edestruct IH as (rs & w' & Hrun & HF). rewrite Hrun.
      exists (r :: rs), w'. split.
      * by rewrite <- app_assoc.
      * constructor; [by split | done].
    + apply IH.
Qed.

Lemma run_parallel_spec {W : Type} (env : Env W) (names : list string)
    (state : ConversationState) (w : W) :
  exists rs w',
    run_parallel env names state w = (Ok rs, w') /\
    Forall2 result_of (resolved names) rs.
Proof.
  unfold run_parallel.
  assert (omap (fun agent_name =>
                  match _get_agent_by_name agent_name with
                  | Some agent => Some (process env agent state)
                  | None => None
                  end) names
          = map (fun a => process env a state) (resolved names)) as ->.
  { induction names as [|n names IH]; [done|]. rewrite resolved_cons.
    change (omap ?f (n :: names))
      with (match f n with Some t => t :: omap f names | None => omap f names end).
    cbv beta. destruct (_get_agent_by_name n); by rewrite IH. }
  destruct (resolved names) as [|a l] eqn:Hres.
  { exists [], w. split; [done | constructor]. }
  rewrite <- Hres. clear Hres.
  destruct (map (fun a => process env a state) (resolved names)) as [|t ts] eqn:Htasks.
  { exists [], w. split; [done|]. destruct (resolved names); [constructor | discriminate]. }
  rewrite <- Htasks. clear Htasks.
  destruct (gather_in_order (schedule env)
              (map (fun a => process env a state) (resolved names)) w)
    as (results & w' & Hg & HF).
  rewrite (bind_Ok _ _ _ _ _ Hg). unfold ret. eexists _, w'. split; [reflexivity|].
  apply Forall2_fmap_l in HF.
  clear -HF. induction HF as [|a o l os [w0 Ho] HF IH]; simpl; [constructor|].
  destruct (process_Ok env a state w0) as (r & w1 & Hp & Hn & Ht).
  rewrite Hp in Ho. simpl in Ho. subst o. constructor; [by split | done].
Qed.

(** The execution step returns, and returns one result per resolved
    agent, in the order of the routing list. *)
Lemma execute_fallback_spec {W : Type} (env : Env W) (state : ConversationState)
    (ra : RoutingAnalysis) (w : W) :
  exists rs w',
    _execute_fallback_workflow env state ra w
    = (Ok {| turn_success := true;
             turn_error := None;
             turn_response := Synth._synthesize_agent_results rs;
             metadata := fallback_metadata state ra rs;
             agent_results := rs;
             routing_decisions := [] |}, w') /\
    Forall2 result_of (resolved (agents_to_run ra)) rs.
Proof.
  unfold _execute_fallback_workflow.
  destruct (String.eqb (execution_strategy ra) "parallel").
  - destruct (run_parallel_spec env (agents_to_run ra) state w) as (rs & w' & Hr & HF).
    exists rs, w'. split; [|done].
    apply try_except_Ok. by rewrite (bind_Ok _ _ _ _ _ Hr).
  - destruct (run_sequential_spec env (agents_to_run ra) state [] w)
      as (rs & w' & Hr & HF).
    exists rs, w'. split; [|done].
    apply try_except_Ok. by rewrite (bind_Ok _ _ _ _ _ Hr).
Qed.

Lemma routing_agents_registered :
  Forall (fun np => Forall (fun n => is_Some (_get_agent_by_name n)) (agents (snd np)))
         routing_patterns.
Proof. repeat constructor; by eexists. Qed.

Lemma best_routing_elem (scores : list (string * RoutingScore))
    (x : string * RoutingScore) :
  best_routing_of scores = Ok x -> x ∈ scores.
Proof.
  unfold best_routing_of, Py.max. destruct scores as [|y l]; [discriminate|].
  intros [= H].
  destruct (max_go_first (fun x => score (snd x)) l y [] [])
    as (l1 & z & l2 & Heq & Hz & _); [constructor..|].
  simpl in Heq. rewrite Heq, <- H, Hz. apply elem_of_app. right. left.
Qed.

(** Every routing decision of the classifier names registered agents. *)
Lemma analyze_agents_registered (message : string) (ra : RoutingAnalysis) :
  _analyze_conversation_routing message = Ok ra ->
  Forall (fun n => is_Some (_get_agent_by_name n)) (agents_to_run ra).
Proof.
  intros Hra.
  destruct (analyze_inv message) as (r & name & d & Hr & Hbest & Hall & Hsel & _).
  rewrite Hr in Hra. injection Hra as <-.
  destruct (Py.Qltb (score d) 1).
  - destruct Hsel as [_ ->]. apply Forall_forall.
    intros a Ha. by apply comprehensive_agents_registered.
  - destruct Hsel as [_ ->].
    apply best_routing_elem, scores_of_message_elem in Hbest as (p & Hp & Hd).
    simpl in Hp, Hd. rewrite Hd, score_pattern_agents.
    pose proof routing_agents_registered as H.
    rewrite Forall_forall in H. exact (H _ Hp).
Qed.

(** C1. For every routing decision of the classifier, and for every
    other routing decision whose agent names are all registered, and
    whatever the units do, failing or not, the execution step returns
    without raising, and returns as many agent results as the routing
    decision has agent names. *)
Theorem execute_length_preserved {W : Type} (env : Env W)
    (state : ConversationState) (ra : RoutingAnalysis) (w : W) :
  Forall (fun n => is_Some (_get_agent_by_name n)) (agents_to_run ra)
  \/ (exists message, _analyze_conversation_routing message = Ok ra) ->
  exists r w',
    _execute_fallback_workflow env state ra w = (Ok r, w') /\
    length (agent_results r) = length (agents_to_run ra).
Proof.
  intros H.
  assert (Forall (fun n => is_Some (_get_agent_by_name n)) (agents_to_run ra)) as Hreg.
  { destruct H as [H|[message H]]; [done | by eapply analyze_agents_registered]. }
  destruct (execute_fallback_spec env state ra w) as (rs & w' & Hrun & HF).
  eexists _, w'. split; [exact Hrun|]. simpl.
  apply Forall2_length in HF. rewrite <- HF. by apply resolved_all.
Qed.

(** Under total failure of a parallel run of three units, three results
    come back. *)
Lemma execute_length_preserved_witness :
  exists r w',
    _execute_fallback_workflow
      (Demo.env ["financial_analysis"; "risk_assessment"; "recommendation"])
      (Demo.state "Should I invest in stocks?")
      (Demo.routing ["financial_analysis"; "risk_assessment"; "recommendation"]
                    "parallel") 0%Q
    = (Ok r, w') /\
    length (agent_results r) = 3%nat.
Proof.
  apply (execute_length_preserved
           (Demo.env ["financial_analysis"; "risk_assessment"; "recommendation"])
           (Demo.state "Should I invest in stocks?")
           (Demo.routing ["financial_analysis"; "risk_assessment"; "recommendation"]
                         "parallel") 0%Q).
  left. repeat constructor; by eexists.
Defined.

(** Outside the decisions of the classifier: for a name the
    orchestrator has no agent for, the guard [if agent:] skips the unit.
    No routing decision of the classifier has such a name
    ([analyze_agents_registered]). *)
Example unregistered_name_skipped :
  exists r w',
    _execute_fallback_workflow (Demo.env [])
      (Demo.state "How is my portfolio?")
      (Demo.routing ["financial_analysis"; "portfolio_analysis"] "single") 0%Q
    = (Ok r, w') /\
    length (agent_results r) = 1%nat /\
    length (agents_to_run
              (Demo.routing ["financial_analysis"; "portfolio_analysis"] "single"))
    = 2%nat.
Proof. eexists _, _. split; [reflexivity|]. split; reflexivity. Qed.

Lemma result_of_names (l : list Agent) (rs : list AgentResult) :
  Forall2 result_of l rs ->
  map agent_name rs = map self_agent_name l /\
  map agent_type rs = map getattr_agent_type l.
Proof.
  induction 1 as [|a r l rs [Hn Ht] HF [IH1 IH2]]; simpl; [done|].
  by rewrite Hn, Ht, IH1, IH2.
Qed.

(** C10. In parallel mode, for every completion order, the execution step
    returns the results in the order of the agent names of the routing
    list: the result at each position comes from the agent named at that
    position, skipping names that resolve to no agent; when all names are
    registered, the agent types of the results are the routing list. Any
    other completion order gives the results of the same agents in the
    same order. *)
Theorem parallel_results_in_routing_order {W : Type} (env : Env W)
    (sched : nat -> nat) (state : ConversationState) (ra : RoutingAnalysis) (w : W) :
  execution_strategy ra = "parallel" ->
  exists r w',
    _execute_fallback_workflow (with_schedule env sched) state ra w = (Ok r, w') /\
    Forall2 result_of (resolved (agents_to_run ra)) (agent_results r) /\
    (Forall (fun n => is_Some (_get_agent_by_name n)) (agents_to_run ra) ->
     map agent_type (agent_results r) = agents_to_run ra) /\
    forall sched',
      exists r2 w2,
        _execute_fallback_workflow (with_schedule env sched') state ra w
        = (Ok r2, w2) /\
        map agent_name (agent_results r2) = map agent_name (agent_results r) /\
        map agent_type (agent_results r2) = map agent_type (agent_results r).
Proof.
  intros _.
  destruct (execute_fallback_spec (with_schedule env sched) state ra w)
    as (rs & w' & Hrun & HF).
  eexists _, w'. split; [exact Hrun|]. simpl. split; [done|].
  destruct (result_of_names _ _ HF) as [Hn Ht]. split.
  - intros Hreg. apply resolved_all in Hreg as [_ Hreg]. by rewrite Ht.
  - intros sched'.
    destruct (execute_fallback_spec (with_schedule env sched') state ra w)
      as (rs2 & w2 & Hrun2 & HF2).
    eexists _, w2. split; [exact Hrun2|]. simpl.
    destruct (result_of_names _ _ HF2) as [Hn2 Ht2]. by rewrite Hn, Ht, Hn2, Ht2.
Qed.

Lemma parallel_results_in_routing_order_witness :
  exists r w',
    _execute_fallback_workflow
      (with_schedule (Demo.env ["risk_assessment"]) (fun step => (2 - step)%nat))
      (Demo.state "Should I invest in stocks?")
      (Demo.routing ["financial_analysis"; "risk_assessment"; "recommendation"]
                    "parallel") 0%Q
    = (Ok r, w') /\
    Forall2 result_of
      (resolved ["financial_analysis"; "risk_assessment"; "recommendation"])
      (agent_results r) /\
    map agent_type (agent_results r)
    = ["financial_analysis"; "risk_assessment"; "recommendation"].
Proof.
  destruct (parallel_results_in_routing_order (Demo.env ["risk_assessment"])
              (fun step => (2 - step)%nat)
              (Demo.state "Should I invest in stocks?")
              (Demo.routing ["financial_analysis"; "risk_assessment"; "recommendation"]
                            "parallel") 0%Q)
    as (r & w' & Hrun & HF & Htypes & _); [reflexivity|].
  exists r, w'. split; [exact Hrun|]. split; [exact HF|].
  apply Htypes. repeat constructor; by eexists.
Defined.

(** The metadata of a state built by the orchestrator has the four
    entries written there and no other. *)
Lemma build_conversation_state_metadata {W : Type} (env : Env W)
    (user_message user_id : string) (session_id : option string) (w w' : W)
    (state : ConversationState) (k : string) :
  _build_conversation_state env user_message user_id session_id w = (Ok state, w') ->
  k ∉ ["start_time"; "orchestrator_type"; "agents_used"; "routing_decisions"] ->
  state_metadata state !! k = None.
Proof.
  unfold _build_conversation_state, bind.
  destruct (service_get_user_context env user_id w) as [[c|e] w1]; [|discriminate].
  rewrite !time_time_run. unfold ret. intros [= <- _] Hk. simpl.
  rewrite !lookup_insert_ne, lookup_empty; [done|..]; intros <-; apply Hk;
    rewrite !elem_of_cons; tauto.
Qed.

(** ** Synthesis *)

Lemma filter_success_none (rs : list AgentResult) :
  Forall (fun r => success r = false) rs -> List.filter success rs = [].
Proof.
  induction 1 as [|r rs Hr HF IH]; [done|]. simpl. by rewrite Hr.
Qed.

Lemma filter_only_success (rs : list AgentResult) (r : AgentResult) :
  only_success rs r -> List.filter success rs = [r].
Proof.
  intros (before & after & -> & Hr & Hb & Ha).
  rewrite List.filter_app. simpl. rewrite Hr.
  by rewrite (filter_success_none _ Hb), (filter_success_none _ Ha).
Qed.

Lemma generic_summary_nonempty : Synth.generic_summary <> "".
Proof. discriminate. Qed.

(** The synthesized text when [r] is the only successful result. *)
Lemma synthesize_only_success (rs : list AgentResult) (r : AgentResult) :
  only_success rs r ->
  Synth._synthesize_agent_results rs
  = if contributes r then default "" (response r) else Synth.generic_summary.
Proof.
  intros Hone. unfold Synth._synthesize_agent_results.
  rewrite (filter_only_success _ _ Hone).
  unfold Synth._prioritize_agent_results, Synth.sorted_reverse.
  cbn [foldr Synth.insert_desc length Nat.ltb Nat.leb].
  unfold Synth.next_of_type, contributes. cbn [List.find].
  destruct (String.eqb_spec (agent_type r) "financial_analysis") as [E1|N1].
  { rewrite E1. cbn [String.eqb Ascii.eqb Bool.eqb].
    unfold Synth.plain_part, Synth.risk_part.
    destruct (Synth.has_response r); reflexivity. }
  destruct (String.eqb_spec (agent_type r) "goal_extraction") as [E2|N2].
  { rewrite E2. cbn [String.eqb Ascii.eqb Bool.eqb].
    unfold Synth.plain_part, Synth.risk_part.
    destruct (Synth.has_response r); reflexivity. }
  destruct (String.eqb_spec (agent_type r) "risk_assessment") as [E3|N3].
  { rewrite E3. cbn [String.eqb Ascii.eqb Bool.eqb].
    unfold Synth.plain_part, Synth.risk_part.
    destruct (Synth.has_response r); [|reflexivity].
    destruct (Py.Qltb 40 (Synth.risk_score_of r)); reflexivity. }
  destruct (String.eqb_spec (agent_type r) "recommendation") as [E4|N4].
  { unfold Synth.plain_part, Synth.risk_part.
    destruct (Synth.has_response r); reflexivity. }
  unfold Synth.plain_part, Synth.risk_part. cbn.
  by rewrite andb_false_r.
Qed.

Lemma has_response_nonempty (r : AgentResult) :
  Synth.has_response r = true -> default "" (response r) <> "".
Proof.
  unfold Synth.has_response. destruct (response r) as [s|]; [|discriminate].
  simpl. destruct (String.eqb_spec s ""); [discriminate | done].
Qed.

(** The entries of the metadata of the execution step. *)
Lemma fallback_metadata_successful (state : ConversationState)
    (ra : RoutingAnalysis) (rs : list AgentResult) :
  fallback_metadata state ra rs !! "successful_agents"
  = Some (VNum (inject_Z (Z.of_nat (length (List.filter success rs))))).
Proof. unfold fallback_metadata. by rewrite lookup_insert_eq. Qed.

Lemma fallback_metadata_run (state : ConversationState)
    (ra : RoutingAnalysis) (rs : list AgentResult) :
  fallback_metadata state ra rs !! "agents_run"
  = Some (VNum (inject_Z (Z.of_nat (length rs)))).
Proof.
  unfold fallback_metadata.
  rewrite lookup_insert_ne by done. by rewrite lookup_insert_eq.
Qed.

Lemma fallback_metadata_used (state : ConversationState)
    (ra : RoutingAnalysis) (rs : list AgentResult) :
  fallback_metadata state ra rs !! "agents_used"
  = Some (VList (map agent_name (List.filter success rs))).
Proof.
  unfold fallback_metadata.
  rewrite !lookup_insert_ne by done. by rewrite lookup_insert_eq.
Qed.

(** A key the execution step does not write is as the state has it. *)
Lemma fallback_metadata_other (state : ConversationState)
    (ra : RoutingAnalysis) (rs : list AgentResult) (k : string) :
  k ∉ ["workflow_type"; "execution_strategy"; "agents_used"; "routing_analysis";
       "agents_run"; "successful_agents"] ->
  fallback_metadata state ra rs !! k = state_metadata state !! k.
Proof.
  intros Hk. unfold fallback_metadata.
  rewrite !lookup_insert_ne; [done|..]; intros <-; apply Hk;
    rewrite !elem_of_cons; tauto.
Qed.

(** C4, as the code has it. When no agent result is successful, synthesis
    returns the fixed apology; the execution step returns it as the
    response of the turn, with [success] true, and its metadata flags the
    total failure by [successful_agents = 0] and an empty [agents_used];
    it writes no [success] entry into the metadata. *)
Theorem all_failed_fallback {W : Type} (env : Env W) (state : ConversationState)
    (ra : RoutingAnalysis) (w : W) :
  (forall rs,
     Forall (fun r => success r = false) rs ->
     Synth._synthesize_agent_results rs
     = "I apologize, but I encountered issues analyzing your request. Please try again.")
  /\
  exists r w',
    _execute_fallback_workflow env state ra w = (Ok r, w') /\
    (Forall (fun x => success x = false) (agent_results r) ->
     turn_response r = Synth.apology /\
     turn_success r = true /\
     metadata r !! "successful_agents" = Some (VNum 0) /\
     metadata r !! "agents_used" = Some (VList []) /\
     metadata r !! "success" = state_metadata state !! "success" /\
     (forall message uid sid w0 w1,
        _build_conversation_state env message uid sid w0 = (Ok state, w1) ->
        metadata r !! "success" = None)).
Proof.
  split.
  - intros rs Hrs. unfold Synth._synthesize_agent_results.
    by rewrite (filter_success_none _ Hrs).
  - destruct (execute_fallback_spec env state ra w) as (rs & w' & Hrun & _).
    eexists _, w'. split; [exact Hrun|]. simpl. intros Hrs.
    assert (fallback_metadata state ra rs !! "success"
            = state_metadata state !! "success") as Hkey.
    { apply fallback_metadata_other. rewrite !elem_of_cons, elem_of_nil.
      intuition discriminate. }
    split; [|split; [done|split; [|split; [|split; [done|]]]]].
    + unfold Synth._synthesize_agent_results. by rewrite (filter_success_none _ Hrs).
    + by rewrite fallback_metadata_successful, (filter_success_none _ Hrs).
    + by rewrite fallback_metadata_used, (filter_success_none _ Hrs).
    + intros message uid sid w0 w1 Hbuilt. rewrite Hkey.
      eapply build_conversation_state_metadata; [exact Hbuilt|].
      rewrite !elem_of_cons, elem_of_nil. intuition discriminate.
Qed.

Lemma all_failed_fallback_witness :
  exists r w',
    _execute_fallback_workflow (Demo.env ["goal_extraction"; "recommendation"])
      (Demo.state "I want to save for a house")
      (Demo.routing ["goal_extraction"; "recommendation"] "parallel") 0%Q
    = (Ok r, w') /\
    length (agent_results r) = 2%nat /\
    turn_response r = Synth.apology /\
    turn_success r = true /\
    metadata r !! "successful_agents" = Some (VNum 0) /\
    metadata r !! "agents_used" = Some (VList []) /\
    metadata r !! "success" = None.
Proof.
  destruct (all_failed_fallback (Demo.env ["goal_extraction"; "recommendation"])
              (Demo.state "I want to save for a house")
              (Demo.routing ["goal_extraction"; "recommendation"] "parallel") 0%Q)
    as [_ (r & w' & Hrun & H)].
  exists r, w'. split; [exact Hrun|].
  assert (map success (agent_results r) = [false; false]) as Hfail.
  { vm_compute in Hrun. by injection Hrun as <- _. }
  destruct (agent_results r) as [|x [|y [|z l]]]; try discriminate Hfail.
  injection Hfail as Hx Hy.
  split; [reflexivity|].
  destruct H as (H1 & H2 & H3 & H4 & H5 & _); [by repeat constructor|].
  split; [exact H1|]. split; [exact H2|]. split; [exact H3|]. split; [exact H4|].
  exact H5.
Defined.

(** With every unit failing, the turn still reports [success = true], and
    its metadata has no [success] entry that could report false. *)
Lemma all_failed_fallback_counterexample :
  exists r w',
    _execute_fallback_workflow (Demo.env ["goal_extraction"; "recommendation"])
      (Demo.state "I want to save for a house")
      (Demo.routing ["goal_extraction"; "recommendation"] "sequential") 0%Q
    = (Ok r, w') /\
    Forall (fun x => success x = false) (agent_results r) /\
    turn_response r = Synth.apology /\
    turn_success r = true /\
    metadata r !! "success" = None.
Proof.
  eexists _, _. split; [reflexivity|].
  split; [repeat constructor|]. split; [reflexivity|]. split; [reflexivity|].
  by vm_compute.
Qed.

(** C7, as the code has it. When exactly one agent result is successful,
    the synthesized text is never empty; it is that unit's own response
    when the response is not empty and the unit is a financial analysis,
    a goal extraction, a recommendation, or a risk assessment scoring
    above 40, and the fixed generic summary otherwise. The execution step
    returns that text; its metadata reports one successful agent out of
    the number of agents run and names that agent; it writes no
    [degraded] entry. *)
Theorem single_success_synthesis {W : Type} (env : Env W)
    (state : ConversationState) (ra : RoutingAnalysis) (w : W) :
  (forall rs r,
     only_success rs r ->
     Synth._synthesize_agent_results rs <> "" /\
     (contributes r = true ->
      Some (Synth._synthesize_agent_results rs) = response r) /\
     (contributes r = false ->
      Synth._synthesize_agent_results rs = Synth.generic_summary))
  /\
  exists turn w',
    _execute_fallback_workflow env state ra w = (Ok turn, w') /\
    turn_response turn = Synth._synthesize_agent_results (agent_results turn) /\
    forall r,
      only_success (agent_results turn) r ->
      metadata turn !! "successful_agents" = Some (VNum 1) /\
      metadata turn !! "agents_run"
      = Some (VNum (inject_Z (Z.of_nat (length (agent_results turn))))) /\
      metadata turn !! "agents_used" = Some (VList [agent_name r]) /\
      metadata turn !! "degraded" = state_metadata state !! "degraded" /\
      (forall message uid sid w0 w1,
         _build_conversation_state env message uid sid w0 = (Ok state, w1) ->
         metadata turn !! "degraded" = None).
Proof.
  split.
  - intros rs r Hone. rewrite (synthesize_only_success _ _ Hone).
    destruct (contributes r) eqn:Hc.
    + assert (Synth.has_response r = true) as Hr.
      { unfold contributes in Hc. by apply andb_true_iff in Hc as [Hc _]. }
      split; [by apply has_response_nonempty|]. split; [|discriminate].
      intros _. unfold Synth.has_response in Hr.
      by destruct (response r).
    + split; [apply generic_summary_nonempty|]. split; [discriminate | done].
  - destruct (execute_fallback_spec env state ra w) as (rs & w' & Hrun & _).
    eexists _, w'. split; [exact Hrun|]. simpl. split; [done|].
    intros r Hone.
    assert (fallback_metadata state ra rs !! "degraded"
            = state_metadata state !! "degraded") as Hkey.
    { apply fallback_metadata_other. rewrite !elem_of_cons, elem_of_nil.
      intuition discriminate. }
    split; [|split; [|split; [|split; [done|]]]].
    + by rewrite fallback_metadata_successful, (filter_only_success _ _ Hone).
    + apply fallback_metadata_run.
    + by rewrite fallback_metadata_used, (filter_only_success _ _ Hone).
    + intros message uid sid w0 w1 Hbuilt. rewrite Hkey.
      eapply build_conversation_state_metadata; [exact Hbuilt|].
      rewrite !elem_of_cons, elem_of_nil. intuition discriminate.
Qed.

Lemma single_success_synthesis_witness :
  exists turn w',
    _execute_fallback_workflow (Demo.env ["risk_assessment"])
      (Demo.state "Is my portfolio safe?")
      (Demo.routing ["financial_analysis"; "risk_assessment"] "parallel") 0%Q
    = (Ok turn, w') /\
    turn_response turn = "Summary from Financial Analysis Agent" /\
    metadata turn !! "successful_agents" = Some (VNum 1) /\
    metadata turn !! "agents_run" = Some (VNum 2) /\
    metadata turn !! "agents_used" = Some (VList ["Financial Analysis Agent"]) /\
    metadata turn !! "degraded" = None.
Proof.
  destruct (single_success_synthesis (Demo.env ["risk_assessment"])
              (Demo.state "Is my portfolio safe?")
              (Demo.routing ["financial_analysis"; "risk_assessment"] "parallel") 0%Q)
    as [_ (turn & w' & Hrun & Hresp & Hmeta)].
  exists turn, w'. split; [exact Hrun|].
  assert (exists a b, agent_results turn = [a; b] /\ success a = true /\
                      success b = false /\
                      agent_name a = "Financial Analysis Agent" /\
                      response a = Some "Summary from Financial Analysis Agent" /\
                      agent_type a = "financial_analysis")
    as (a & b & Hrs & Ha & Hb & Hn & Hr & Ht).
  { vm_compute in Hrun. injection Hrun as <- _. by eexists _, _. }
  assert (only_success (agent_results turn) a) as Hone.
  { exists [], [b]. rewrite Hrs. by repeat constructor. }
  destruct (Hmeta a Hone) as (H1 & H2 & H3 & H4 & _).
  split.
  { rewrite Hresp, (synthesize_only_success _ _ Hone).
    unfold contributes, Synth.has_response. by rewrite Hr, Ht. }
  split; [exact H1|]. split; [by rewrite H2, Hrs|].
  split; [by rewrite H3, Hn | exact H4].
Defined.

(** The only successful unit is a risk assessment scoring 20: its own
    summary is left out and the generic summary is returned instead.
    And a turn with one unit failing out of two has no [degraded] entry
    in its metadata. *)
Lemma single_success_counterexample :
  (let rs := [Demo.low_risk_result] in
   only_success rs Demo.low_risk_result /\
   response Demo.low_risk_result
   = Some "Your overall financial risk score is 20/100." /\
   Synth._synthesize_agent_results rs = Synth.generic_summary /\
   Some (Synth._synthesize_agent_results rs) <> response Demo.low_risk_result)
  /\
  exists turn w',
    _execute_fallback_workflow (Demo.env ["risk_assessment"])
      (Demo.state "Is my portfolio safe?")
      (Demo.routing ["financial_analysis"; "risk_assessment"] "parallel") 0%Q
    = (Ok turn, w') /\
    map success (agent_results turn) = [true; false] /\
    metadata turn !! "degraded" = None.
Proof.
  split.
  - split; [by exists [], []|]. split; [reflexivity|]. split; [reflexivity|].
    discriminate.
  - eexists _, _. split; [reflexivity|]. split; [reflexivity|]. by vm_compute.
Qed.

(** ** The turn boundary *)

Lemma create_error_response_run {W : Type} (env : Env W) (msg : string) (w : W) :
  exists r,
    _create_error_response env msg w = (Ok r, w) /\
    turn_success r = false /\
    turn_error r = Some msg /\
    turn_response r
    = "I encountered an issue processing your request. Please try rephrasing your question." /\
    metadata r !! "workflow_type" = Some (VStr "error") /\
    metadata r !! "processing_time" = Some (VNum 0) /\
    metadata r !! "timestamp" = Some (VTime (clock env w)).
Proof.
  eexists. split; [reflexivity|]. simpl. repeat split.
Qed.

Lemma step_fault_raises {W : Type} (env : Env W) (self : Orchestrator W)
    (user_message user_id : string) (session_id : option string) (w w1 : W)
    (e : string) :
  step_fault self user_message user_id session_id w e w1 ->
  process_message_body env self user_message user_id session_id w = (Raise e, w1).
Proof.
  unfold process_message_body. intros [H|st w0 H1 H2|st ra w0 w2 H1 H2 H3];
    unfold bind at 1; rewrite time_time_run.
  - by apply bind_Raise.
  - rewrite (bind_Ok _ _ _ _ _ H1). by apply bind_Raise.
  - rewrite (bind_Ok _ _ _ _ _ H1), (bind_Ok _ _ _ _ _ H2). by apply bind_Raise.
Qed.

Lemma plutus_step_fault_raises {W R : Type} (env : Env W) (self : Plutus.Methods W R)
    (user_message user_id : string) (session_id : option string) (w w1 : W)
    (e : string) (start : Q) :
  Plutus.step_fault self user_message user_id session_id w e w1 ->
  Plutus.process_message_body env self user_message user_id session_id start w
  = (Raise e, w1).
Proof.
  unfold Plutus.process_message_body.
  intros [H|st w2 H1 H2|st st' w2 w3 H1 H2 H3|st st' rs w2 w3 w4 H1 H2 H3 H4
         |st st' rs text w2 w3 w4 w5 H1 H2 H3 H4 H5].
  - by apply bind_Raise.
  - rewrite (bind_Ok _ _ _ _ _ H1). by apply bind_Raise.
  - rewrite (bind_Ok _ _ _ _ _ H1), (bind_Ok _ _ _ _ _ H2). simpl.
    by apply bind_Raise.
  - rewrite (bind_Ok _ _ _ _ _ H1), (bind_Ok _ _ _ _ _ H2). simpl.
    rewrite (bind_Ok _ _ _ _ _ H3). by apply bind_Raise.
  - rewrite (bind_Ok _ _ _ _ _ H1), (bind_Ok _ _ _ _ _ H2). simpl.
    rewrite (bind_Ok _ _ _ _ _ H3), (bind_Ok _ _ _ _ _ H4). by apply bind_Raise.
Qed.

(** C2. For every message, user id and session id, and whatever the steps
    of the turn do, [process_message] returns a response mapping and
    raises nothing; a fault raised while building the state, classifying
    or executing (which includes synthesis) is turned into the error
    response: [success] false, the apologetic text, the message of the
    fault, and metadata. The same holds for the entry point of
    [PlutusOrchestrator]. *)
Theorem process_message_never_raises {W R : Type} (env : Env W)
    (self : Orchestrator W) (plutus : Plutus.Methods W R)
    (user_message user_id : string) (session_id : option string) (w : W) :
  (exists r w',
     process_message env self user_message user_id session_id w = (Ok r, w') /\
     forall e w1,
       step_fault self user_message user_id session_id w e w1 ->
       w' = w1 /\
       turn_success r = false /\
       turn_error r = Some ("Advanced orchestration failed: " +:+ e) /\
       turn_response r
       = "I encountered an issue processing your request. Please try rephrasing your question." /\
       metadata r !! "workflow_type" = Some (VStr "error") /\
       metadata r !! "timestamp" = Some (VTime (clock env w1)))
  /\
  (exists r w',
     Plutus.process_message env plutus user_message user_id session_id w
     = (Ok r, w') /\
     forall e w1,
       Plutus.step_fault plutus user_message user_id session_id w e w1 ->
       w' = w1 /\
       turn_success r = false /\
       turn_error r = Some e /\
       turn_response r
       = "I'm sorry, I encountered an issue processing your request. Please try again or rephrase your question." /\
       metadata r !! "error_details" = Some (VStr e) /\
       metadata r !! "processing_time" = Some (VNum (clock env w1 - clock env w))).
Proof.
  split.
  - unfold process_message, try_except.
    destruct (process_message_body env self user_message user_id session_id w)
      as [[r|e] w1] eqn:Hbody.
    + exists r, w1. split; [done|]. intros e w2 Hfault.
      apply (step_fault_raises env) in Hfault. congruence.
    + destruct (create_error_response_run env
                  ("Advanced orchestration failed: " +:+ e) w1)
        as (r & Hr & H1 & H2 & H3 & H4 & _ & H6).
      exists r, w1. split; [done|]. intros e' w2 Hfault.
      apply (step_fault_raises env) in Hfault.
      rewrite Hbody in Hfault. injection Hfault as -> ->. done.
  - unfold Plutus.process_message, bind at 1. rewrite time_time_run.
    unfold try_except.
    destruct (Plutus.process_message_body env plutus user_message user_id
                session_id (clock env w) w) as [[r|e] w1] eqn:Hbody.
    + exists r, w1. split; [done|]. intros e w2 Hfault.
      apply (plutus_step_fault_raises env _ _ _ _ _ _ _ (clock env w)) in Hfault.
      congruence.
    + eexists _, w1. split; [reflexivity|]. intros e' w2 Hfault.
      apply (plutus_step_fault_raises env _ _ _ _ _ _ _ (clock env w)) in Hfault.
      rewrite Hbody in Hfault. injection Hfault as -> ->. simpl.
      repeat split.
Qed.

Lemma process_message_never_raises_witness :
  (exists r w',
     process_message Demo.broken_env (AdvancedOrchestrator Demo.broken_env)
       "What should I do?" "u1" None 0%Q = (Ok r, w') /\
     turn_success r = false /\
     turn_error r = Some "Advanced orchestration failed: user store unavailable" /\
     turn_response r
     = "I encountered an issue processing your request. Please try rephrasing your question.")
  /\
  (exists r w',
     Plutus.process_message (Demo.env []) Demo.plutus "What should I do?" "u1" None 0%Q
     = (Ok r, w') /\
     turn_success r = false /\
     turn_response r
     = "I'm sorry, I encountered an issue processing your request. Please try again or rephrase your question.").
Proof.
  split.
  - destruct (process_message_never_raises Demo.broken_env
                (AdvancedOrchestrator Demo.broken_env) Demo.plutus
                "What should I do?" "u1" None 0%Q) as [(r & w' & Hrun & H) _].
    exists r, w'. split; [exact Hrun|].
    destruct (H "user store unavailable" 0%Q) as (_ & H1 & H2 & H3 & _).
    { by apply fault_in_state. }
    split; [exact H1|]. split; [exact H2 | exact H3].
  - destruct (process_message_never_raises (Demo.env [])
                (AdvancedOrchestrator (Demo.env [])) Demo.plutus
                "What should I do?" "u1" None 0%Q) as [_ (r & w' & Hrun & H)].
    exists r, w'. split; [exact Hrun|].
    destruct (H "'OrchestratorAgent' object has no attribute 'execute'" 0%Q)
      as (_ & H1 & _ & H3 & _).
    { by eapply Plutus.fault_in_classification. }
    split; [exact H1 | exact H3].
Defined.

(** ** The completion call *)

(** What [call_claude] does when the request fails. *)
Lemma call_claude_failure (agent : string) (config : Claude.Config)
    (create : Claude.Client) (prompt : string) (rt : Claude.Runtime)
    (k : Claude.ErrorKind) :
  create prompt (Claude.requests rt) = inl k ->
  Claude.call_claude agent config (Some create) prompt rt
  = Claude._simulate_claude_response agent prompt
      {| Claude.requests := S (Claude.requests rt);
         Claude.sleeps := Claude.sleeps rt;
         Claude.total_api_cost := Claude.total_api_cost rt |}.
Proof. unfold Claude.call_claude. by intros ->. Qed.

(** C5, as the code has it. When the completion request of a unit fails,
    with whatever kind of error, recoverable or not, [call_claude] emits
    no failure: it falls back to the simulated completion and returns it
    with [success] true, marked as simulated, at no cost. *)
Theorem completion_failure_falls_back (agent : string) (config : Claude.Config)
    (create : Claude.Client) (prompt : string) (rt : Claude.Runtime)
    (k : Claude.ErrorKind) :
  create prompt (Claude.requests rt) = inl k ->
  let out := Claude.call_claude agent config (Some create) prompt rt in
  Claude.reply_success (fst out) = true /\
  Claude.simulated (fst out) = true /\
  Claude.reply_content (fst out) = Claude._generate_simulated_response agent prompt /\
  Claude.cost (fst out) = 0%Q /\
  Claude.total_api_cost (snd out) = Claude.total_api_cost rt.
Proof. intros H. by rewrite (call_claude_failure _ _ _ _ _ _ H). Qed.

Lemma completion_failure_falls_back_witness :
  let out := Claude.call_claude "Risk Assessment Agent" Demo.config
               (Some (Demo.failing_client Claude.QuotaExceeded))
               "Assess the risk of this portfolio" Demo.fresh_runtime in
  Claude.reply_success (fst out) = true /\
  Claude.simulated (fst out) = true /\
  Claude.reply_content (fst out)
  = "Simulated response from Risk Assessment Agent for prompt analysis." /\
  Claude.cost (fst out) = 0%Q /\
  Claude.total_api_cost (snd out) = 0%Q.
Proof.
  apply (completion_failure_falls_back "Risk Assessment Agent" Demo.config
           (Demo.failing_client Claude.QuotaExceeded)
           "Assess the risk of this portfolio" Demo.fresh_runtime
           Claude.QuotaExceeded).
  reflexivity.
Defined.

(** With [max_retries = 3] and a service that times out on every request,
    the call sends one request, pauses once for the fixed half second of
    the simulation, and returns a success; a failure that is not
    recoverable gives a success as well, so the unit does not fail. *)
Lemma retry_policy_counterexample :
  (Claude.recoverable Claude.Timeout = true /\
   let out := Claude.call_claude "Risk Assessment Agent" Demo.config
                (Some (Demo.failing_client Claude.Timeout))
                "Assess the risk of this portfolio" Demo.fresh_runtime in
   Claude.requests (snd out) = 1%nat /\
   Claude.sleeps (snd out) = [1 # 2] /\
   Claude.reply_success (fst out) = true)
  /\
  (Claude.recoverable Claude.InvalidOutput = false /\
   let out := Claude.call_claude "Risk Assessment Agent" Demo.config
                (Some (Demo.failing_client Claude.InvalidOutput))
                "Assess the risk of this portfolio" Demo.fresh_runtime in
   Claude.requests (snd out) = 1%nat /\
   Claude.reply_success (fst out) = true).
Proof. repeat split. Qed.

(** ** The context update *)

Lemma kept_refl (c : UserContext) : kept c c.
Proof. unfold kept. tauto. Qed.

Lemma kept_trans (c1 c2 c3 : UserContext) : kept c1 c2 -> kept c2 c3 -> kept c1 c3.
Proof.
  unfold kept. intros (A1 & A2 & A3 & A4 & A5 & A6 & A7 & A8)
                      (B1 & B2 & B3 & B4 & B5 & B6 & B7 & B8).
  repeat split; try congruence; auto.
Qed.

Lemma kept_set_recent_topics (c : UserContext) (topics : list string) :
  (recent_topics c <> [] -> topics <> []) ->
  kept c (Context.set_recent_topics c topics).
Proof. unfold kept. simpl. tauto. Qed.

Lemma kept_set_financial_personality (c : UserContext) (fp : gmap string Trait) :
  (forall k, is_Some (financial_personality c !! k) -> is_Some (fp !! k)) ->
  kept c (Context.set_financial_personality c fp).
Proof. unfold kept. simpl. tauto. Qed.

Lemma kept_touch (c : UserContext) (now : Q) : kept c (Context.touch c now).
Proof. unfold kept. simpl. tauto. Qed.

Lemma insert_keeps_entries (fp : gmap string Trait) (i k : string) (v : Trait) :
  is_Some (fp !! k) -> is_Some (<[i := v]> fp !! k).
Proof. intros H. apply lookup_insert_is_Some. destruct (decide (i = k)); auto. Qed.

Lemma add_topics_nonempty (new_topics recent : list string) :
  recent <> [] -> Context.add_topics new_topics recent <> [].
Proof.
  revert recent. induction new_topics as [|t l IH]; intros recent H; [done|].
  simpl. apply IH. destruct (Context.str_elem t recent); [done|].
  by destruct recent.
Qed.

Lemma last_ten_nonempty (l : list string) : l <> [] -> Context.last_ten l <> [].
Proof.
  intros H Hd. apply (f_equal length) in Hd. unfold Context.last_ten in Hd.
  rewrite length_drop in Hd. destruct l; [done|]. simpl in Hd. lia.
Qed.

Lemma apply_preferences_keeps (prefs : list string) (fp : gmap string Trait)
    (k : string) :
  is_Some (fp !! k) -> is_Some (Context.apply_preferences prefs fp !! k).
Proof.
  revert fp. induction prefs as [|p l IH]; intros fp H; [done|].
  simpl. apply IH. repeat case_match; try done; by apply insert_keeps_entries.
Qed.

Lemma apply_concerns_kept (concerns : list string) (c : UserContext) :
  kept c (snd (Context.apply_concerns concerns c)).
Proof.
  revert c. induction concerns as [|x l IH]; intros c; [apply kept_refl|].
  cbn [Context.apply_concerns].
  destruct (financial_personality c !! "financial_anxiety") as [[s|q|items]|];
    try apply kept_refl.
  - destruct (Py.str_in x s); [apply IH | apply kept_refl].
  - destruct (Context.str_elem x items); [apply IH|].
    eapply kept_trans; [|apply IH].
    apply kept_set_financial_personality. intros k. apply insert_keeps_entries.
Qed.

(** [_apply_insights_to_context] keeps every field, also when it raises. *)
Lemma apply_insights_kept (insights : Context.Insights) (now : Q) (c : UserContext) :
  kept c (snd (Context._apply_insights_to_context insights now c)).
Proof.
  unfold Context._apply_insights_to_context.
  set (c1 := Context.set_recent_topics c _).
  set (c2 := Context.set_recent_topics c1 _).
  set (c3 := Context.set_financial_personality c2 _).
  set (c4 := match financial_personality c3 !! "financial_anxiety" with
             | Some _ => c3 | None => _ end).
  assert (kept c c4) as H4.
  { eapply kept_trans; [|eapply kept_trans; [|eapply kept_trans]].
    - apply (kept_set_recent_topics c). apply add_topics_nonempty.
    - apply (kept_set_recent_topics c1). apply last_ten_nonempty.
    - apply (kept_set_financial_personality c2).
      intros k. apply apply_preferences_keeps.
    - unfold c4. destruct (financial_personality c3 !! "financial_anxiety").
      + apply kept_refl.
      + apply kept_set_financial_personality. intros k. apply insert_keeps_entries. }
  pose proof (apply_concerns_kept (Context.concerns_expressed insights) c4) as H5.
  destruct (Context.apply_concerns (Context.concerns_expressed insights) c4)
    as [[u|e] c5]; simpl in *.
  - eapply kept_trans; [exact H4|]. eapply kept_trans; [exact H5|]. apply kept_touch.
  - by eapply kept_trans.
Qed.

Lemma add_topics_appends (new_topics recent : list string) :
  exists added, Context.add_topics new_topics recent = recent ++ added.
Proof.
  revert recent. induction new_topics as [|t l IH]; intros recent.
  - exists []. by rewrite app_nil_r.
  - simpl. destruct (Context.str_elem t recent); [apply IH|].
    destruct (IH (recent ++ [t])) as [added ->].
    exists (t :: added). by rewrite <- app_assoc.
Qed.

Lemma apply_concerns_topics (concerns : list string) (c : UserContext) :
  recent_topics (snd (Context.apply_concerns concerns c)) = recent_topics c.
Proof.
  revert c. induction concerns as [|x l IH]; intros c; [done|].
  cbn [Context.apply_concerns].
  destruct (financial_personality c !! "financial_anxiety") as [[s|q|items]|];
    try done.
  - by destruct (Py.str_in x s).
  - destruct (Context.str_elem x items); by rewrite IH.
Qed.

(** The topic tags after the update: the old ones, then the new ones, cut
    to the last ten. *)
Lemma apply_insights_topics (insights : Context.Insights) (now : Q) (c : UserContext) :
  exists added,
    recent_topics (snd (Context._apply_insights_to_context insights now c))
    = Context.last_ten (recent_topics c ++ added).
Proof.
  destruct (add_topics_appends (Context.topics_discussed insights) (recent_topics c))
    as [added Hadd].
  exists added. rewrite <- Hadd.
  unfold Context._apply_insights_to_context.
  set (c1 := Context.set_recent_topics c _).
  set (c2 := Context.set_recent_topics c1 _).
  set (c3 := Context.set_financial_personality c2 _).
  set (c4 := match financial_personality c3 !! "financial_anxiety" with
             | Some _ => c3 | None => _ end).
  assert (recent_topics c4 = recent_topics c2) as H4.
  { unfold c4. by destruct (financial_personality c3 !! "financial_anxiety"). }
  pose proof (apply_concerns_topics (Context.concerns_expressed insights) c4) as H5.
  destruct (Context.apply_concerns (Context.concerns_expressed insights) c4)
    as [[u|e] c5]; simpl in *; by rewrite H5, H4.
Qed.

(** C8. The post-turn update only adds to or overwrites the profile. Of
    the context it works on, the one [get_user_context] hands out, the
    cache afterwards holds a context with the same net worth, income,
    expenses, risk tolerance, investment experience and goals, with an
    entry for every key the financial personality had, and with topic
    tags if there were any (the tags are the old ones followed by the new
    ones, cut to the last ten); this also when the update raises midway.
    When no context can be obtained the update changes nothing. *)
Theorem context_update_keeps_fields {X : Type} (senv : Context.ServiceEnv X)
    (uid message : string) (s : Context.Service X) :
  (forall insights now c,
     kept c (snd (Context._apply_insights_to_context insights now c)) /\
     exists added,
       recent_topics (snd (Context._apply_insights_to_context insights now c))
       = Context.last_ten (recent_topics c ++ added))
  /\
  match Context.get_user_context senv uid false s with
  | (Ok c, _) =>
      exists c',
        Context._context_cache
          (Context.update_context_from_conversation senv uid message s) !! uid
        = Some c' /\ kept c c'
  | (Raise _, s1) =>
      Context.update_context_from_conversation senv uid message s = s1
  end.
Proof.
  split.
  { intros insights now c.
    split; [apply apply_insights_kept | apply apply_insights_topics]. }
  unfold Context.update_context_from_conversation.
  destruct (Context.get_user_context senv uid false s) as [[c|e] s1]; [|done].
  pose proof (apply_insights_kept (Context._extract_conversation_insights message)
                (Context.now senv (Context.outside s1)) c) as Hk.
  destruct (Context._apply_insights_to_context
              (Context._extract_conversation_insights message)
              (Context.now senv (Context.outside s1)) c) as [[u|e] c'];
    simpl in *; exists c'; by rewrite lookup_insert_eq.
Qed.

Lemma context_update_keeps_fields_witness :
  exists c',
    Context._context_cache
      (Context.update_context_from_conversation Demo.service_env "u1"
         "I am worried about debt, is it safe to invest?" Demo.service) !! "u1"
    = Some c' /\
    kept (Demo.context "u1") c' /\
    recent_topics c'
    = ["retirement planning"; "investment strategy"; "debt management"].
Proof.
  destruct (context_update_keeps_fields Demo.service_env "u1"
              "I am worried about debt, is it safe to invest?" Demo.service)
    as [_ H].
  change (Context.get_user_context Demo.service_env "u1" false Demo.service)
    with (@Ok UserContext (Demo.context "u1"), Demo.service) in H.
  destruct H as (c' & Hc & Hk). exists c'. split; [exact Hc|]. split; [exact Hk|].
  vm_compute in Hc. by injection Hc as <-.
Defined.

(** * Further properties of the code *)

(** ** The routing decision *)

(** What the classifier returns, in full. *)
Lemma analyze_inv_full (message : string) :
  exists name p top,
    (name, p) ∈ routing_patterns /\
    best_routing_of (scores_of_message message) = Ok top /\
    (if Py.Qltb (score (snd top)) 1
     then name = "comprehensive_analysis"
     else (name, score_pattern (Py.lower message) p) = top) /\
    _analyze_conversation_routing message
    = Ok {| selected_routing := name;
            routing_confidence :=
              Qmin (score (score_pattern (Py.lower message) p) / 3) 1;
            routing_matched_keywords :=
              matched_keywords (score_pattern (Py.lower message) p);
            agents_to_run := agents p;
            execution_strategy :=
              if (1 <? length (agents p))%nat then "parallel" else "single";
            all_scores := scores_of_message message |}.
Proof.
  unfold _analyze_conversation_routing, analyze_with.
  fold (scores_of_message message).
  destruct (best_routing_of (scores_of_message message)) as [[name d]|e] eqn:Hbest.
  2: { unfold best_routing_of, scores_of_message in Hbest. discriminate. }
  destruct (Py.Qltb (score d) 1) eqn:Hlt.
  - destruct (getitem_comprehensive (Py.lower message)) as (dc & Hget & Hag).
    exists "comprehensive_analysis",
      (mkPattern ["advice"; "recommendation"; "what should"; "help me"]
                 ["financial_analysis"; "goal_extraction"; "risk_assessment";
                  "recommendation"] "medium"), (name, d).
    split; [|split; [reflexivity|split; [by cbn [snd]; rewrite Hlt|]]].
    + unfold routing_patterns. do 5 right. left.
    + rewrite <- (score_pattern_agents (Py.lower message)). reflexivity.
  - pose proof (best_routing_elem _ _ Hbest) as Hin.
    apply scores_of_message_elem in Hin as (p & Hp & Hd). simpl in Hp, Hd.
    exists name, p, (name, d). split; [done|]. split; [done|].
    split; [by cbn [snd]; rewrite Hlt, Hd|].
    subst d. rewrite <- (score_pattern_agents (Py.lower message)). reflexivity.
Qed.

Lemma score_pattern_nonneg (ml : string) (p : Pattern) :
  (0 <= score (score_pattern ml p))%Q.
Proof. rewrite score_pattern_score. apply weight_score_nonneg. lia. Qed.

(** A score of the routing table that reaches 1 is at least 1.2. *)
Lemma score_pattern_step (ml n : string) (p : Pattern) :
  (n, p) ∈ routing_patterns ->
  (1 <= score (score_pattern ml p))%Q -> (6 # 5 <= score (score_pattern ml p))%Q.
Proof.
  intros Hp. pose proof routing_keywords_at_most_six as H.
  rewrite Forall_forall in H. destruct (H _ Hp) as [_ Hpr]. simpl in Hpr.
  rewrite score_pattern_score.
  destruct (length (matched_keywords (score_pattern ml p))) as [|k].
  - intros Hone. exfalso. revert Hone. unfold weight_score.
    repeat case_match; unfold Qle; simpl; lia.
  - intros _. rewrite !elem_of_cons, elem_of_nil in Hpr.
    destruct Hpr as [->|[->|[]]]; unfold weight_score, Qle, Qmult, inject_Z;
      simpl; lia.
Qed.

(** X1. The routing decision of every message is well formed: the
    selected intent is one of the table, the agent list is the one of
    that intent, it is not empty, has no duplicates and names registered
    agents only; the strategy is ["single"] for one agent and
    ["parallel"] for more; every matched keyword occurs in the message;
    the confidence lies between 0 and 1, and it is either 0, exactly
    when no intent reached a score of 1, or above one third. *)
Theorem routing_decision_well_formed (message : string) :
  exists r p,
    _analyze_conversation_routing message = Ok r /\
    (selected_routing r, p) ∈ routing_patterns /\
    agents_to_run r = agents p /\
    agents_to_run r <> [] /\
    NoDup (agents_to_run r) /\
    Forall (fun n => is_Some (_get_agent_by_name n)) (agents_to_run r) /\
    execution_strategy r
    = (if decide (length (agents_to_run r) = 1%nat) then "single" else "parallel") /\
    Forall (fun kw => kw ∈ keywords p /\ occurs_ignoring_case kw message)
           (routing_matched_keywords r) /\
    (0 <= routing_confidence r)%Q /\ (routing_confidence r <= 1)%Q /\
    ((highest_score_below_one message /\ (routing_confidence r == 0)%Q) \/
     (~ highest_score_below_one message /\ (1 # 3 < routing_confidence r)%Q)).
Proof.
  destruct (analyze_inv_full message) as (name & p & top & Hp & Hbest & Hsel & Hr).
  eexists _, p. split; [exact Hr|]. cbn [selected_routing agents_to_run
    execution_strategy routing_matched_keywords routing_confidence].
  pose proof (score_pattern_nonneg (Py.lower message) p) as Hnn.
  assert (Forall (fun np => agents (snd np) <> [] /\ NoDup (agents (snd np)))
                 routing_patterns) as Hag.
  { repeat constructor; simpl; try discriminate;
      rewrite ?elem_of_cons, ?elem_of_nil; intuition discriminate. }
  rewrite Forall_forall in Hag. destruct (Hag _ Hp) as [Hne Hnd]. simpl in Hne, Hnd.
  pose proof routing_agents_registered as Hreg. rewrite Forall_forall in Hreg.
  specialize (Hreg _ Hp). simpl in Hreg.
  split; [done|]. split; [done|]. split; [done|]. split; [done|]. split; [done|].
  split.
  { destruct (agents p) as [|a [|b l]]; [done|reflexivity|].
    reflexivity. }
  split.
  { rewrite score_pattern_matched. apply Forall_forall. intros kw Hkw.
    rewrite list_elem_of_In, filter_In, <- list_elem_of_In in Hkw.
    destruct Hkw as [Hkw Hin]. split; [done|].
    pose proof routing_keywords_lower as Hlow. rewrite Forall_forall in Hlow.
    specialize (Hlow _ Hp). simpl in Hlow. rewrite Forall_forall in Hlow.
    by apply (str_in_lower_iff kw message (Hlow _ Hkw)). }
  assert ((0 <= score (score_pattern (Py.lower message) p) / 3)%Q) as Hdiv.
  { unfold Qdiv. apply Qmult_le_0_compat; [done|]. by unfold Qle. }
  split; [apply Q.min_glb; [done | by unfold Qle]|].
  split; [apply Q.le_min_r|].
  destruct top as [tn td]. cbn [snd] in Hsel.
  apply best_routing_first_highest in Hbest as Hfirst.
  destruct Hfirst as (before & d0 & after & Heq & Hd0 & Hb & Ha).
  destruct (Py.Qltb (score td) 1) eqn:Hlt.
  - left. apply Qltb_lt in Hlt.
    assert (highest_score_below_one message) as Hlow.
    { unfold highest_score_below_one. rewrite Heq.
      apply Forall_app. split; [|constructor].
      * eapply Forall_impl; [exact Hb|]. intros x Hx. simpl in Hx.
        eapply Qlt_trans; [exact Hx|]. exact Hlt.
      * simpl. rewrite Hd0. exact Hlt.
      * eapply Forall_impl; [exact Ha|]. intros x Hx. simpl in Hx.
        eapply Qle_lt_trans; [exact Hx|]. exact Hlt. }
    split; [exact Hlow|].
    assert ((name, score_pattern (Py.lower message) p) ∈ scores_of_message message)
      as Hin.
    { unfold scores_of_message, routing_scores_of. apply list_elem_of_fmap.
      by exists (name, p). }
    unfold highest_score_below_one in Hlow. rewrite Forall_forall in Hlow.
    specialize (Hlow _ Hin). simpl in Hlow.
    rewrite score_pattern_score in Hlow. apply weight_score_below_one in Hlow.
    rewrite score_pattern_score, Hlow.
    unfold weight_score. repeat case_match; by vm_compute.
  - right. apply Qltb_ge in Hlt. split.
    + intros Hlow. unfold highest_score_below_one in Hlow.
      rewrite Heq, Forall_app, Forall_cons in Hlow.
      destruct Hlow as (_ & Hd & _). simpl in Hd. rewrite Hd0 in Hd.
      by apply (Qlt_not_le _ _ Hd).
    + injection Hsel as _ Htd. rewrite <- Htd in Hlt.
      pose proof (score_pattern_step _ _ _ Hp Hlt) as Hstep.
      apply Q.min_glb_lt; [|by unfold Qlt].
      apply Qlt_shift_div_l; [by unfold Qlt|]. lra.
Qed.

(** X2. [_langgraph_route_conversation] sends every routing decision of
    the classifier to one of four nodes: financial analysis alone to
    ["financial_only"], goal planning to ["goal_only"], risk assessment to
    ["risk_only"] and the three other intents, the comprehensive
    analysis among them, to ["financial_and_risk"]; the label
    ["comprehensive"] is never returned for a classifier decision. *)
Theorem langgraph_route_of_classifier (message : string) (r : RoutingAnalysis) :
  _analyze_conversation_routing message = Ok r ->
  _langgraph_route_conversation (Some r)
  = (if String.eqb (selected_routing r) "financial_analysis" then "financial_only"
     else if String.eqb (selected_routing r) "goal_planning" then "goal_only"
     else if String.eqb (selected_routing r) "risk_assessment" then "risk_only"
     else "financial_and_risk") /\
  _langgraph_route_conversation (Some r) <> "comprehensive".
Proof.
  intros Hr.
  destruct (analyze_inv_full message) as (name & p & top & Hp & _ & _ & Hr').
  rewrite Hr' in Hr. injection Hr as <-.
  unfold _langgraph_route_conversation.
  cbn [selected_routing agents_to_run].
  unfold routing_patterns in Hp. rewrite !elem_of_cons, elem_of_nil in Hp.
  destruct Hp as [H|[H|[H|[H|[H|[H|[]]]]]]]; injection H as -> ->;
    split; (reflexivity || discriminate).
Qed.

Lemma langgraph_route_of_classifier_witness :
  exists r,
    _analyze_conversation_routing "Please give me some advice" = Ok r /\
    selected_routing r = "comprehensive_analysis" /\
    _langgraph_route_conversation (Some r) = "financial_and_risk".
Proof.
  eexists. split; [reflexivity|]. split; [reflexivity|].
  eapply (langgraph_route_of_classifier "Please give me some advice"). reflexivity.
Defined.


(** X3. In the graph that [_build_langgraph_workflow] declares, the
    nodes between the entry point and [END] for the routing decision of
    a message end in the synthesis node, and the agents on the way are
    those of the decision for the intents financial analysis, goal
    planning and risk assessment, but the financial analysis agent alone
    for investment advice, debt management and the comprehensive
    analysis. *)
Theorem langgraph_path_agents (message : string) (r : RoutingAnalysis) :
  _analyze_conversation_routing message = Ok r ->
  exists nodes,
    Graph.nodes_after_routing (_langgraph_route_conversation (Some r)) = Ok nodes /\
    last nodes = Some "synthesize_results" /\
    map getattr_agent_type (omap Graph.node_agent nodes)
    = (if Context.str_elem (selected_routing r)
            ["financial_analysis"; "goal_planning"; "risk_assessment"]
       then agents_to_run r
       else ["financial_analysis"]).
Proof.
  intros Hr.
  destruct (analyze_inv_full message) as (name & p & top & Hp & _ & _ & Hr').
  rewrite Hr' in Hr. injection Hr as <-.
  unfold _langgraph_route_conversation.
  cbn [selected_routing agents_to_run].
  unfold routing_patterns in Hp. rewrite !elem_of_cons, elem_of_nil in Hp.
  destruct Hp as [H|[H|[H|[H|[H|[H|[]]]]]]]; injection H as -> ->;
    eexists; (split; [reflexivity|]); split; reflexivity.
Qed.

Lemma langgraph_path_agents_witness :
  exists r nodes,
    _analyze_conversation_routing "How do I pay off my credit card debt?" = Ok r /\
    agents_to_run r = ["financial_analysis"; "risk_assessment"; "recommendation"] /\
    Graph.nodes_after_routing (_langgraph_route_conversation (Some r)) = Ok nodes /\
    map getattr_agent_type (omap Graph.node_agent nodes) = ["financial_analysis"].
Proof.
  destruct (langgraph_path_agents "How do I pay off my credit card debt?" _ eq_refl)
    as (nodes & Hn & _ & Ha).
  eexists _, nodes. split; [reflexivity|]. split; [reflexivity|]. split; [exact Hn|].
  exact Ha.
Defined.

(** ** The workflows *)

Lemma execute_fallback_success {W : Type} (env : Env W) (state : ConversationState)
    (ra : RoutingAnalysis) (w : W) :
  exists r w',
    _execute_fallback_workflow env state ra w = (Ok r, w') /\
    turn_success r = true /\ turn_error r = None /\
    turn_response r = Synth._synthesize_agent_results (agent_results r) /\
    metadata r = fallback_metadata state ra (agent_results r) /\
    routing_decisions r = [] /\
    Forall2 result_of (resolved (agents_to_run ra)) (agent_results r).
Proof.
  destruct (execute_fallback_spec env state ra w) as (rs & w' & Hr & HF).
  eexists _, w'. split; [exact Hr|]. by simpl.
Qed.

Lemma fallback_metadata_workflow (state : ConversationState)
    (ra : RoutingAnalysis) (rs : list AgentResult) :
  fallback_metadata state ra rs !! "workflow_type" = Some (VStr "fallback").
Proof.
  unfold fallback_metadata.
  do 5 (rewrite lookup_insert_ne by done). by rewrite lookup_insert_eq.
Qed.

(** X4. [_execute_langgraph_workflow] never raises and never reports a
    failure. When the graph run returns, the turn carries its results,
    lists the names of all of them as used, successful or not, and is
    marked ["langgraph"]. When there is no workflow object or the run
    raises, the turn is the one of [_execute_fallback_workflow], started
    in the world the failed run left behind. *)
Theorem langgraph_workflow_falls_back {W : Type} (env : Env W)
    (state : ConversationState) (ra : RoutingAnalysis) (w : W) :
  exists r w',
    _execute_langgraph_workflow env state ra w = (Ok r, w') /\
    turn_success r = true /\
    match workflow env with
    | Some ainvoke =>
        match ainvoke state ra w with
        | (Ok g, w1) =>
            w' = w1 /\
            agent_results r = default [] (graph_agent_results g) /\
            turn_response r = default "" (final_response g) /\
            metadata r !! "workflow_type" = Some (VStr "langgraph") /\
            metadata r !! "agents_used" = Some (VList (map agent_name (agent_results r)))
        | (Raise e, w1) =>
            _execute_fallback_workflow env state ra w1 = (Ok r, w') /\
            metadata r !! "workflow_type" = Some (VStr "fallback")
        end
    | None =>
        _execute_fallback_workflow env state ra w = (Ok r, w') /\
        metadata r !! "workflow_type" = Some (VStr "fallback")
    end.
Proof.
  unfold _execute_langgraph_workflow.
  destruct (workflow env) as [ainvoke|].
  - destruct (ainvoke state ra w) as [[g|e] w1] eqn:Hg.
    + eexists _, w1. split.
      { apply try_except_Ok. by rewrite (bind_Ok _ _ _ _ _ Hg). }
      cbn [turn_success agent_results turn_response metadata].
      split; [done|]. split; [done|]. split; [done|]. split; [done|].
      split.
      * rewrite lookup_insert_ne by done. rewrite lookup_insert_ne by done.
        by rewrite lookup_insert_eq.
      * rewrite lookup_insert_ne by done. by rewrite lookup_insert_eq.
    + destruct (execute_fallback_success env state ra w1)
        as (r & w' & Hr & Hs & _ & _ & Hm & _).
      exists r, w'. split.
      { by rewrite (try_except_Raise _ _ _ _ _ (bind_Raise _ _ _ _ _ Hg)). }
      split; [done|]. split; [done|].
      rewrite Hm. apply fallback_metadata_workflow.
  - destruct (execute_fallback_success env state ra w)
      as (r & w' & Hr & Hs & _ & _ & Hm & _).
    exists r, w'. split; [exact Hr|]. split; [done|]. split; [done|].
    rewrite Hm. apply fallback_metadata_workflow.
Qed.

Lemma execute_langgraph_success {W : Type} (env : Env W) (state : ConversationState)
    (ra : RoutingAnalysis) (w : W) :
  exists r w',
    _execute_langgraph_workflow env state ra w = (Ok r, w') /\
    turn_success r = true /\ turn_error r = None.
Proof.
  unfold _execute_langgraph_workflow.
  destruct (workflow env) as [ainvoke|].
  - destruct (ainvoke state ra w) as [[g|e] w1] eqn:Hg.
    + eexists _, w1. split.
      { apply try_except_Ok. by rewrite (bind_Ok _ _ _ _ _ Hg). }
      done.
    + destruct (execute_fallback_success env state ra w1)
        as (r & w' & Hr & Hs & He & _).
      exists r, w'. split; [|done].
      by rewrite (try_except_Raise _ _ _ _ _ (bind_Raise _ _ _ _ _ Hg)).
  - destruct (execute_fallback_success env state ra w)
      as (r & w' & Hr & Hs & He & _).
    by exists r, w'.
Qed.

(** What [_build_conversation_state] returns: it fails exactly when the
    context lookup fails, and leaves the world as the lookup left it. *)
Lemma build_conversation_state_run {W : Type} (env : Env W)
    (message uid : string) (sid : option string) (w : W) :
  match service_get_user_context env uid w with
  | (Ok c, w0) =>
      exists st,
        _build_conversation_state env message uid sid w = (Ok st, w0) /\
        user_message st = message /\
        state_user_id st = uid /\
        user_context st = c /\
        state_agent_results st = [] /\
        state_metadata st !! "workflow_type" = None /\
        state_metadata st !! "orchestrator_type" = Some (VStr "advanced")
  | (Raise e, w1) =>
      _build_conversation_state env message uid sid w = (Raise e, w1)
  end.
Proof.
  unfold _build_conversation_state.
  destruct (service_get_user_context env uid w) as [[c|e] w0] eqn:Hc.
  - eexists. split; [by rewrite (bind_Ok _ _ _ _ _ Hc)|]. by simpl.
  - by apply bind_Raise.
Qed.

(** X5. A turn of the advanced orchestrator fails exactly when the
    context lookup of [_build_conversation_state] raises: then the turn
    is the error response with the message of the exception and no agent
    has run. In every other case the turn reports success, whatever the
    agents did, and its processing time is the time between the start
    and the end of the turn. *)
Theorem turn_fails_only_on_context {W : Type} (env : Env W)
    (user_message user_id : string) (session_id : option string) (w : W) :
  exists r w',
    process_message env (AdvancedOrchestrator env) user_message user_id session_id w
    = (Ok r, w') /\
    match service_get_user_context env user_id w with
    | (Ok c, w0) =>
        turn_success r = true /\ turn_error r = None /\
        metadata r !! "processing_time" = Some (VNum (clock env w' - clock env w))
    | (Raise e, w1) =>
        w' = w1 /\
        turn_success r = false /\
        turn_error r = Some ("Advanced orchestration failed: " +:+ e) /\
        agent_results r = [] /\
        metadata r !! "processing_time" = Some (VNum 0)
    end.
Proof.
  unfold process_message, process_message_body.
  pose proof (build_conversation_state_run env user_message user_id session_id w)
    as Hb.
  destruct (service_get_user_context env user_id w) as [[c|e] w0].
  - destruct Hb as (st & Hst & _).
    destruct (analyze_inv user_message) as (ra & _ & _ & Hra & _).
    assert (exists t w', (if workflow_available (AdvancedOrchestrator env)
                          then execute_langgraph_workflow (AdvancedOrchestrator env) st ra
                          else execute_fallback_workflow (AdvancedOrchestrator env) st ra)
                         w0 = (Ok t, w') /\ turn_success t = true /\ turn_error t = None)
      as (t & w' & Ht & Hs & He).
    { destruct (workflow_available (AdvancedOrchestrator env)).
      - apply execute_langgraph_success.
      - destruct (execute_fallback_success env st ra w0)
          as (t & w' & Ht & Hs & He & _).
        by exists t, w'. }
    eexists _, w'. split.
    { apply try_except_Ok. unfold bind at 1. rewrite time_time_run.
      rewrite (bind_Ok _ _ _ _ _ Hst).
      unfold bind at 1. cbn [analyze_conversation_routing AdvancedOrchestrator lift].
      rewrite Hra.
      rewrite (bind_Ok _ _ _ _ _ Ht).
      unfold bind at 1. rewrite time_time_run. reflexivity. }
    cbn [set_processing_time turn_success turn_error metadata].
    split; [done|]. split; [done|]. by rewrite lookup_insert_eq.
  - destruct (create_error_response_run env ("Advanced orchestration failed: " +:+ e) w0)
      as (r & Hr & Hs & He & _ & _ & Hp & _).
    exists r, w0. split.
    { rewrite (try_except_Raise _ _ w w0 e); [exact Hr|].
      unfold bind at 1. rewrite time_time_run. by apply bind_Raise. }
    split; [done|]. split; [done|]. split; [done|]. split; [|done].
    unfold _create_error_response in Hr. unfold bind in Hr. rewrite time_time_run in Hr.
    by injection Hr as <-.
Qed.


(** X6. When the context lookup returns and no graph workflow is
    available, a turn of the advanced orchestrator runs the agents of
    the routing decision of the message: there is one result per agent
    of the decision, in the order of the decision, the response is the
    synthesis of these results, and the metadata record the decision,
    the number of agents run and the fallback workflow. *)
Theorem turn_runs_routed_agents {W : Type} (env : Env W)
    (message uid : string) (sid : option string) (w w0 : W) (c : UserContext) :
  service_get_user_context env uid w = (Ok c, w0) ->
  workflow_available (AdvancedOrchestrator env) = false ->
  exists r w' ra,
    process_message env (AdvancedOrchestrator env) message uid sid w = (Ok r, w') /\
    _analyze_conversation_routing message = Ok ra /\
    map agent_type (agent_results r) = agents_to_run ra /\
    turn_response r = Synth._synthesize_agent_results (agent_results r) /\
    metadata r !! "workflow_type" = Some (VStr "fallback") /\
    metadata r !! "routing_analysis" = Some (VRouting ra) /\
    metadata r !! "agents_run"
    = Some (VNum (inject_Z (Z.of_nat (length (agents_to_run ra))))) /\
    metadata r !! "orchestrator_type" = Some (VStr "advanced").
Proof.
  intros Hc Hwf.
  unfold process_message, process_message_body.
  pose proof (build_conversation_state_run env message uid sid w) as Hb.
  rewrite Hc in Hb. destruct Hb as (st & Hst & _ & _ & _ & _ & _ & Horch).
  destruct (analyze_inv message) as (ra & _ & _ & Hra & _).
  pose proof (analyze_agents_registered _ _ Hra) as Hreg.
  destruct (execute_fallback_success env st ra w0)
    as (t & w' & Ht & _ & _ & Hresp & Hm & _ & HF).
  destruct (resolved_all _ Hreg) as [Hlen Htypes].
  destruct (result_of_names _ _ HF) as [_ Hty].
  exists (set_processing_time t (clock env w' - clock env w)), w', ra. split.
  { apply try_except_Ok. unfold bind at 1. rewrite time_time_run.
    rewrite (bind_Ok _ _ _ _ _ Hst).
    unfold bind at 1. cbn [analyze_conversation_routing AdvancedOrchestrator lift].
    rewrite Hra. rewrite Hwf.
    cbn [execute_fallback_workflow AdvancedOrchestrator].
    rewrite (bind_Ok _ _ _ _ _ Ht).
    unfold bind at 1. rewrite time_time_run. reflexivity. }
  cbn [set_processing_time agent_results turn_response metadata].
  split; [done|]. split; [by rewrite Hty, Htypes|]. split; [done|].
  rewrite !(lookup_insert_ne _ "processing_time") by done. rewrite Hm.
  split; [apply fallback_metadata_workflow|].
  split.
  { unfold fallback_metadata.
    do 2 (rewrite lookup_insert_ne by done). by rewrite lookup_insert_eq. }
  split.
  { rewrite fallback_metadata_run. do 4 f_equal.
    rewrite <- Hlen. symmetry. by eapply Forall2_length. }
  rewrite fallback_metadata_other; [exact Horch|].
  rewrite !elem_of_cons, elem_of_nil. intros H.
  repeat destruct H as [H|H]; discriminate || done.
Qed.

Lemma turn_runs_routed_agents_witness :
  exists r w',
    process_message (Demo.env ["recommendation"]) (AdvancedOrchestrator (Demo.env ["recommendation"]))
      "I want to save for a house" "u1" None 0%Q = (Ok r, w') /\
    map agent_type (agent_results r) = ["goal_extraction"; "recommendation"] /\
    map success (agent_results r) = [true; false] /\
    metadata r !! "workflow_type" = Some (VStr "fallback").
Proof.
  destruct (turn_runs_routed_agents (Demo.env ["recommendation"])
              "I want to save for a house" "u1" None 0%Q 0%Q (Demo.context "u1")
              eq_refl eq_refl)
    as (r & w' & ra & Hr & Hra & Hty & _ & Hwf & _).
  exists r, w'. split; [exact Hr|].
  vm_compute in Hra. injection Hra as <-. split; [exact Hty|]. split; [|exact Hwf].
  vm_compute in Hr. injection Hr as <- _. reflexivity.
Defined.


(** ** The synthesizer *)

Lemma concat_head_nonempty (sep x : string) (l : list string) :
  x <> "" -> String.concat sep (x :: l) <> "".
Proof.
  intros Hx. destruct x as [|a x]; [done|].
  destruct l; simpl; discriminate.
Qed.

Lemma plain_part_nonempty (o : option AgentResult) :
  Forall (fun s => s <> "") (Synth.plain_part o).
Proof.
  destruct o as [r|]; simpl; [|constructor].
  destruct (Synth.has_response r) eqn:E; constructor; [|constructor].
  by apply has_response_nonempty.
Qed.

Lemma risk_part_nonempty (o : option AgentResult) :
  Forall (fun s => s <> "") (Synth.risk_part o).
Proof.
  destruct o as [r|]; simpl; [|constructor].
  destruct (Synth.has_response r) eqn:E; [|constructor].
  destruct (Py.Qltb 40 (Synth.risk_score_of r)); constructor; [|constructor].
  by apply has_response_nonempty.
Qed.

(** X7. The response that [_synthesize_agent_results] builds is never
    the empty string, whatever the agents returned. *)
Theorem synthesis_never_empty (agent_results : list AgentResult) :
  Synth._synthesize_agent_results agent_results <> "".
Proof.
  unfold Synth._synthesize_agent_results.
  destruct (List.filter success agent_results) as [|r0 succ] eqn:Hs; [discriminate|].
  set (prio := Synth._prioritize_agent_results (r0 :: succ)).
  set (parts := _ ++ _ ++ _ ++ _).
  assert (Forall (fun s => s <> "") parts) as Hparts.
  { subst parts. repeat (apply Forall_app; split);
      auto using plain_part_nonempty, risk_part_nonempty. }
  destruct parts as [|x parts'].
  - destruct (1 <? length (r0 :: succ))%nat; simpl; discriminate.
  - apply Forall_cons in Hparts as [Hx _].
    destruct (1 <? length (r0 :: succ))%nat; simpl app;
      by apply concat_head_nonempty.
Qed.

(** *** [sorted(..., reverse=True)] *)

Lemma insert_desc_perm {A : Type} (key : A -> Q) (x : A) (l : list A) :
  Synth.insert_desc key x l ≡ₚ x :: l.
Proof.
  induction l as [|y l IH]; simpl; [done|].
  destruct (Py.Qltb (key x) (key y)); [|done].
  rewrite IH. apply Permutation_swap.
Qed.

Lemma sorted_reverse_perm {A : Type} (key : A -> Q) (l : list A) :
  Synth.sorted_reverse key l ≡ₚ l.
Proof.
  induction l as [|x l IH]; simpl; [done|].
  unfold Synth.sorted_reverse in *. simpl. by rewrite insert_desc_perm, IH.
Qed.






(** *** The order of the results *)

Lemma filter_success_perm (l l' : list AgentResult) :
  l ≡ₚ l' -> List.filter success l ≡ₚ List.filter success l'.
Proof.
  induction 1 as [|x l l' _ IH|x y l|l1 l2 l3 _ IH1 _ IH2]; simpl.
  - done.
  - destruct (success x); by rewrite IH.
  - destruct (success x), (success y); try done. apply Permutation_swap.
  - by rewrite IH1.
Qed.

Lemma next_of_type_None (t : string) (l : list AgentResult) :
  Synth.next_of_type t l = None <-> Forall (fun r => agent_type r <> t) l.
Proof.
  unfold Synth.next_of_type. induction l as [|x l IH]; simpl.
  - split; [constructor|done].
  - destruct (String.eqb_spec (agent_type x) t) as [E|E].
    + split; [done|]. intros H. apply Forall_cons in H as [H _]. done.
    + rewrite IH. split; [by constructor|]. intros H. by apply Forall_cons in H as [_ H].
Qed.

Lemma next_of_type_unique (t : string) (l : list AgentResult) (x : AgentResult) :
  NoDup (map agent_type l) -> x ∈ l -> agent_type x = t ->
  Synth.next_of_type t l = Some x.
Proof.
  unfold Synth.next_of_type. induction l as [|y l IH]; simpl.
  - intros _ H. by apply elem_of_nil in H.
  - intros Hnd Hin Ht. apply NoDup_cons in Hnd as [Hy Hnd].
    destruct (String.eqb_spec (agent_type y) t) as [E|E].
    + apply elem_of_cons in Hin as [->|Hin]; [done|].
      exfalso. apply Hy. rewrite E, <- Ht. by apply list_elem_of_fmap_2.
    + apply elem_of_cons in Hin as [->|Hin]; [done|]. by apply IH.
Qed.

Lemma next_of_type_elem (t : string) (l : list AgentResult) (x : AgentResult) :
  Synth.next_of_type t l = Some x -> x ∈ l /\ agent_type x = t.
Proof.
  unfold Synth.next_of_type. intros H. apply find_some in H as [Hin Ht].
  split; [by apply list_elem_of_In|]. by apply String.eqb_eq.
Qed.

Lemma next_of_type_perm (t : string) (l l' : list AgentResult) :
  l ≡ₚ l' -> NoDup (map agent_type l) ->
  Synth.next_of_type t l = Synth.next_of_type t l'.
Proof.
  intros Hp Hnd.
  destruct (Synth.next_of_type t l) as [x|] eqn:E.
  - apply next_of_type_elem in E as [Hin Ht]. symmetry.
    apply next_of_type_unique; [by rewrite <- Hp|by rewrite <- Hp|done].
  - symmetry. apply next_of_type_None. rewrite <- Hp. by apply next_of_type_None.
Qed.

(** X9. When the successful results have pairwise different agent
    types, the response of [_synthesize_agent_results] does not depend
    on the order of the results: neither the order in which the agents
    ran nor the priority scores change the text. *)
Theorem synthesis_order_independent (rs rs' : list AgentResult) :
  rs ≡ₚ rs' ->
  NoDup (map agent_type (List.filter success rs)) ->
  Synth._synthesize_agent_results rs = Synth._synthesize_agent_results rs'.
Proof.
  intros Hp Hnd. unfold Synth._synthesize_agent_results.
  pose proof (filter_success_perm _ _ Hp) as Hs.
  destruct (List.filter success rs) as [|a l] eqn:E1.
  { apply Permutation_nil_l in Hs. by rewrite <- Hs. }
  destruct (List.filter success rs') as [|a' l'] eqn:E2.
  { symmetry in Hs. by apply Permutation_nil_cons in Hs. }
  assert (forall t,
            Synth.next_of_type t (Synth._prioritize_agent_results (a :: l))
            = Synth.next_of_type t (Synth._prioritize_agent_results (a' :: l')))
    as Hnext.
  { intros t. apply next_of_type_perm.
    - unfold Synth._prioritize_agent_results. by rewrite !sorted_reverse_perm.
    - unfold Synth._prioritize_agent_results. by rewrite sorted_reverse_perm. }
  rewrite !Hnext. by rewrite (Permutation_length Hs).
Qed.

Lemma synthesis_order_independent_witness :
  Synth._synthesize_agent_results
    [Sample.recommendation_result; Demo.low_risk_result; Sample.financial_result]
  = Synth._synthesize_agent_results
      [Sample.financial_result; Sample.recommendation_result; Demo.low_risk_result].
Proof.
  apply synthesis_order_independent.
  - change ([Sample.recommendation_result; Demo.low_risk_result]
              ++ [Sample.financial_result]
            ≡ₚ [Sample.financial_result]
              ++ [Sample.recommendation_result; Demo.low_risk_result]).
    apply Permutation_app_comm.
  - simpl. repeat constructor; rewrite ?elem_of_cons, ?elem_of_nil;
      intuition discriminate.
Defined.


(** ** [BaseAgent.call_claude] *)

(** X10. [call_claude] never raises and never reports a failure. It
    sends one request when the agent has a client and none otherwise,
    and never a second one. A simulated reply costs nothing and follows
    one pause of half a second; a real reply follows no pause and adds
    its cost to the cost counter. A message without content is charged
    to the counter although the reply is simulated. *)
Theorem call_claude_always_succeeds (agent : string) (config : Claude.Config)
    (client : option Claude.Client) (prompt : string) (rt : Claude.Runtime) :
  let out := Claude.call_claude agent config client prompt rt in
  Claude.reply_success (fst out) = true /\
  Claude.requests (snd out)
  = (Claude.requests rt + match client with Some _ => 1 | None => 0 end)%nat /\
  (if Claude.simulated (fst out)
   then Claude.cost (fst out) = 0%Q /\
        Claude.sleeps (snd out) = Claude.sleeps rt ++ [1 # 2] /\
        Claude.reply_content (fst out)
        = Claude._generate_simulated_response agent prompt
   else Claude.sleeps (snd out) = Claude.sleeps rt /\
        Claude.total_api_cost (snd out)
        = (Claude.total_api_cost rt + Claude.cost (fst out))%Q) /\
  match client with
  | Some create =>
      match create prompt (Claude.requests rt) with
      | inr message =>
          Claude.total_api_cost (snd out)
          = (Claude.total_api_cost rt
             + (inject_Z (Claude.usage_input_tokens message)
                  * Claude.cost_per_input_token config
                + inject_Z (Claude.usage_output_tokens message)
                  * Claude.cost_per_output_token config))%Q /\
          Claude.simulated (fst out)
          = match Claude.content message with [] => true | _ => false end
      | inl _ =>
          Claude.total_api_cost (snd out) = Claude.total_api_cost rt /\
          Claude.simulated (fst out) = true
      end
  | None =>
      Claude.total_api_cost (snd out) = Claude.total_api_cost rt /\
      Claude.simulated (fst out) = true
  end.
Proof.
  unfold Claude.call_claude. destruct client as [create|]; simpl.
  - destruct (create prompt (Claude.requests rt)) as [k|message] eqn:E; simpl.
    + split; [done|]. split; [lia|]. by split.
    + destruct (Claude.content message) as [|text rest] eqn:Ec; simpl.
      * split; [done|]. split; [lia|]. by split.
      * split; [done|]. split; [lia|]. by split.
  - split; [done|]. split; [lia|]. by split.
Qed.


(** ** The performance counters of [BaseAgent] *)

(** X11. [process] raises every call counter by one and the error
    counter exactly when the result is a failure; the execution time of
    a failed call is reported in its result but not added to
    [total_execution_time]. The result and the effects on the world are
    those of [process] as modelled without the counters, and counters
    that count no more errors than calls keep doing so. *)
Theorem process_counts {W : Type} (env : Env W) (self : Agent)
    (state : ConversationState) (c : Monitor.Counters) (w : W) :
  exists r c' w',
    Monitor.process env self state c w = (Ok (r, c'), w') /\
    process env self state w = (Ok r, w') /\
    Monitor.total_calls c' = (Monitor.total_calls c + 1)%Z /\
    Monitor.total_errors c'
    = (Monitor.total_errors c + (if success r then 0 else 1))%Z /\
    Monitor.total_execution_time c'
    = (if success r
       then (Monitor.total_execution_time c + execution_time r)%Q
       else Monitor.total_execution_time c) /\
    (consistent c -> consistent c').
Proof.
  unfold Monitor.process, process, consistent.
  destruct (core_logic env self state w) as [[res|e] w1] eqn:Hcore.
  - eexists _, _, w1. split.
    { unfold bind at 1. rewrite time_time_run. apply try_except_Ok.
      rewrite (bind_Ok _ _ _ _ _ Hcore). unfold bind. by rewrite time_time_run. }
    split.
    { unfold bind at 1. rewrite time_time_run. apply try_except_Ok.
      rewrite (bind_Ok _ _ _ _ _ Hcore). unfold bind. by rewrite time_time_run. }
    simpl. split; [done|]. split; [lia|]. split; [done|]. lia.
  - eexists _, _, w1. split.
    { unfold bind at 1. rewrite time_time_run.
      rewrite (try_except_Raise _ _ _ _ _ (bind_Raise _ _ _ _ _ Hcore)).
      unfold bind. by rewrite time_time_run. }
    split.
    { unfold bind at 1. rewrite time_time_run.
      rewrite (try_except_Raise _ _ _ _ _ (bind_Raise _ _ _ _ _ Hcore)).
      unfold bind. by rewrite time_time_run. }
    simpl. split; [done|]. split; [done|]. split; [done|]. lia.
Qed.

Lemma rate_lt (e n a b : Z) :
  (0 < n)%Z -> (0 < b)%Z ->
  (inject_Z e / inject_Z n < inject_Z a / inject_Z b)%Q <-> (e * b < a * n)%Z.
Proof.
  intros Hn Hb. unfold Qlt, Qdiv, Qmult, Qinv, inject_Z. simpl.
  destruct n as [|n|n]; [lia| |lia]. destruct b as [|b|b]; [lia| |lia].
  simpl. lia.
Qed.

(** X12. For counters that count no more errors than calls,
    [get_performance_metrics] reports an error rate between 0 and 1, and
    the status is ["healthy"] exactly when fewer than a tenth of the
    calls failed, ["unhealthy"] exactly when at least half of them
    failed, and ["degraded"] otherwise. An agent that has not been
    called is healthy with error rate 0. *)
Theorem performance_metrics_status (self : Agent) (c : Monitor.Counters)
    (cost : Q) :
  consistent c ->
  let m := Monitor.get_performance_metrics self c cost in
  let calls := Z.max (Monitor.total_calls c) 1 in
  (0 <= Monitor.error_rate m)%Q /\ (Monitor.error_rate m <= 1)%Q /\
  (Monitor.status m = "healthy" <-> (10 * Monitor.total_errors c < calls)%Z) /\
  (Monitor.status m = "unhealthy" <-> (calls <= 2 * Monitor.total_errors c)%Z) /\
  (Monitor.status m = "degraded"
   <-> (calls <= 10 * Monitor.total_errors c)%Z
       /\ (2 * Monitor.total_errors c < calls)%Z) /\
  Monitor.status (Monitor.get_performance_metrics self Monitor.fresh cost) = "healthy".
Proof.
  intros Hc m calls. unfold consistent in Hc. subst m.
  unfold Monitor.get_performance_metrics. cbn [Monitor.error_rate Monitor.status].
  fold calls. assert (0 < calls)%Z as Hpos by lia.
  assert (Monitor.total_errors c <= calls)%Z as Hle by lia.
  set (e := Monitor.total_errors c) in *.
  assert (forall a b, (0 < b)%Z ->
            Py.Qltb (inject_Z e / inject_Z calls) (inject_Z a / inject_Z b) = true
            <-> (e * b < a * calls)%Z) as Hlt.
  { intros a b Hb. rewrite Qltb_lt. by apply rate_lt. }
  split.
  { apply Qle_shift_div_l; [unfold Qlt, inject_Z; simpl; lia|].
    unfold Qle, Qmult, inject_Z. simpl. lia. }
  split.
  { apply Qle_shift_div_r; [unfold Qlt, inject_Z; simpl; lia|].
    unfold Qle, Qmult, inject_Z. simpl. lia. }
  change (1 # 10)%Q with (inject_Z 1 / inject_Z 10)%Q.
  change (1 # 2)%Q with (inject_Z 1 / inject_Z 2)%Q.
  pose proof (Hlt 1 10 ltac:(lia))%Z as H10.
  pose proof (Hlt 1 2 ltac:(lia))%Z as H2.
  destruct (Py.Qltb (inject_Z e / inject_Z calls) (inject_Z 1 / inject_Z 10)) eqn:E10.
  - assert (e * 10 < 1 * calls)%Z as H by by apply H10.
    split; [split; [lia|done]|]. split; [split; [done|lia]|].
    split; [split; [done|lia]|]. done.
  - assert (~ (e * 10 < 1 * calls)%Z) as H by (rewrite <- H10; done).
    destruct (Py.Qltb (inject_Z e / inject_Z calls) (inject_Z 1 / inject_Z 2)) eqn:E2.
    + assert (e * 2 < 1 * calls)%Z as H' by by apply H2.
      split; [split; [done|lia]|]. split; [split; [done|lia]|].
      split; [split; [lia|done]|]. done.
    + assert (~ (e * 2 < 1 * calls)%Z) as H' by (rewrite <- H2; done).
      split; [split; [done|lia]|]. split; [split; [lia|done]|].
      split; [split; [done|lia]|]. done.
Qed.

Lemma performance_metrics_status_witness :
  consistent (Monitor.mkCounters 20 2 30) /\
  Monitor.status
    (Monitor.get_performance_metrics risk_agent (Monitor.mkCounters 20 2 30) 0)
  = "degraded" /\
  (Monitor.error_rate
     (Monitor.get_performance_metrics risk_agent (Monitor.mkCounters 20 2 30) 0)
   <= 1)%Q.
Proof.
  assert (consistent (Monitor.mkCounters 20 2 30)) as Hc by (unfold consistent; simpl; lia).
  destruct (performance_metrics_status risk_agent (Monitor.mkCounters 20 2 30) 0 Hc)
    as (_ & Hle & _ & _ & Hd & _).
  split; [exact Hc|]. split; [|exact Hle].
  apply Hd. simpl. lia.
Defined.


(** ** [BaseAgent.parse_json_response] *)

Lemma find_from_absent (c : ascii) (s : string) (i : Z) :
  Json.char_in c s = false -> Json.find_from c s i = (-1)%Z.
Proof.
  revert i. induction s as [|a s IH]; intros i; simpl; [done|].
  destruct (Ascii.eqb a c); [done|]. apply IH.
Qed.

Lemma find_from_first (c : ascii) (pre rest : string) (i : Z) :
  Json.char_in c pre = false ->
  Json.find_from c (pre +:+ String c rest) i = (i + Z.of_nat (String.length pre))%Z.
Proof.
  revert i. induction pre as [|a pre IH]; intros i; simpl.
  - intros _. rewrite Ascii.eqb_refl. lia.
  - destruct (Ascii.eqb a c); [done|]. simpl. intros H. rewrite (IH _ H). lia.
Qed.

Lemma find_from_present (c : ascii) (s : string) (i : Z) :
  Json.char_in c s = true -> (i <= Json.find_from c s i)%Z.
Proof.
  revert i. induction s as [|a s IH]; intros i; simpl; [done|].
  destruct (Ascii.eqb a c); [lia|]. simpl. intros H. specialize (IH (i + 1)%Z H). lia.
Qed.

Lemma rfind_from_absent (c : ascii) (s : string) (i last : Z) :
  Json.char_in c s = false -> Json.rfind_from c s i last = last.
Proof.
  revert i last. induction s as [|a s IH]; intros i last; simpl; [done|].
  destruct (Ascii.eqb a c); [done|]. apply IH.
Qed.

Lemma rfind_from_last (c : ascii) (pre post : string) (i last : Z) :
  Json.char_in c post = false ->
  Json.rfind_from c (pre +:+ String c post) i last
  = (i + Z.of_nat (String.length pre))%Z.
Proof.
  intros Hpost. revert i last. induction pre as [|a pre IH]; intros i last; simpl.
  - rewrite Ascii.eqb_refl, (rfind_from_absent _ _ _ _ Hpost). lia.
  - rewrite IH. lia.
Qed.

Lemma substring_skip (pre s : string) (n : nat) :
  String.substring (String.length pre) n (pre +:+ s) = String.substring 0 n s.
Proof. induction pre as [|a pre IH]; simpl; [done|apply IH]. Qed.

Lemma substring_prefix (s post : string) :
  String.substring 0 (String.length s) (s +:+ post) = s.
Proof.
  induction s as [|a s IH]; simpl; [by destruct post|]. by rewrite IH.
Qed.

Lemma length_app_string (s t : string) :
  String.length (s +:+ t) = (String.length s + String.length t)%nat.
Proof. induction s as [|a s IH]; simpl; [done|]. by rewrite IH. Qed.

Lemma app_string_assoc (s t u : string) : (s +:+ t) +:+ u = s +:+ (t +:+ u).
Proof.
  induction s as [|a s IH]; [done|].
  change (String a ((s +:+ t) +:+ u) = String a (s +:+ t +:+ u)). by f_equal.
Qed.

(** X13. When the content has an opening brace and, after it, a closing
    brace, [parse_json_response] hands to [json.loads] exactly the text
    from the first opening brace to the last closing brace, whatever
    stands before, between and after them, and returns the parsed value,
    [None] for a [JSONDecodeError], and lets any other exception of the
    parser pass. *)
Theorem parse_json_from_first_to_last_brace {J : Type}
    (loads : string -> Json.Loaded J) (pre mid post : string) :
  Json.char_in "{" pre = false ->
  Json.char_in "}" post = false ->
  Json.parse_json_response loads (pre +:+ "{" +:+ mid +:+ "}" +:+ post)
  = match loads ("{" +:+ mid +:+ "}") with
    | Json.Parsed j => Ok (Some j)
    | Json.JSONDecodeError => Ok None
    | Json.OtherError e => Raise e
    end.
Proof.
  intros Hpre Hpost.
  assert (Json.find "{" (pre +:+ "{" +:+ mid +:+ "}" +:+ post)
          = Z.of_nat (String.length pre)) as Hf.
  { unfold Json.find.
    change (pre +:+ "{" +:+ mid +:+ "}" +:+ post)
      with (pre +:+ String "{" (mid +:+ String "}" post)).
    rewrite (find_from_first _ _ _ _ Hpre). lia. }
  assert (Json.rfind "}" (pre +:+ "{" +:+ mid +:+ "}" +:+ post)
          = Z.of_nat (String.length pre + 1 + String.length mid)) as Hr.
  { unfold Json.rfind.
    replace (pre +:+ "{" +:+ mid +:+ "}" +:+ post)
      with ((pre +:+ String "{" mid) +:+ String "}" post)
      by (by rewrite app_string_assoc).
    rewrite (rfind_from_last _ _ _ _ _ Hpost), length_app_string.
    cbn [String.length]. lia. }
  unfold Json.parse_json_response. rewrite Hf, Hr.
  destruct (Z.eqb_spec (Z.of_nat (String.length pre)) (-1)) as [E1|_]; [lia|].
  destruct (Z.eqb_spec (Z.of_nat (String.length pre + 1 + String.length mid) + 1) 0)
    as [E2|_]; [lia|].
  cbn [orb]. unfold Json.slice.
  replace (Z.to_nat (Z.of_nat (String.length pre))) with (String.length pre) by lia.
  replace (Z.to_nat _) with (String.length ("{" +:+ mid +:+ "}")).
  2: { change ("{" +:+ mid +:+ "}") with (String "{" (mid +:+ "}")).
       cbn [String.length]. rewrite length_app_string. simpl. lia. }
  replace (pre +:+ "{" +:+ mid +:+ "}" +:+ post)
    with (pre +:+ ("{" +:+ mid +:+ "}") +:+ post).
  2: { f_equal. by rewrite !app_string_assoc. }
  by rewrite substring_skip, substring_prefix.
Qed.


Lemma parse_json_from_first_to_last_brace_witness :
  Json.parse_json_response
    (fun s => if String.eqb s "{a: {b: 1}}" then Json.Parsed 1%Z
              else Json.JSONDecodeError)
    "Here is the JSON: {a: {b: 1}} as requested."
  = Ok (Some 1%Z).
Proof.
  apply (parse_json_from_first_to_last_brace
           (fun s => if String.eqb s "{a: {b: 1}}" then Json.Parsed 1%Z
                     else Json.JSONDecodeError)
           "Here is the JSON: " "a: {b: 1}" " as requested.");
    reflexivity.
Defined.

Lemma substring_none (s : string) (n : nat) : String.substring n 0 s = "".
Proof.
  revert n. induction s as [|a s IH]; intros [|n]; simpl; done.
Qed.

(** X14. Without an opening brace or without a closing brace in the
    content, [parse_json_response] returns [None] and does not consult
    the parser. *)
Theorem parse_json_without_braces {J : Type} (loads : string -> Json.Loaded J)
    (content : string) :
  Json.char_in "{" content = false \/ Json.char_in "}" content = false ->
  Json.parse_json_response loads content = Ok None.
Proof.
  unfold Json.parse_json_response, Json.find, Json.rfind. intros [H|H].
  - by rewrite (find_from_absent _ _ _ H).
  - rewrite (rfind_from_absent _ _ _ _ H). cbn [Z.add Z.eqb Z.opp Pos.eqb Z.pos_sub].
    by rewrite orb_true_r.
Qed.

Lemma parse_json_without_braces_witness :
  Json.parse_json_response (fun _ => Json.OtherError (J := Z) "unused")
                           "no object here, only a stray } sign"
  = Ok None.
Proof. apply parse_json_without_braces. left. reflexivity. Defined.

(** X15. When every closing brace of the content stands before every
    opening brace, [parse_json_response] does not return [None] by
    itself: it hands the empty text to [json.loads] and returns what
    the parser makes of it. *)
Theorem parse_json_braces_reversed {J : Type} (loads : string -> Json.Loaded J)
    (pre mid post : string) :
  Json.char_in "{" (pre +:+ "}" +:+ mid) = false ->
  Json.char_in "}" (mid +:+ "{" +:+ post) = false ->
  Json.parse_json_response loads (pre +:+ "}" +:+ mid +:+ "{" +:+ post)
  = match loads "" with
    | Json.Parsed j => Ok (Some j)
    | Json.JSONDecodeError => Ok None
    | Json.OtherError e => Raise e
    end.
Proof.
  intros Hpre Hpost.
  assert (Json.find "{" (pre +:+ "}" +:+ mid +:+ "{" +:+ post)
          = Z.of_nat (String.length (pre +:+ "}" +:+ mid))) as Hf.
  { unfold Json.find.
    replace (pre +:+ "}" +:+ mid +:+ "{" +:+ post)
      with ((pre +:+ "}" +:+ mid) +:+ String "{" post).
    2: { by rewrite !app_string_assoc. }
    rewrite (find_from_first _ _ _ _ Hpre). lia. }
  assert (Json.rfind "}" (pre +:+ "}" +:+ mid +:+ "{" +:+ post)
          = Z.of_nat (String.length pre)) as Hr.
  { unfold Json.rfind.
    change (pre +:+ "}" +:+ mid +:+ "{" +:+ post)
      with (pre +:+ String "}" (mid +:+ "{" +:+ post)).
    rewrite (rfind_from_last _ _ _ _ _ Hpost). lia. }
  unfold Json.parse_json_response. rewrite Hf, Hr.
  destruct (Z.eqb_spec (Z.of_nat (String.length (pre +:+ "}" +:+ mid))) (-1))
    as [E1|_]; [lia|].
  destruct (Z.eqb_spec (Z.of_nat (String.length pre) + 1) 0) as [E2|_]; [lia|].
  cbn [orb]. unfold Json.slice.
  replace (Z.to_nat (_ - _)) with 0%nat.
  2: { rewrite !length_app_string. cbn [String.length]. lia. }
  by rewrite substring_none.
Qed.

Lemma parse_json_braces_reversed_witness :
  Json.parse_json_response (fun s => if String.eqb s "" then Json.JSONDecodeError
                                     else Json.Parsed s)
                           "} else {"
  = Ok None.
Proof.
  apply (parse_json_braces_reversed
           (fun s => if String.eqb s "" then Json.JSONDecodeError else Json.Parsed s)
           "" " else " ""); reflexivity.
Defined.


(** ** [OrchestratorAgent]: classification and routing *)

Lemma py_max_elem {A : Type} (key : A -> Q) (l : list A) (x : A) :
  Py.max key l = Ok x -> x ∈ l.
Proof.
  unfold Py.max. destruct l as [|y l]; [discriminate|]. intros [= H].
  destruct (max_go_first key l y [] []) as (l1 & z & l2 & Heq & Hz & _);
    [constructor..|].
  simpl in Heq. rewrite Heq, <- H, Hz. apply elem_of_app. right. left.
Qed.

Lemma getitem_NoDup {A : Type} (d : list (string * A)) (k : string) (v : A) :
  NoDup (map fst d) -> (k, v) ∈ d -> Py.getitem d k = Ok v.
Proof.
  induction d as [|[k' v'] d IH]; simpl.
  - intros _ H. by apply elem_of_nil in H.
  - intros Hnd Hin. apply NoDup_cons in Hnd as [Hk Hnd].
    apply elem_of_cons in Hin as [[= -> ->]|Hin].
    + by rewrite String.eqb_refl.
    + destruct (String.eqb_spec k' k) as [->|_]; [|by apply IH].
      exfalso. apply Hk. change k with (fst (k, v)). by apply list_elem_of_fmap_2.
Qed.

Lemma count_keywords_bounds (kws : list string) (m : string) :
  (0 <= Intent.count_keywords kws m <= Z.of_nat (length kws))%Z.
Proof.
  induction kws as [|kw kws IH]; simpl Intent.count_keywords; [simpl; lia|].
  cbn [length]. destruct (Py.str_in kw m); lia.
Qed.

Lemma score_intents_elem (table : list (string * list string)) (m : string)
    (x : string * Z) :
  x ∈ Intent.score_intents table m ->
  exists kws, (fst x, kws) ∈ table /\
              snd x = Intent.count_keywords kws m /\ (0 < snd x)%Z.
Proof.
  induction table as [|[i kws] table IH]; simpl.
  - intros H. by apply elem_of_nil in H.
  - destruct (Z.ltb_spec 0 (Intent.count_keywords kws m)) as [Hpos|_].
    + intros Hin. apply elem_of_cons in Hin as [->|Hin].
      * exists kws. split; [left|done].
      * destruct (IH Hin) as (k & Hk & Hs). exists k. split; [by right|done].
    + intros Hin. destruct (IH Hin) as (k & Hk & Hs). exists k. split; [by right|done].
Qed.

(** What the first part of [_classify_user_intent] settles: the primary
    intent and its raw confidence. *)
Lemma classify_primary (message : string) :
  exists c,
    Intent._classify_user_intent message = Ok c /\
    Intent.all_intents c
    = Intent.score_intents Intent.intent_keywords (Py.lower message) /\
    Intent.complexity c
    = (let user_message := Py.lower message in
       let complexity :=
         if Context.any_in Intent.simple_indicators user_message then "simple"
         else if Context.any_in Intent.complex_indicators user_message then "complex"
         else "intermediate" in
       if (30 <? Claude.count_words false user_message)%nat
       then if String.eqb complexity "simple" then "intermediate"
            else if String.eqb complexity "intermediate" then "complex"
            else complexity
       else complexity) /\
    match Intent.all_intents c with
    | [] => Intent.intent c = "general_advice" /\ Intent.confidence c = Qmin (1 # 2) 1
    | _ =>
        exists kws,
          (Intent.intent c, kws) ∈ Intent.intent_keywords /\
          (0 < Intent.count_keywords kws (Py.lower message))%Z /\
          Intent.confidence c
          = Qmin (inject_Z (Intent.count_keywords kws (Py.lower message))
                  / inject_Z (Z.of_nat (length kws))) 1
    end.
Proof.
  unfold Intent._classify_user_intent.
  destruct (Intent.score_intents Intent.intent_keywords (Py.lower message))
    as [|x0 rest] eqn:Hs.
  - eexists. split; [reflexivity|]. by cbn [Intent.all_intents Intent.complexity
      Intent.intent Intent.confidence].
  - destruct (Py.max (fun x => inject_Z (snd x)) (x0 :: rest)) as [[p sc]|e] eqn:Hmax;
      [|discriminate].
    pose proof (py_max_elem _ _ _ Hmax) as Hin. rewrite <- Hs in Hin.
    apply score_intents_elem in Hin as (kws & Hk & Hsc & Hpos).
    cbn [fst snd] in Hk, Hsc, Hpos.
    assert (Py.getitem Intent.intent_keywords p = Ok kws) as Hget.
    { apply getitem_NoDup; [|done].
      simpl. repeat constructor; rewrite ?elem_of_cons, ?elem_of_nil;
        intuition discriminate. }
    rewrite Hget. eexists. split; [reflexivity|].
    cbn [Intent.all_intents Intent.complexity Intent.intent Intent.confidence].
    split; [done|]. split; [done|].
    exists kws. rewrite <- Hsc. by split.
Qed.

(** X16. [_classify_user_intent] returns for every message. The intent
    is one of the seven of the table, the confidence lies above 0 and
    not above 1, and the complexity is one of the three levels. Without
    any keyword match the intent is ["general_advice"] with confidence
    one half. A message of more than thirty words is never classified
    as simple, and one of at most thirty words is simple exactly when it
    has one of the simple indicators. *)
Theorem classify_user_intent_total (message : string) :
  exists c,
    Intent._classify_user_intent message = Ok c /\
    Intent.intent c ∈ map fst Intent.intent_keywords /\
    (0 < Intent.confidence c)%Q /\ (Intent.confidence c <= 1)%Q /\
    Intent.complexity c ∈ ["simple"; "intermediate"; "complex"] /\
    match Intent.all_intents c with
    | [] => Intent.intent c = "general_advice" /\ (Intent.confidence c == 1 # 2)%Q
    | _ => True
    end /\
    (if (30 <? Claude.count_words false (Py.lower message))%nat
     then Intent.complexity c <> "simple"
     else Intent.complexity c = "simple"
          <-> Context.any_in Intent.simple_indicators (Py.lower message) = true).
Proof.
  destruct (classify_primary message) as (c & Hc & Hall & Hcx & Hprim).
  exists c. split; [exact Hc|].
  assert (Intent.intent c ∈ map fst Intent.intent_keywords
          /\ (0 < Intent.confidence c)%Q /\ (Intent.confidence c <= 1)%Q
          /\ match Intent.all_intents c with
             | [] => Intent.intent c = "general_advice"
                     /\ (Intent.confidence c == 1 # 2)%Q
             | _ => True
             end) as (H1 & H2 & H3 & H4).
  { destruct (Intent.all_intents c) as [|x0 rest].
    - destruct Hprim as [-> ->]. split.
      { simpl. rewrite !elem_of_cons. tauto. }
      by vm_compute.
    - destruct Hprim as (kws & Hk & Hpos & ->). split.
      { change (Intent.intent c) with (fst (Intent.intent c, kws)).
        by apply list_elem_of_fmap_2. }
      pose proof (count_keywords_bounds kws (Py.lower message)) as Hb.
      set (n := Intent.count_keywords kws (Py.lower message)) in *.
      assert (0 < Z.of_nat (length kws))%Z as Hlen by lia.
      assert (0 < inject_Z n / inject_Z (Z.of_nat (length kws)))%Q as Hq.
      { apply Qlt_shift_div_l; [unfold Qlt, inject_Z; simpl; lia|].
        unfold Qlt, Qmult, inject_Z. simpl. lia. }
      split; [by apply Q.min_glb_lt|]. split; [apply Q.le_min_r|done]. }
  split; [done|]. split; [done|]. split; [done|].
  split.
  { rewrite Hcx. cbv zeta. rewrite !elem_of_cons.
    repeat case_match; simpl in *; try discriminate; tauto. }
  split; [done|].
  rewrite Hcx. cbv zeta.
  destruct (30 <? Claude.count_words false (Py.lower message))%nat.
  - repeat case_match; simpl in *; discriminate.
  - destruct (Context.any_in Intent.simple_indicators (Py.lower message)).
    + done.
    + split; [|done].
      by destruct (Context.any_in Intent.complex_indicators (Py.lower message)).
Qed.


Lemma lower_ascii_idem (c : ascii) :
  Py.lower_ascii (Py.lower_ascii c) = Py.lower_ascii c.
Proof. by destruct c as [[] [] [] [] [] [] [] []]. Qed.

Lemma lower_idem (s : string) : Py.lower (Py.lower s) = Py.lower s.
Proof.
  induction s as [|c s IH]; simpl; [done|]. by rewrite lower_ascii_idem, IH.
Qed.

(** Only a keyword in lower case can occur in a lowered message. *)
Lemma str_in_lower_only (kw message : string) :
  Py.str_in kw (Py.lower message) = true -> Py.lower kw = kw.
Proof.
  rewrite str_in_iff. intros (pre & post & Heq).
  apply lower_split in Heq as (a & b & _ & _ & Hb).
  apply lower_split in Hb as (k & p & _ & Hk & _).
  by rewrite <- Hk, lower_idem.
Qed.

(** X17. The keyword ["should I"] of the intent ["general_advice"] is
    written with a capital letter and is looked for in the lowered
    message, so it matches no message at all; and whenever
    [_classify_user_intent] answers ["general_advice"], at most three
    of the four keywords have matched and the confidence is at most
    three quarters. *)
Theorem general_advice_never_certain (message : string) :
  Py.str_in "should I" (Py.lower message) = false /\
  forall c,
    Intent._classify_user_intent message = Ok c ->
    Intent.intent c = "general_advice" ->
    (Intent.confidence c <= 3 # 4)%Q.
Proof.
  assert (Py.str_in "should I" (Py.lower message) = false) as Hdead.
  { destruct (Py.str_in "should I" (Py.lower message)) eqn:E; [|done].
    apply str_in_lower_only in E. discriminate. }
  split; [done|]. intros c Hc Hi.
  destruct (classify_primary message) as (c' & Hc' & _ & _ & Hprim).
  rewrite Hc in Hc'. injection Hc' as <-.
  destruct (Intent.all_intents c) as [|x0 rest].
  - destruct Hprim as [_ ->]. by vm_compute.
  - destruct Hprim as (kws & Hk & Hpos & ->). rewrite Hi in Hk.
    assert (kws = ["should I"; "what do you think"; "advice"; "recommend"]) as ->.
    { unfold Intent.intent_keywords in Hk. rewrite !elem_of_cons, elem_of_nil in Hk.
      destruct Hk as [H|[H|[H|[H|[H|[H|[H|[]]]]]]]]; try discriminate H.
      by injection H. }
    cbn [Intent.count_keywords] in *. rewrite Hdead in *.
    pose proof (count_keywords_bounds ["what do you think"; "advice"; "recommend"]
                  (Py.lower message)) as Hb.
    cbn [Intent.count_keywords length] in Hb.
    set (n := (_ + (_ + (_ + 0)))%Z) in *.
    eapply Qle_trans; [apply Q.le_min_l|].
    unfold Qle, Qdiv, Qmult, Qinv, inject_Z. simpl. lia.
Qed.

Lemma general_advice_never_certain_witness :
  Py.str_in "should I"
    (Py.lower "Should I follow this advice? What do you think you would recommend?")
  = false /\
  exists c,
    Intent._classify_user_intent
      "Should I follow this advice? What do you think you would recommend?" = Ok c /\
    Intent.intent c = "general_advice" /\
    Intent.all_intents c = [("general_advice", 3%Z)] /\
    (Intent.confidence c <= 3 # 4)%Q.
Proof.
  destruct (general_advice_never_certain
              "Should I follow this advice? What do you think you would recommend?")
    as [Hdead Hconf].
  split; [exact Hdead|].
  eexists. split; [reflexivity|]. split; [reflexivity|]. split; [reflexivity|].
  apply Hconf; reflexivity.
Defined.

(** The agents between the first and the last one of a routing. *)
Lemma routing_middle_facts (risk goal invest rec : bool) :
  let middle :=
    (if risk then ["risk_assessment_agent"] else [])
    ++ (if goal then ["goal_planning_agent"] else [])
    ++ (if invest then ["portfolio_analysis_agent"] else [])
    ++ (if rec then ["recommendation_engine"] else []) in
  middle `sublist_of` ["risk_assessment_agent"; "goal_planning_agent";
                      "portfolio_analysis_agent"; "recommendation_engine"] /\
  NoDup ("financial_analysis_agent" :: (middle ++ ["context_memory_agent"])) /\
  ("quick_response_agent"
   ∉ "financial_analysis_agent" :: (middle ++ ["context_memory_agent"])).
Proof.
  destruct risk, goal, invest, rec; cbn -[elem_of];
    (split; [repeat constructor|]);
    (split; [repeat constructor|]);
    rewrite ?elem_of_cons, ?elem_of_nil; intuition discriminate.
Qed.

(** The list [_determine_agent_routing] returns when the complexity is
    not ["simple"]. *)
Lemma determine_agent_routing_eq (message : string) (c : Intent.Classification) :
  String.eqb (Intent.complexity c) "simple" = false ->
  exists rec : bool,
    Intent._determine_agent_routing message c
    = "financial_analysis_agent"
      :: (((if Context.str_elem (Intent.intent c)
                                ["risk_assessment"; "investment_advice"]
               || Py.str_in "risk" (Py.lower message)
            then ["risk_assessment_agent"] else [])
           ++ (if Context.str_elem (Intent.intent c) ["goal_planning"]
                  || Context.any_in ["goal"; "save for"; "plan to"] (Py.lower message)
               then ["goal_planning_agent"] else [])
           ++ (if Context.str_elem (Intent.intent c) ["investment_advice"]
                  || Py.str_in "invest" (Py.lower message)
               then ["portfolio_analysis_agent"] else [])
           ++ (if rec then ["recommendation_engine"] else []))
          ++ ["context_memory_agent"]) /\
    (String.eqb (Intent.complexity c) "complex" = true -> rec = true).
Proof.
  intros Hs. unfold Intent._determine_agent_routing. rewrite Hs.
  destruct (Context.str_elem (Intent.intent c) ["financial_analysis"; "general_advice"]);
  destruct (Context.str_elem (Intent.intent c) ["risk_assessment"; "investment_advice"]
            || Py.str_in "risk" (Py.lower message));
  destruct (Context.str_elem (Intent.intent c) ["goal_planning"]
            || Context.any_in ["goal"; "save for"; "plan to"] (Py.lower message));
  destruct (Context.str_elem (Intent.intent c) ["investment_advice"]
            || Py.str_in "invest" (Py.lower message));
  destruct (String.eqb (Intent.complexity c) "complex");
  cbn;
  first [ by exists true | by exists false ].
Qed.

(** X18. For a classification of complexity ["simple"]
    [_determine_agent_routing] returns the quick response agent alone.
    For every other classification the list starts with the financial
    analysis agent and ends with the context memory agent; between them
    stand, in this order and at most once each, the risk, goal and
    portfolio agents and the recommendation engine; the quick response
    agent is not in it; the recommendation engine is in it whenever the
    complexity is ["complex"], the risk agent whenever the message
    mentions risk. *)
Theorem determine_agent_routing_shape (message : string)
    (c : Intent.Classification) :
  if String.eqb (Intent.complexity c) "simple"
  then Intent._determine_agent_routing message c = ["quick_response_agent"]
  else
    exists middle,
      Intent._determine_agent_routing message c
      = "financial_analysis_agent" :: (middle ++ ["context_memory_agent"]) /\
      middle `sublist_of` ["risk_assessment_agent"; "goal_planning_agent";
                          "portfolio_analysis_agent"; "recommendation_engine"] /\
      NoDup (Intent._determine_agent_routing message c) /\
      ("quick_response_agent" ∉ Intent._determine_agent_routing message c) /\
      (Intent.complexity c = "complex" -> ("recommendation_engine" ∈ middle)) /\
      (Py.str_in "risk" (Py.lower message) = true ->
       ("risk_assessment_agent" ∈ middle)).
Proof.
  destruct (String.eqb (Intent.complexity c) "simple") eqn:Hs.
  { unfold Intent._determine_agent_routing. by rewrite Hs. }
  destruct (determine_agent_routing_eq message c Hs) as (rec & Heq & Hrec).
  set (risk := Context.str_elem (Intent.intent c)
                 ["risk_assessment"; "investment_advice"]
               || Py.str_in "risk" (Py.lower message)) in *.
  set (goal := Context.str_elem (Intent.intent c) ["goal_planning"]
               || Context.any_in ["goal"; "save for"; "plan to"] (Py.lower message))
    in *.
  set (invest := Context.str_elem (Intent.intent c) ["investment_advice"]
                 || Py.str_in "invest" (Py.lower message)) in *.
  destruct (routing_middle_facts risk goal invest rec) as (Hsub & Hnd & Hq).
  eexists. split; [exact Heq|]. rewrite Heq.
  split; [exact Hsub|]. split; [exact Hnd|]. split; [exact Hq|].
  split.
  - intros Hcx. rewrite Hrec by (by rewrite Hcx).
    rewrite !elem_of_app, list_elem_of_singleton. tauto.
  - intros Hrisk. unfold risk. rewrite Hrisk, orb_true_r.
    rewrite !elem_of_app, list_elem_of_singleton. tauto.
Qed.

Lemma classify_simple_iff (message : string) (c : Intent.Classification) :
  Intent._classify_user_intent message = Ok c ->
  Intent.complexity c = "simple"
  <-> Context.any_in Intent.simple_indicators (Py.lower message) = true
      /\ (Claude.count_words false (Py.lower message) <= 30)%nat.
Proof.
  intros Hc. destruct (classify_primary message) as (c' & Hc' & _ & Hcx & _).
  rewrite Hc in Hc'. injection Hc' as <-. rewrite Hcx. cbv zeta.
  destruct (Nat.ltb_spec 30 (Claude.count_words false (Py.lower message))) as [Hl|Hl].
  - split; [|lia]. repeat case_match; simpl in *; discriminate.
  - destruct (Context.any_in Intent.simple_indicators (Py.lower message)).
    + by split.
    + split; [|by intros [? _]].
      by destruct (Context.any_in Intent.complex_indicators (Py.lower message)).
Qed.

(** X27. The two steps of the orchestrator agent together: for every
    message the classification returns and the routing built on it is a
    list without repetition that is never empty. The quick response
    agent is routed to exactly when the message has one of the simple
    indicators and at most thirty words, and then it is the only agent;
    otherwise the list starts with the financial analysis agent and
    ends with the context memory agent. *)
Theorem orchestrator_routing_of_message (message : string) :
  exists c,
    Intent._classify_user_intent message = Ok c /\
    let agents := Intent._determine_agent_routing message c in
    agents <> [] /\ NoDup agents /\
    (("quick_response_agent" ∈ agents)
     <-> Context.any_in Intent.simple_indicators (Py.lower message) = true
         /\ (Claude.count_words false (Py.lower message) <= 30)%nat) /\
    (("quick_response_agent" ∈ agents) -> agents = ["quick_response_agent"]) /\
    (("quick_response_agent" ∉ agents) ->
     head agents = Some "financial_analysis_agent" /\
     last agents = Some "context_memory_agent").
Proof.
  destruct (classify_primary message) as (c & Hc & _).
  exists c. split; [exact Hc|]. intros agents. subst agents.
  pose proof (classify_simple_iff message c Hc) as Hsimple.
  destruct (String.eqb (Intent.complexity c) "simple") eqn:Hs.
  - assert (Intent._determine_agent_routing message c = ["quick_response_agent"])
      as -> by (unfold Intent._determine_agent_routing; by rewrite Hs).
    apply String.eqb_eq in Hs.
    split; [done|]. split; [apply NoDup_singleton|].
    split; [split; [intros _; by apply Hsimple | intros _; left]|].
    split; [done|]. intros Hn. exfalso. apply Hn. left.
  - destruct (determine_agent_routing_eq message c Hs) as (rec & Heq & _).
    apply String.eqb_neq in Hs.
    set (risk := Context.str_elem (Intent.intent c)
                   ["risk_assessment"; "investment_advice"]
                 || Py.str_in "risk" (Py.lower message)) in *.
    set (goal := Context.str_elem (Intent.intent c) ["goal_planning"]
                 || Context.any_in ["goal"; "save for"; "plan to"] (Py.lower message))
      in *.
    set (invest := Context.str_elem (Intent.intent c) ["investment_advice"]
                   || Py.str_in "invest" (Py.lower message)) in *.
    destruct (routing_middle_facts risk goal invest rec) as (_ & Hnd & Hq).
    rewrite Heq.
    split; [done|]. split; [exact Hnd|].
    split; [split; [done | intros H; exfalso; by apply Hs, Hsimple]|].
    split; [done|]. intros _. split; [done|].
    rewrite app_comm_cons. apply last_snoc.
Qed.


(** ** The context cache *)

(** X19. What [get_user_context] returns is what the cache holds for the
    user afterwards, and the entries of all other users are as before.
    With a positive time to live, asking again at once, without forcing a
    refresh, returns the same context and neither rebuilds it nor
    changes the service. *)
Theorem get_user_context_round_trip {X : Type} (senv : Context.ServiceEnv X)
    (uid : string) (force : bool) (s s1 : Context.Service X) (c : UserContext) :
  Context.get_user_context senv uid force s = (Ok c, s1) ->
  (0 < Context.context_ttl_seconds senv)%Q ->
  Context._context_cache s1 !! uid = Some c /\
  (forall other, other <> uid ->
     Context._context_cache s1 !! other = Context._context_cache s !! other /\
     Context._cache_timestamps s1 !! other = Context._cache_timestamps s !! other) /\
  Context.get_user_context senv uid false s1 = (Ok c, s1).
Proof.
  unfold Context.get_user_context. intros Hget Httl.
  destruct (negb force && Context._is_context_cached_and_fresh senv uid s) eqn:Hhit.
  - apply andb_true_iff in Hhit as [_ Hfresh].
    destruct (Context._context_cache s !! uid) as [c0|] eqn:Hc.
    + injection Hget as <- <-. split; [done|]. split; [done|].
      cbn [negb andb]. by rewrite Hfresh, Hc.
    + unfold Context._is_context_cached_and_fresh in Hfresh. by rewrite Hc in Hfresh.
  - destruct (Context._build_fresh_context senv uid (Context.outside s))
      as [[c0|e] x] eqn:Hb; [|discriminate].
    injection Hget as <- <-. cbn [Context._context_cache Context._cache_timestamps].
    split; [by rewrite lookup_insert_eq|].
    split; [intros other Hne; by rewrite !lookup_insert_ne|].
    assert (Context._is_context_cached_and_fresh senv uid
              (Context.mkService (<[uid:=c0]> (Context._context_cache s))
                 (<[uid:=Context.now senv x]> (Context._cache_timestamps s)) x)
            = true) as Hfresh.
    { unfold Context._is_context_cached_and_fresh.
      cbn [Context._context_cache Context._cache_timestamps Context.outside].
      rewrite !lookup_insert_eq. apply Qltb_lt.
      unfold Qminus. rewrite Qplus_opp_r. exact Httl. }
    cbn [negb andb]. rewrite Hfresh.
    cbn [Context._context_cache]. by rewrite lookup_insert_eq.
Qed.

Lemma get_user_context_round_trip_witness :
  exists c s1,
    Context.get_user_context Demo.service_env "u2" true Demo.service = (Ok c, s1) /\
    Context._context_cache s1 !! "u2" = Some c /\
    Context._context_cache s1 !! "u1" = Some (Demo.context "u1") /\
    Context.get_user_context Demo.service_env "u2" false s1 = (Ok c, s1).
Proof.
  eexists _, _. split; [reflexivity|].
  destruct (get_user_context_round_trip Demo.service_env "u2" true Demo.service
              _ _ eq_refl) as (Hc & Ho & Hg); [reflexivity|].
  split; [exact Hc|]. split; [|exact Hg].
  destruct (Ho "u1") as [-> _]; [discriminate|]. reflexivity.
Defined.

(** X20. After [clear_cache] for a user with a non-empty identifier the
    user has no fresh entry, so that the next [get_user_context] builds
    the context anew exactly as a forced refresh would have done, and
    the entries of the other users are untouched. The empty identifier
    counts as no identifier: it clears the entries of all users. *)
Theorem clear_cache_forces_rebuild {X : Type} (senv : Context.ServiceEnv X)
    (uid : string) (s : Context.Service X) :
  uid <> "" ->
  let cleared := Cache.clear_cache (Some uid) s in
  Context._is_context_cached_and_fresh senv uid cleared = false /\
  (forall other, other <> uid ->
     Context._context_cache cleared !! other = Context._context_cache s !! other /\
     Context._cache_timestamps cleared !! other
     = Context._cache_timestamps s !! other) /\
  fst (Context.get_user_context senv uid false cleared)
  = fst (Context.get_user_context senv uid true s) /\
  (forall c s1,
     Context.get_user_context senv uid true s = (Ok c, s1) ->
     Context.get_user_context senv uid false cleared = (Ok c, s1)) /\
  Cache.clear_cache (Some "") s = Cache.clear_cache None s.
Proof.
  intros Hne cleared. subst cleared. unfold Cache.clear_cache.
  destruct (String.eqb_spec uid "") as [->|_]; [done|]. cbn [negb].
  assert (Context._is_context_cached_and_fresh senv uid
            (Context.mkService (delete uid (Context._context_cache s))
               (delete uid (Context._cache_timestamps s)) (Context.outside s))
          = false) as Hfresh.
  { unfold Context._is_context_cached_and_fresh.
    cbn [Context._context_cache]. by rewrite lookup_delete_eq. }
  split; [exact Hfresh|].
  split.
  { intros other Ho. cbn [Context._context_cache Context._cache_timestamps].
    by rewrite !lookup_delete_ne. }
  unfold Context.get_user_context. rewrite Hfresh. cbn [negb andb].
  cbn [Context._context_cache Context._cache_timestamps Context.outside].
  destruct (Context._build_fresh_context senv uid (Context.outside s))
    as [[c0|e] x]; cbn [fst].
  - split; [done|]. split; [|done]. intros c s1 [= <- <-].
    by rewrite !insert_delete_eq.
  - split; [done|]. split; [|done]. intros c s1 [=].
Qed.

Lemma clear_cache_forces_rebuild_witness :
  Context._is_context_cached_and_fresh Demo.service_env "u1" Demo.service = true /\
  Context._is_context_cached_and_fresh Demo.service_env "u1"
    (Cache.clear_cache (Some "u1") Demo.service) = false.
Proof.
  split; [reflexivity|].
  by destruct (clear_cache_forces_rebuild Demo.service_env "u1" Demo.service)
    as (H & _).
Defined.


(** ** The insights of a conversation *)

Lemma omap_sublist {A B : Type} (f : A -> option B) (g : A -> B) (l : list A) :
  (forall x y, f x = Some y -> y = g x) ->
  omap f l `sublist_of` map g l.
Proof.
  intros Hf. induction l as [|x l IH]; simpl; [constructor|].
  destruct (f x) as [y|] eqn:E.
  - rewrite (Hf _ _ E). by constructor.
  - by constructor.
Qed.

(** X21. The insights [_extract_conversation_insights] draws from a
    message depend on the message only up to the case of its letters.
    The topics are some of the six topics of the keyword table, in the
    order of the table and without repetition; there is at most one
    concern and at most one preference, and the conservative one wins
    when words of both kinds occur; the goals mentioned and the
    financial details shared are never filled. *)
Theorem conversation_insights_shape (message : string) :
  let insights := Context._extract_conversation_insights message in
  Context._extract_conversation_insights (Py.lower message) = insights /\
  Context.topics_discussed insights
    `sublist_of` map snd Context.financial_keywords /\
  NoDup (Context.topics_discussed insights) /\
  (length (Context.topics_discussed insights) <= 6)%nat /\
  (length (Context.concerns_expressed insights) <= 1)%nat /\
  Context.preferences_indicated insights
  = (if Context.any_in ["conservative"; "safe"; "careful"] (Py.lower message)
     then ["conservative_approach"]
     else if Context.any_in ["aggressive"; "growth"; "risky"] (Py.lower message)
     then ["aggressive_approach"] else []) /\
  Context.goals_mentioned insights = [] /\
  Context.financial_details_shared insights = ∅.
Proof.
  intros insights. subst insights. unfold Context._extract_conversation_insights.
  rewrite lower_idem. cbn [Context.topics_discussed Context.concerns_expressed
    Context.preferences_indicated Context.goals_mentioned
    Context.financial_details_shared].
  split; [done|].
  assert (omap (fun kt : string * string =>
                  if Py.str_in (fst kt) (Py.lower message) then Some (snd kt) else None)
               Context.financial_keywords
          `sublist_of` map snd Context.financial_keywords) as Hsub.
  { apply omap_sublist. intros x y. by destruct (Py.str_in _ _); intros [= <-]. }
  split; [exact Hsub|].
  split.
  { eapply sublist_NoDup; [|exact Hsub].
    simpl. repeat constructor; rewrite ?elem_of_cons, ?elem_of_nil;
      intuition discriminate. }
  split; [apply sublist_length in Hsub; exact Hsub|].
  split; [destruct (Context.any_in _ _); simpl; lia|]. done.
Qed.

(** ** Applying the insights *)

Lemma add_topics_spec (new_topics recent : list string) :
  exists added,
    Context.add_topics new_topics recent = recent ++ added /\
    (length added <= length new_topics)%nat /\
    (forall t, t ∈ new_topics -> t ∈ recent ++ added) /\
    (NoDup recent -> NoDup (recent ++ added)).
Proof.
  revert recent. induction new_topics as [|t l IH]; intros recent.
  - exists []. rewrite app_nil_r. split; [done|]. split; [done|].
    split; [|done]. intros t H. by apply elem_of_nil in H.
  - cbn [Context.add_topics].
    destruct (Context.str_elem t recent) eqn:E.
    + destruct (IH recent) as (added & -> & Hlen & Hin & Hnd).
      exists added. split; [done|]. split; [simpl; lia|]. split; [|done].
      intros x Hx. apply elem_of_cons in Hx as [->|Hx]; [|by apply Hin].
      apply elem_of_app. left. unfold Context.str_elem in E.
      apply existsb_exists in E as (y & Hy & Heq). apply String.eqb_eq in Heq.
      subst y. by apply list_elem_of_In.
    + destruct (IH (recent ++ [t])) as (added & -> & Hlen & Hin & Hnd).
      exists (t :: added). rewrite <- app_assoc. split; [done|].
      split; [simpl; lia|]. split.
      * intros x Hx. apply elem_of_cons in Hx as [->|Hx].
        -- rewrite elem_of_app, elem_of_cons. tauto.
        -- specialize (Hin x Hx). by rewrite <- app_assoc in Hin.
      * intros Hr. rewrite <- app_assoc in Hnd. apply Hnd.
        apply NoDup_app. split; [done|]. split; [|apply NoDup_singleton].
        intros x Hx Hx'. apply list_elem_of_singleton in Hx' as ->.
        assert (Context.str_elem t recent = true) as E'; [|congruence].
        unfold Context.str_elem. apply existsb_exists. exists t.
        split; [by apply list_elem_of_In|apply String.eqb_refl].
Qed.

Lemma last_ten_length (l : list string) : (length (Context.last_ten l) <= 10)%nat.
Proof. unfold Context.last_ten. rewrite length_drop. lia. Qed.

Lemma last_ten_NoDup (l : list string) : NoDup l -> NoDup (Context.last_ten l).
Proof.
  unfold Context.last_ten. intros H. eapply sublist_NoDup; [exact H|].
  apply sublist_drop.
Qed.

Lemma last_ten_keeps_suffix (recent added : list string) (t : string) :
  (length added <= 10)%nat -> t ∈ added -> t ∈ Context.last_ten (recent ++ added).
Proof.
  intros Hlen Hin. unfold Context.last_ten. rewrite length_app.
  rewrite drop_app. apply elem_of_app. right.
  replace (length recent + length added - 10 - length recent)%nat with 0%nat by lia.
  done.
Qed.

Lemma apply_preferences_anxiety (prefs : list string) (fp : gmap string Trait) :
  Context.apply_preferences prefs fp !! "financial_anxiety"
  = fp !! "financial_anxiety".
Proof.
  revert fp. induction prefs as [|p l IH]; intros fp; [done|].
  cbn [Context.apply_preferences]. rewrite IH.
  repeat case_match; try done; by rewrite lookup_insert_ne.
Qed.

(** The loop over the concerns on a context whose anxiety entry is a
    list: it returns, and only the financial personality changes. *)
Lemma apply_concerns_list (concerns : list string) (c : UserContext)
    (l : list string) :
  financial_personality c !! "financial_anxiety" = Some (TList l) ->
  exists c' l',
    Context.apply_concerns concerns c = (Ok tt, c') /\
    financial_personality c' !! "financial_anxiety" = Some (TList l') /\
    (forall x, x ∈ concerns -> x ∈ l') /\
    (forall x, x ∈ l -> x ∈ l') /\
    context_version c' = context_version c /\
    recent_topics c' = recent_topics c.
Proof.
  revert c l. induction concerns as [|x rest IH]; intros c l Hfa.
  - exists c, l. split; [done|]. split; [done|]. split; [|done].
    intros x H. by apply elem_of_nil in H.
  - cbn [Context.apply_concerns]. rewrite Hfa.
    destruct (Context.str_elem x l) eqn:E.
    + destruct (IH c l Hfa) as (c' & l' & Hrun & Hfa' & Hall & Hold & Hv & Ht).
      exists c', l'. split; [done|]. split; [done|]. split; [|done].
      intros y Hy. apply elem_of_cons in Hy as [->|Hy]; [|by apply Hall].
      apply Hold. unfold Context.str_elem in E.
      apply existsb_exists in E as (z & Hz & Heq). apply String.eqb_eq in Heq.
      subst z. by apply list_elem_of_In.
    + destruct (IH (Context.set_financial_personality c
                      (<["financial_anxiety" := TList (l ++ [x])]>
                         (financial_personality c))) (l ++ [x]))
        as (c' & l' & Hrun & Hfa' & Hall & Hold & Hv & Ht).
      { simpl. by rewrite lookup_insert_eq. }
      exists c', l'. split; [done|]. split; [done|]. split; [|split; [|done]].
      * intros y Hy. apply elem_of_cons in Hy as [->|Hy]; [|by apply Hall].
        apply Hold. rewrite elem_of_app, list_elem_of_singleton. tauto.
      * intros y Hy. apply Hold. rewrite elem_of_app. tauto.
Qed.

(** X22. On a context whose financial personality has no entry
    ["financial_anxiety"] or a list under it, and for at most ten topics,
    [_apply_insights_to_context] returns normally; the version number
    grows by one and the time of the last update is the current time;
    at most ten recent topics remain, without repetition if there was
    none before; every topic of the insights that was not yet among the
    recent ones is among them afterwards; and every concern of the
    insights stands in the list under ["financial_anxiety"]. *)
Theorem apply_insights_succeeds (insights : Context.Insights) (now : Q)
    (c : UserContext) :
  match financial_personality c !! "financial_anxiety" with
  | None | Some (TList _) => True
  | _ => False
  end ->
  (length (Context.topics_discussed insights) <= 10)%nat ->
  exists c',
    Context._apply_insights_to_context insights now c = (Ok tt, c') /\
    context_version c' = (context_version c + 1)%Z /\
    last_updated c' = now /\
    (length (recent_topics c') <= 10)%nat /\
    (NoDup (recent_topics c) -> NoDup (recent_topics c')) /\
    (forall t, t ∈ Context.topics_discussed insights -> t ∉ recent_topics c ->
               t ∈ recent_topics c') /\
    exists anxiety,
      financial_personality c' !! "financial_anxiety" = Some (TList anxiety) /\
      forall x, x ∈ Context.concerns_expressed insights -> x ∈ anxiety.
Proof.
  intros Hfa Hlen. unfold Context._apply_insights_to_context.
  destruct (add_topics_spec (Context.topics_discussed insights) (recent_topics c))
    as (added & Hadd & Hal & Hin & Hnd).
  set (c1 := Context.set_recent_topics c _).
  set (c2 := Context.set_recent_topics c1 _).
  set (c3 := Context.set_financial_personality c2 _).
  set (c4 := match financial_personality c3 !! "financial_anxiety" with
             | Some _ => c3 | None => _ end).
  assert (recent_topics c4 = Context.last_ten (recent_topics c ++ added)) as Ht4.
  { unfold c4. destruct (financial_personality c3 !! "financial_anxiety");
      simpl; by rewrite Hadd. }
  assert (context_version c4 = context_version c) as Hv4.
  { unfold c4. by destruct (financial_personality c3 !! "financial_anxiety"). }
  assert (exists l, financial_personality c4 !! "financial_anxiety" = Some (TList l))
    as [l Hl].
  { unfold c4.
    assert (financial_personality c3 !! "financial_anxiety"
            = financial_personality c !! "financial_anxiety") as E.
    { unfold c3. cbn [financial_personality Context.set_financial_personality].
      by rewrite apply_preferences_anxiety. }
    rewrite E.
    destruct (financial_personality c !! "financial_anxiety") as [[s|q|l]|] eqn:E';
      try done.
    - exists l. by rewrite E.
    - exists []. simpl. by rewrite lookup_insert_eq. }
  destruct (apply_concerns_list (Context.concerns_expressed insights) c4 l Hl)
    as (c5 & l5 & Hrun & Hfa5 & Hall & _ & Hv5 & Ht5).
  rewrite Hrun. eexists. split; [reflexivity|].
  cbn [context_version last_updated recent_topics financial_personality Context.touch].
  rewrite Hv5, Hv4, Ht5, Ht4.
  split; [done|]. split; [done|]. split; [apply last_ten_length|].
  split; [intros H; by apply last_ten_NoDup, Hnd|].
  split.
  { intros t Ht Hnot. apply last_ten_keeps_suffix; [lia|].
    specialize (Hin t Ht). apply elem_of_app in Hin as [Hin|Hin]; done. }
  by exists l5.
Qed.

Lemma apply_insights_succeeds_witness :
  exists c',
    Context._apply_insights_to_context
      (Context._extract_conversation_insights "I am worried about my debt")
      5 (Demo.context "u1") = (Ok tt, c') /\
    context_version c' = 2%Z /\
    recent_topics c' = ["retirement planning"; "debt management"] /\
    financial_personality c' !! "financial_anxiety"
    = Some (TList ["expressed financial anxiety"]).
Proof.
  destruct (apply_insights_succeeds
              (Context._extract_conversation_insights "I am worried about my debt")
              5 (Demo.context "u1") I ltac:(vm_compute; lia))
    as (c' & Hrun & Hv & _).
  exists c'. split; [exact Hrun|]. split; [exact Hv|].
  vm_compute in Hrun. injection Hrun as <-. split; reflexivity.
Defined.


(** ** Building a fresh context *)

Lemma Qlt_div_iff (q x i : Q) : (0 < i)%Q -> (q < x / i)%Q <-> (q * i < x)%Q.
Proof.
  intros Hi. assert (~ (i == 0)%Q) as Hne by (intros E; rewrite E in Hi; by apply (Qlt_irrefl 0)).
  rewrite <- (Qmult_lt_r q (x / i) i Hi). unfold Qdiv.
  by rewrite <- Qmult_assoc, (Qmult_comm (/ i)), Qmult_inv_r, Qmult_1_r.
Qed.

(** The financial personality after the analysis, as far as the goals
    do not touch it. *)
Lemma realtime_personality (now : Q) (c : UserContext) (k : string) :
  k <> "goal_achievement" ->
  financial_personality (Fresh._add_realtime_analysis now c) !! k
  = (if Py.Qltb 0 (monthly_income c) && Py.Qltb 0 (monthly_expenses c)
     then <["savings_rate" :=
              TNum ((monthly_income c - monthly_expenses c) / monthly_income c)]>
            (<["savings_behavior" :=
                 TStr (if Py.Qltb (2 # 10)
                            ((monthly_income c - monthly_expenses c) / monthly_income c)
                       then "high_saver"
                       else if Py.Qltb (1 # 10)
                                 ((monthly_income c - monthly_expenses c)
                                  / monthly_income c)
                       then "moderate_saver" else "low_saver")]>
               (financial_personality c))
     else financial_personality c) !! k.
Proof.
  intros Hk. unfold Fresh._add_realtime_analysis.
  destruct (Py.Qltb 0 (monthly_income c) && Py.Qltb 0 (monthly_expenses c));
    cbn [goals goal_progress Context.set_financial_personality];
    destruct (goals c) as [|g gs]; try done;
    destruct (Fresh.count_on_track (g :: gs) (goal_progress c) 0); try done;
    cbn [financial_personality Context.touch Context.set_financial_personality];
    by rewrite lookup_insert_ne.
Qed.

(** X23. For a context with positive income and positive expenses
    [_add_realtime_analysis] records the savings rate, which is below 1,
    and a savings behaviour: ["high_saver"] exactly when the expenses
    are below four fifths of the income, ["low_saver"] exactly when they
    reach nine tenths of it, and ["moderate_saver"] in between; so
    whoever spends more than the income is a low saver. *)
Theorem realtime_savings_behavior (now : Q) (c : UserContext) :
  (0 < monthly_income c)%Q -> (0 < monthly_expenses c)%Q ->
  let c' := Fresh._add_realtime_analysis now c in
  let rate := ((monthly_income c - monthly_expenses c) / monthly_income c)%Q in
  financial_personality c' !! "savings_rate" = Some (TNum rate) /\
  (rate < 1)%Q /\
  exists behavior,
    financial_personality c' !! "savings_behavior" = Some (TStr behavior) /\
    behavior ∈ ["high_saver"; "moderate_saver"; "low_saver"] /\
    (behavior = "high_saver"
     <-> (monthly_expenses c < (4 # 5) * monthly_income c)%Q) /\
    (behavior = "low_saver"
     <-> ((9 # 10) * monthly_income c <= monthly_expenses c)%Q).
Proof.
  intros Hi He c' rate. subst c'.
  rewrite !realtime_personality by done.
  apply Qltb_lt in Hi as Hib. apply Qltb_lt in He as Heb. rewrite Hib, Heb.
  cbn [andb]. rewrite lookup_insert_eq, lookup_insert_ne, lookup_insert_eq by done.
  fold rate. split; [done|].
  assert (forall q, (q < rate)%Q <-> (monthly_expenses c < (1 - q) * monthly_income c)%Q)
    as Hrate.
  { intros q. unfold rate. rewrite (Qlt_div_iff _ _ _ Hi). split; intros H; lra. }
  split.
  { apply Qlt_shift_div_r; [done|]. lra. }
  pose proof (Hrate (2 # 10)) as H2. pose proof (Hrate (1 # 10)) as H1.
  assert ((1 - (2 # 10)) * monthly_income c == (4 # 5) * monthly_income c)%Q as E2
    by ring.
  assert ((1 - (1 # 10)) * monthly_income c == (9 # 10) * monthly_income c)%Q as E1
    by ring.
  rewrite E2 in H2. rewrite E1 in H1.
  destruct (Py.Qltb (2 # 10) rate) eqn:B2.
  - apply Qltb_lt in B2. apply H2 in B2 as B2'.
    exists "high_saver". split; [done|]. split; [rewrite !elem_of_cons; tauto|].
    split; [done|]. split; [done|]. intros Hle. exfalso.
    apply (Qlt_irrefl (monthly_expenses c)).
    eapply Qlt_le_trans; [exact B2'|]. eapply Qle_trans; [|exact Hle].
    apply Qmult_le_compat_r; [by unfold Qle | by apply Qlt_le_weak].
  - apply Qltb_ge in B2.
    assert (~ (monthly_expenses c < (4 # 5) * monthly_income c)%Q) as N2.
    { intros H. apply H2 in H. by apply (Qlt_not_le _ _ H). }
    destruct (Py.Qltb (1 # 10) rate) eqn:B1.
    + apply Qltb_lt in B1. apply H1 in B1 as B1'.
      exists "moderate_saver". split; [done|]. split; [rewrite !elem_of_cons; tauto|].
      split; [done|]. split; [done|]. intros Hle. exfalso.
      by apply (Qlt_not_le _ _ B1').
    + apply Qltb_ge in B1.
      exists "low_saver". split; [done|]. split; [rewrite !elem_of_cons; tauto|].
      split; [done|]. split; [|done]. intros _.
      apply Qnot_lt_le. intros H. apply H1 in H. by apply (Qlt_not_le _ _ H).
Qed.

Lemma realtime_savings_behavior_witness :
  financial_personality (Fresh._add_realtime_analysis 7 (Demo.context "u1"))
    !! "savings_behavior" = Some (TStr "high_saver") /\
  (financial_personality (Fresh._add_realtime_analysis 7 (Demo.context "u1"))
     !! "savings_rate" = Some (TNum ((6000 - 4500) / 6000)%Q)).
Proof.
  destruct (realtime_savings_behavior 7 (Demo.context "u1"))
    as (Hr & _ & b & Hb & _ & Hhigh & _); [by vm_compute..|].
  split; [|exact Hr].
  rewrite Hb. do 2 f_equal. apply Hhigh. by vm_compute.
Defined.

Lemma count_on_track_bounds (gs : list (gmap string Trait)) (gp : gmap string Q)
    (k n : Z) :
  Fresh.count_on_track gs gp k = Ok n -> (k <= n <= k + Z.of_nat (length gs))%Z.
Proof.
  revert k. induction gs as [|g gs IH]; intros k; cbn [Fresh.count_on_track length].
  - intros [= <-]. lia.
  - destruct (default (TStr "") (g !! "goal_id")) as [s|q|l]; [| |discriminate].
    + destruct (gp !! s) as [p|].
      * destruct (Py.Qltb (1 # 10) p); intros H; apply IH in H; lia.
      * intros H; apply IH in H; lia.
    + intros H; apply IH in H; lia.
Qed.

(** The analysis changes the financial personality, the version number
    and the time of the last update only. *)
Lemma realtime_fields (now : Q) (c : UserContext) :
  let c' := Fresh._add_realtime_analysis now c in
  goals c' = goals c /\ monthly_income c' = monthly_income c /\
  monthly_expenses c' = monthly_expenses c /\ net_worth c' = net_worth c /\
  recent_topics c' = recent_topics c /\ common_questions c' = common_questions c.
Proof.
  intros c'. subst c'. unfold Fresh._add_realtime_analysis.
  destruct (Py.Qltb 0 (monthly_income c) && Py.Qltb 0 (monthly_expenses c));
    cbn [goals goal_progress Context.set_financial_personality];
    destruct (goals c) as [|g gs] eqn:Hg; try done;
    destruct (Fresh.count_on_track (g :: gs) (goal_progress c) 0); done.
Qed.

(** X24. [_add_realtime_analysis] never raises and leaves the goals, the
    income, the expenses, the net worth and the recent topics as they
    are. When every goal identifier can be looked up, the version number
    grows by one, the time of the last update is the current time and,
    if there are goals, the share of goals with more than a tenth of
    progress is recorded as a number between 0 and 1. When a goal
    identifier is a list, the lookup fails: the version number, the
    time of the last update and the recorded share stay as they were. *)
Theorem realtime_goal_achievement (now : Q) (c : UserContext) :
  let c' := Fresh._add_realtime_analysis now c in
  goals c' = goals c /\ monthly_income c' = monthly_income c /\
  monthly_expenses c' = monthly_expenses c /\ net_worth c' = net_worth c /\
  recent_topics c' = recent_topics c /\
  match Fresh.count_on_track (goals c) (goal_progress c) 0 with
  | Ok on_track =>
      context_version c' = (context_version c + 1)%Z /\
      last_updated c' = now /\
      match goals c with
      | [] => financial_personality c' !! "goal_achievement"
              = financial_personality c !! "goal_achievement"
      | _ =>
          exists share,
            financial_personality c' !! "goal_achievement" = Some (TNum share) /\
            share = (inject_Z on_track / inject_Z (Z.of_nat (length (goals c))))%Q /\
            (0 <= share)%Q /\ (share <= 1)%Q
      end
  | Raise _ =>
      context_version c' = context_version c /\
      last_updated c' = last_updated c /\
      financial_personality c' !! "goal_achievement"
      = financial_personality c !! "goal_achievement"
  end.
Proof.
  intros c'. subst c'. unfold Fresh._add_realtime_analysis.
  set (c1 := if Py.Qltb 0 (monthly_income c) && Py.Qltb 0 (monthly_expenses c)
             then _ else c).
  assert (goals c1 = goals c /\ monthly_income c1 = monthly_income c /\
          monthly_expenses c1 = monthly_expenses c /\ net_worth c1 = net_worth c /\
          recent_topics c1 = recent_topics c /\ goal_progress c1 = goal_progress c /\
          context_version c1 = context_version c /\ last_updated c1 = last_updated c /\
          financial_personality c1 !! "goal_achievement"
          = financial_personality c !! "goal_achievement")
    as (Hg & Hi & He & Hn & Ht & Hp & Hv & Hu & Hf).
  { unfold c1. destruct (_ && _); [|done]. simpl.
    by rewrite !lookup_insert_ne. }
  rewrite Hg, Hp.
  destruct (goals c) as [|g gs] eqn:Hgoals.
  - cbn [Fresh.count_on_track goals monthly_income monthly_expenses net_worth
         recent_topics context_version last_updated financial_personality
         Context.touch].
    by rewrite Hv.
  - destruct (Fresh.count_on_track (g :: gs) (goal_progress c) 0) as [n|e] eqn:Hcount.
    + cbn [goals monthly_income monthly_expenses net_worth recent_topics
           context_version last_updated financial_personality
           Context.touch Context.set_financial_personality].
      rewrite Hg, Hv. split; [done|]. split; [done|]. split; [done|].
      split; [done|]. split; [done|]. split; [done|]. split; [done|].
      eexists. split; [by rewrite lookup_insert_eq|]. split; [done|].
      apply count_on_track_bounds in Hcount.
      set (len := Z.of_nat (length (g :: gs))) in *.
      assert (0 < len)%Z as Hlen by (unfold len; simpl; lia).
      split.
      * apply Qle_shift_div_l; [unfold Qlt, inject_Z; simpl; lia|].
        unfold Qle, Qmult, inject_Z. simpl. lia.
      * apply Qle_shift_div_r; [unfold Qlt, inject_Z; simpl; lia|].
        unfold Qle, Qmult, inject_Z. simpl. lia.
    + done.
Qed.

Lemma build_fresh_context_topics {X : Type}
    (build_user_context : string -> M X UserContext) (now : X -> Q)
    (uid : string) (x x' : X) (c : UserContext) :
  Fresh._build_fresh_context build_user_context now uid x = (Ok c, x') ->
  recent_topics c = Fresh.sample_topics /\
  common_questions c = Fresh.sample_questions.
Proof.
  unfold Fresh._build_fresh_context, bind.
  destruct (build_user_context uid x) as [[d|e] x1]; [|discriminate].
  intros [= <- <-].
  pose proof (realtime_fields (now x1)
                (Fresh._enhance_with_conversation_insights d)) as H.
  cbv zeta in H. destruct H as (_ & _ & _ & _ & Ht & Hq).
  split; [by rewrite Ht|by rewrite Hq].
Qed.


(** X25. Every context that [get_user_context] builds anew carries the
    three sample topics and the three sample questions of
    [_enhance_with_conversation_insights], whatever the data service
    delivered. So the topics that [update_context_from_conversation] has
    learned from a message are gone after the next forced refresh. *)
Theorem rebuild_resets_topics {X : Type}
    (build_user_context : string -> M X UserContext) (now : X -> Q) (ttl : Q)
    (uid message : string) (s s1 : Context.Service X) (c : UserContext) :
  let senv := Fresh.service_env build_user_context now ttl in
  Context.get_user_context senv uid true
    (Context.update_context_from_conversation senv uid message s) = (Ok c, s1) ->
  recent_topics c = Fresh.sample_topics /\
  common_questions c = Fresh.sample_questions /\
  Context._context_cache s1 !! uid = Some c.
Proof.
  intros senv. unfold Context.get_user_context. cbn [negb andb].
  set (s0 := Context.update_context_from_conversation senv uid message s).
  destruct (Context._build_fresh_context senv uid (Context.outside s0))
    as [[c0|e] x] eqn:Hb; [|discriminate].
  intros [= <- <-]. apply build_fresh_context_topics in Hb as [Ht Hq].
  split; [done|]. split; [done|]. simpl. by rewrite lookup_insert_eq.
Qed.

Lemma rebuild_resets_topics_witness :
  exists learned c s1,
    Context._context_cache
      (Context.update_context_from_conversation
         (Fresh.service_env (fun uid => ret (Demo.context uid)) (fun x => x) 3600)
         "u1" "We want to buy a house" Demo.service) !! "u1" = Some learned /\
    recent_topics learned = ["retirement planning"; "home purchase"] /\
    Context.get_user_context
      (Fresh.service_env (fun uid => ret (Demo.context uid)) (fun x => x) 3600)
      "u1" true
      (Context.update_context_from_conversation
         (Fresh.service_env (fun uid => ret (Demo.context uid)) (fun x => x) 3600)
         "u1" "We want to buy a house" Demo.service) = (Ok c, s1) /\
    recent_topics c
    = ["retirement planning"; "emergency fund"; "investment allocation"].
Proof.
  eexists _, _, _. split; [by vm_compute|]. split; [reflexivity|].
  split; [reflexivity|].
  eapply (rebuild_resets_topics (fun uid => ret (Demo.context uid)) (fun x => x) 3600
            "u1" "We want to buy a house" Demo.service).
  reflexivity.
Defined.


(** ** The completeness of a user record *)

Lemma min_credit (k d : Z) :
  (0 < d)%Z -> (0 <= k)%Z ->
  (0 <= Qmin 1 (inject_Z k / inject_Z d))%Q /\
  (Qmin 1 (inject_Z k / inject_Z d) <= 1)%Q /\
  ((Qmin 1 (inject_Z k / inject_Z d) == 1)%Q <-> (d <= k)%Z).
Proof.
  intros Hd Hk.
  assert (0 < inject_Z d)%Q as Hdq by (unfold Qlt, inject_Z; simpl; lia).
  assert (0 <= inject_Z k / inject_Z d)%Q as Hnn.
  { apply Qle_shift_div_l; [done|]. unfold Qle, Qmult, inject_Z. simpl. lia. }
  assert ((1 <= inject_Z k / inject_Z d)%Q <-> (d <= k)%Z) as Hone.
  { split; intros H.
    - apply (Qmult_le_r _ _ _ Hdq) in H. unfold Qdiv in H.
      rewrite <- Qmult_assoc, (Qmult_comm (/ _)), Qmult_inv_r, Qmult_1_r, Qmult_1_l in H
        by (intros E; rewrite E in Hdq; by apply (Qlt_irrefl 0)).
      by rewrite <- Zle_Qle in H.
    - apply Qle_shift_div_l; [done|]. rewrite Qmult_1_l. by rewrite <- Zle_Qle. }
  split; [apply Q.min_glb; [by unfold Qle | done]|].
  split; [apply Q.le_min_l|].
  split; intros H.
  - apply Hone. rewrite <- H. apply Q.le_min_r.
  - apply Q.min_l. by apply Hone.
Qed.

Lemma len_nonneg (v : Data.Field) (k : Z) : Data.len v = Ok k -> (0 <= k)%Z.
Proof. destruct v; simpl; intros [= <-]; lia. Qed.

(** One pass of the loop of [_calculate_context_completeness]: the
    field is skipped, or earns a credit up to its weight, or [len]
    fails on it. *)
Lemma completeness_step (field : string) (weight : Q)
    (fields : list (string * Q)) (ud : gmap string Data.Field) (total : Q) :
  (0 < weight)%Q ->
  (Data.completeness_loop ((field, weight) :: fields) ud total
   = Data.completeness_loop fields ud total /\ ~ complete_field ud field)
  \/ (exists credit,
        Data.completeness_loop ((field, weight) :: fields) ud total
        = Data.completeness_loop fields ud (total + credit)%Q /\
        (0 <= credit)%Q /\ (credit <= weight)%Q /\
        ((credit == weight)%Q <-> complete_field ud field))
  \/ (exists e v,
        Data.completeness_loop ((field, weight) :: fields) ud total = Raise e /\
        field ∈ ["accounts"; "goals"] /\
        ud !! field = Some v /\ Data.truthy v = true /\ Data.len v = Raise e).
Proof.
  intros Hw. cbn [Data.completeness_loop]. unfold complete_field.
  destruct (ud !! field) as [v|] eqn:Hv.
  2: { left. split; [done|]. by intros (v & k & [=] & _). }
  destruct (Data.truthy v) eqn:Ht.
  2: { left. split; [done|]. intros (v' & k & [= <-] & Ht' & _). congruence. }
  destruct (String.eqb_spec field "accounts") as [->|Hna].
  { destruct (Data.len v) as [k|e] eqn:Hl.
    - right. left. eexists. split; [reflexivity|].
      destruct (min_credit k 3 ltac:(lia) (len_nonneg _ _ Hl)) as (H0 & H1 & H3).
      change (inject_Z 3) with 3%Q in *.
      set (m := Qmin 1 (inject_Z k / 3)) in *.
      split; [by apply Qmult_le_0_compat; [apply Qlt_le_weak|]|].
      split.
      { rewrite <- (Qmult_1_r weight) at 2.
        apply Qmult_le_l; [done|done]. }
      split.
      + intros E. exists v, k. split; [done|]. split; [done|].
        split; [|discriminate]. intros _. split; [done|]. apply H3.
        apply (Qmult_inj_l _ _ weight); [intros E'; rewrite E' in Hw;
                                          by apply (Qlt_irrefl 0)|].
        by rewrite Qmult_1_r.
      + intros (v' & k' & [= <-] & _ & Ha & _). destruct (Ha eq_refl) as [Hl' Hk'].
        rewrite Hl in Hl'. injection Hl' as <-.
        assert (m == 1)%Q as -> by by apply H3. by rewrite Qmult_1_r.
    - right. right. exists e, v. split; [done|]. split; [left|done]. }
  destruct (String.eqb_spec field "goals") as [->|Hng].
  { destruct (Data.len v) as [k|e] eqn:Hl.
    - right. left. eexists. split; [reflexivity|].
      destruct (min_credit k 2 ltac:(lia) (len_nonneg _ _ Hl)) as (H0 & H1 & H3).
      change (inject_Z 2) with 2%Q in *.
      set (m := Qmin 1 (inject_Z k / 2)) in *.
      split; [by apply Qmult_le_0_compat; [apply Qlt_le_weak|]|].
      split.
      { rewrite <- (Qmult_1_r weight) at 2.
        apply Qmult_le_l; [done|done]. }
      split.
      + intros E. exists v, k. split; [done|]. split; [done|].
        split; [discriminate|]. intros _. split; [done|]. apply H3.
        apply (Qmult_inj_l _ _ weight); [intros E'; rewrite E' in Hw;
                                          by apply (Qlt_irrefl 0)|].
        by rewrite Qmult_1_r.
      + intros (v' & k' & [= <-] & _ & _ & Hg). destruct (Hg eq_refl) as [Hl' Hk'].
        rewrite Hl in Hl'. injection Hl' as <-.
        assert (m == 1)%Q as -> by by apply H3. by rewrite Qmult_1_r.
    - right. right. exists e, v. split; [done|]. split; [right; left|done]. }
  right. left. exists weight. split; [done|]. split; [by apply Qlt_le_weak|].
  split; [apply Qle_refl|]. split; [|done].
  intros _. by exists v, 0%Z.
Qed.

Lemma completeness_loop_spec (fields : list (string * Q))
    (ud : gmap string Data.Field) (total q : Q) :
  Forall (fun fw => (0 < snd fw)%Q) fields ->
  Data.completeness_loop fields ud total = Ok q ->
  (total <= q)%Q /\ (q <= total + sum_weights fields)%Q /\
  ((q == total + sum_weights fields)%Q
   <-> Forall (fun fw => complete_field ud (fst fw)) fields).
Proof.
  intros Hpos. revert total. induction Hpos as [|[f w] fields Hw _ IH]; intros total.
  - cbn [Data.completeness_loop sum_weights foldr]. intros [= <-].
    split; [lra|]. split; [lra|]. split; [constructor|intros _; lra].
  - simpl in Hw. cbn [sum_weights foldr snd]. fold (sum_weights fields).
    rewrite Forall_cons. cbn [fst].
    destruct (completeness_step f w fields ud total Hw)
      as [[-> Hn]|[(c & -> & Hc0 & Hcw & Hfull)|(e & v & -> & _)]]; [| |discriminate].
    + intros Hq. destruct (IH _ Hq) as (H1 & H2 & _).
      split; [done|]. split; [lra|]. split; [intros E; lra|tauto].
    + intros Hq. destruct (IH _ Hq) as (H1 & H2 & H3).
      split; [lra|]. split; [lra|]. split.
      * intros E. split; [apply Hfull; lra|apply H3; lra].
      * intros [Hf Hr]. apply Hfull in Hf. apply H3 in Hr. lra.
Qed.

(** The loop reads a field only when it is present and true. *)
Lemma completeness_loop_ext (fields : list (string * Q))
    (ud ud' : gmap string Data.Field) (total : Q) :
  (forall f,
     match ud !! f with Some v => if Data.truthy v then Some v else None | None => None end
     = match ud' !! f with Some v => if Data.truthy v then Some v else None | None => None end) ->
  Data.completeness_loop fields ud total = Data.completeness_loop fields ud' total.
Proof.
  intros Hext. revert total. induction fields as [|[f w] fields IH]; intros total; [done|].
  cbn [Data.completeness_loop]. specialize (Hext f).
  destruct (ud !! f) as [v|], (ud' !! f) as [v'|];
    try destruct (Data.truthy v) eqn:Ht; try destruct (Data.truthy v') eqn:Ht';
    try discriminate; try apply IH.
  injection Hext as <-.
  repeat case_match; try done; apply IH.
Qed.

(** The loop raises only when [len] fails on the accounts or the goals. *)
Lemma completeness_loop_raise (fields : list (string * Q))
    (ud : gmap string Data.Field) (total : Q) (e : string) :
  Forall (fun fw => (0 < snd fw)%Q) fields ->
  Data.completeness_loop fields ud total = Raise e ->
  exists field v,
    field ∈ ["accounts"; "goals"] /\ ud !! field = Some v /\
    Data.truthy v = true /\ Data.len v = Raise e.
Proof.
  intros Hpos. revert total. induction Hpos as [|[f w] fields Hw _ IH]; intros total.
  - discriminate.
  - simpl in Hw.
    destruct (completeness_step f w fields ud total Hw)
      as [[-> _]|[(c & -> & _)|(e' & v & -> & Hin & Hv & Ht & Hl)]].
    + apply IH.
    + apply IH.
    + intros [= <-]. by exists f, v.
Qed.

(** X26. [_calculate_context_completeness] returns a score between 0
    and 1 for every user record whose accounts and goals have a length;
    the score is 1 exactly when all eight required fields are present
    and true with at least three accounts and two goals. It raises only
    when the accounts or the goals are a true value without length. A
    field that is present but false, such as an income of 0, counts
    exactly as if it were missing. *)
Theorem context_completeness_bounds (user_data : gmap string Data.Field) :
  match Data._calculate_context_completeness user_data with
  | Ok score =>
      (0 <= score)%Q /\ (score <= 1)%Q /\
      ((score == 1)%Q
       <-> Forall (fun fw => complete_field user_data (fst fw)) Data.required_fields)
  | Raise e =>
      exists field v,
        field ∈ ["accounts"; "goals"] /\ user_data !! field = Some v /\
        Data.truthy v = true /\ Data.len v = Raise e
  end /\
  forall field v,
    Data.truthy v = false ->
    Data._calculate_context_completeness (<[field := v]> user_data)
    = Data._calculate_context_completeness (delete field user_data).
Proof.
  assert (Forall (fun fw => (0 < snd fw)%Q) Data.required_fields) as Hpos
    by repeat constructor.
  split.
  - unfold Data._calculate_context_completeness.
    destruct (Data.completeness_loop Data.required_fields user_data 0) as [q|e] eqn:Hq.
    + apply completeness_loop_spec in Hq as (H0 & H1 & H2); [|done].
      assert (0 + sum_weights Data.required_fields == 1)%Q as E by by vm_compute.
      rewrite E in H1, H2. done.
    + by apply completeness_loop_raise in Hq.
  - intros field v Hv. unfold Data._calculate_context_completeness.
    apply completeness_loop_ext. intros f.
    destruct (decide (field = f)) as [->|Hne].
    + by rewrite lookup_insert_eq, lookup_delete_eq, Hv.
    + by rewrite lookup_insert_ne, lookup_delete_ne.
Qed.


(** ** The net worth of a user *)

Lemma net_worth_loop_app (accounts rest : list (gmap string Trait))
    (assets liabilities n : Q) :
  Worth.net_worth_loop accounts assets liabilities = Ok n ->
  exists assets' liabilities',
    n = (assets' - liabilities')%Q /\
    Worth.net_worth_loop (accounts ++ rest) assets liabilities
    = Worth.net_worth_loop rest assets' liabilities'.
Proof.
  revert assets liabilities.
  induction accounts as [|a accounts IH]; intros assets liabilities.
  - intros [= <-]. by exists assets, liabilities.
  - cbn [Worth.net_worth_loop app].
    destruct (default (TNum 0) (a !! "balance")) as [s|b|l];
      destruct (Worth.is_liability a); try discriminate; apply IH.
Qed.

(** X28. [calculate_user_net_worth] treats one more account at the end
    of the list as follows: an account of type mortgage, student_loan or
    credit_card lowers the net worth by the absolute value of its
    balance, whatever the sign of the balance, so that it never raises
    it; any other account, also one without a type, adds its balance. *)
Theorem net_worth_of_one_more_account (accounts : list (gmap string Trait))
    (account : gmap string Trait) (balance n : Q) :
  Worth.calculate_user_net_worth accounts = Ok n ->
  account !! "balance" = Some (TNum balance) ->
  exists n',
    Worth.calculate_user_net_worth (accounts ++ [account]) = Ok n' /\
    if Worth.is_liability account
    then (n' == n - Qabs balance)%Q /\ (n' <= n)%Q
    else (n' == n + balance)%Q.
Proof.
  unfold Worth.calculate_user_net_worth. intros Hn Hb.
  destruct (net_worth_loop_app accounts [account] 0 0 n Hn)
    as (assets & liabilities & -> & ->).
  cbn [Worth.net_worth_loop]. rewrite Hb. cbn [default].
  destruct (Worth.is_liability account).
  - eexists. split; [reflexivity|].
    pose proof (Qabs_nonneg balance) as Habs. split; [ring|lra].
  - eexists. split; [reflexivity|]. ring.
Qed.

Lemma net_worth_of_one_more_account_witness :
  exists n',
    Worth.calculate_user_net_worth
      ([ {["type" := TStr "checking"; "balance" := TNum 5000]} ]
       ++ [ {["type" := TStr "credit_card"; "balance" := TNum 1200]} ])
    = Ok n' /\
    (n' == 3800)%Q /\ (n' <= 5000)%Q.
Proof.
  edestruct (net_worth_of_one_more_account
               [ {["type" := TStr "checking"; "balance" := TNum 5000]} ]
               {["type" := TStr "credit_card"; "balance" := TNum 1200]} 1200)
    as (n' & Hn & Hl).
  { vm_compute. reflexivity. }
  { vm_compute. reflexivity. }
  assert (Worth.is_liability {["type" := TStr "credit_card"; "balance" := TNum 1200]}
          = true) as E by (vm_compute; reflexivity).
  rewrite E in Hl. destruct Hl as [He Hle].
  exists n'. split; [exact Hn|]. split.
  - rewrite He. by vm_compute.
  - eapply Qle_trans; [exact Hle|]. by vm_compute.
Defined.
